(** * Inventory projection and risk classification of the meeting-data app

    A shallow embedding of the arithmetic core of the repository:
    [utils/dw309.py], [utils/order_planning.py], [utils/forecast.py],
    [utils/prediction_review.py] and the discussion-list builder of
    [app.py].

    Conventions of the embedding.
    - Numbers.  The JSON figures are Python ints and floats.  The
      modules named after the sources read them as exact rationals [Qc]
      (canonical fractions, so that Python's [==] on numbers is Leibniz
      equality): comparisons, lookups and the order of the operations are
      those of the code, rounding errors of binary floating point are
      not.  Where a property depends on the rounding, the module
      [dw309_binary64] has the projection on Python's own numbers,
      [int]s and binary64 [float]s ([PyNum]); on data whose months all
      compute with [int]s the two readings agree ([steps_exact]).
    - Null figures.  A record of [MonthlyData] holds numbers; the module
      [order_planning_nullable] has the two averages of
      [utils/order_planning.py] on records whose figures may be [null].
    - Dictionaries.  [monthly_data] is month label -> item id -> field
      name -> number, a [gmap] with string keys at each level.
      [d.get(k, default)] is [get]; [d[k]] is [getitem], which can fail
      with [KeyError].
    - DataFrames are lists of records, one record per row, with one
      field per column. *)

From Stdlib Require Import ZArith QArith Qcanon Lia Lqa Ascii String.
From Stdlib Require Qcabs.
From Stdlib Require Import Floats.SpecFloat.
From stdpp Require Import gmap strings list fin_maps numbers sorting.

Local Open Scope Qc_scope.

(** Number literals other than [0] and [1]. *)
Abbreviation num := Qc_of_Z.

Abbreviation Fields := (gmap string Qc).
Abbreviation Payload := (gmap string (gmap string Qc)).
Abbreviation MonthlyData := (gmap string (gmap string (gmap string Qc))).

(** ** Python built-ins used by the sources *)

Module Py.

(** [d.get(k, default)] *)
Definition get {V : Type} (d : gmap string V) (k : string) (default_ : V) : V :=
  match d !! k with
  | Some v => v
  | None => default_
  end.

(** [monthly_data.get(month, {}).get(item_id, {})] *)
Definition payload_of (monthly_data : MonthlyData) (month item_id : string) : Fields :=
  get (get monthly_data month ∅) item_id ∅.

(** [sum(xs)]: left-to-right accumulation from [0]. *)
Definition sum (xs : list Qc) : Qc := fold_left Qcplus xs 0.

(** [len(xs)] as a number. *)
Definition len (xs : list Qc) : Qc := Qc_of_Z (Z.of_nat (length xs)).

(** Nearest integer, ties to the even one. *)
Definition round_half_even (x : Qc) : Z :=
  let n := Qnum (this x) in
  let d := Z.pos (Qden (this x)) in
  let q := (n / d)%Z in
  let r := (n mod d)%Z in
  if (2 * r <? d)%Z then q
  else if (d <? 2 * r)%Z then (q + 1)%Z
  else if Z.even q then q else (q + 1)%Z.

(** [round(x, 1)] on the exact value of [x]. *)
Definition round1 (x : Qc) : Qc :=
  Qc_of_Z (round_half_even (x * num 10)) / num 10.

(** Failure of [d[k]]. *)
Inductive result (A : Type) : Type :=
| Ok (a : A)
| KeyError (key : string).
Arguments Ok {A} a.
Arguments KeyError {A} key.

Definition bind {A B : Type} (r : result A) (k : A -> result B) : result B :=
  match r with
  | Ok a => k a
  | KeyError key => KeyError key
  end.

(** [d[k]] *)
Definition getitem {V : Type} (d : gmap string V) (k : string) : result V :=
  match d !! k with
  | Some v => Ok v
  | None => KeyError k
  end.

(** A [for] loop whose body may raise and appends one row per element. *)
Fixpoint for_each {A B : Type} (body : A -> result B) (xs : list A) : result (list B) :=
  match xs with
  | [] => Ok []
  | x :: rest =>
      bind (body x) (fun row =>
      bind (for_each body rest) (fun rows => Ok (row :: rows)))
  end.

(** [sorted(xs, key=key)] for string keys: a stable sort, strings being
    compared code point by code point, which on their UTF-8 bytes is the
    order of [String.leb]. *)
Fixpoint insert_sorted {A : Type} (key : A -> string) (x : A) (xs : list A) : list A :=
  match xs with
  | [] => [x]
  | y :: rest =>
      if String.leb (key x) (key y) then x :: y :: rest
      else y :: insert_sorted key x rest
  end.

Definition sorted {A : Type} (key : A -> string) (xs : list A) : list A :=
  foldr (insert_sorted key) [] xs.

(** [table.get(k, default)] on a dictionary literal, given as the list of
    its entries. *)
Fixpoint table_get {V : Type} (table : list (string * V)) (k : string) (default_ : V) : V :=
  match table with
  | [] => default_
  | (k', v) :: rest => if bool_decide (k' = k) then v else table_get rest k default_
  end.

(** [max(a, b)] and [min(a, b)]: the first argument wins a tie. *)
Definition max (a b : Qc) : Qc := if bool_decide (a < b) then b else a.
Definition min (a b : Qc) : Qc := if bool_decide (b < a) then b else a.

(** [round(x)] on the exact value of [x]. *)
Definition round0 (x : Qc) : Qc := Qc_of_Z (round_half_even x).

End Py.

Notation "x <- r ;; k" := (Py.bind r (fun x => k))
  (at level 100, r at next level, right associativity, only parsing).

(** ** Field names of the monthly records *)

Definition K_INCOMING : string := "入庫".
Definition K_OUTGOING : string := "出庫".
Definition K_STOCK : string := "在庫".
Definition K_PREDICTED_STOCK : string := "予測在庫".
Definition K_CURRENT_STOCK : string := "現在庫".
Definition K_IN_TRANSIT : string := "入荷見込み".
Definition K_ARRANGED : string := "手配済み".
Definition K_USAGE_FORECAST : string := "使用量予測".

(** ** utils/dw309.py *)

Module dw309.

(** A parsed ["%Y-%m"] label: year and month (1..12). *)
Record YearMonth : Type := { ym_year : nat; ym_month : nat }.

Definition digit (n : nat) : ascii := ascii_of_nat (48 + n mod 10).

(** [strftime("%Y-%m")] for four-digit years. *)
Definition strftime (d : YearMonth) : string :=
  let y := ym_year d in
  let m := ym_month d in
  String (digit (y / 1000)) (String (digit (y / 100)) (String (digit (y / 10))
    (String (digit y) (String "-" (String (digit (m / 10)) (String (digit m) "")))))).

(** [start + relativedelta(months=offset)] *)
Definition add_months (start : YearMonth) (offset : nat) : YearMonth :=
  let total := (ym_month start - 1 + offset)%nat in
  {| ym_year := (ym_year start + total / 12)%nat;
     ym_month := (total mod 12 + 1)%nat |}.

(** [months_ahead] counts months, so the range is never empty. *)
Definition _month_range (start_month : YearMonth) (months_ahead : nat) : list string :=
  fmap (fun offset => strftime (add_months start_month offset))
       (seq 0 (months_ahead + 1)).

(** The first loop of [calculate_usage_average], and the second one with
    its own key: append the value when the lookup is not [None]. *)
Fixpoint collect (monthly_data : MonthlyData) (item_id key : string)
    (months : list string) (candidates : list Qc) : list Qc :=
  match months with
  | [] => candidates
  | month :: rest =>
      let value := Py.payload_of monthly_data month item_id !! key in
      let candidates :=
        match value with
        | Some v => candidates ++ [v]
        | None => candidates
        end in
      collect monthly_data item_id key rest candidates
  end.

Definition FORECAST_WINDOW : list string := ["2026-01"; "2026-02"; "2026-03"]%string.
Definition HISTORY_WINDOW : list string := ["2025-10"; "2025-11"; "2025-12"]%string.

Definition calculate_usage_average (monthly_data : MonthlyData) (item_id : string) : Qc :=
  let candidates := collect monthly_data item_id K_USAGE_FORECAST FORECAST_WINDOW [] in
  let candidates :=
    match candidates with
    | [] => collect monthly_data item_id K_OUTGOING HISTORY_WINDOW candidates
    | _ => candidates
    end in
  match candidates with
  | [] => 0
  | _ => Py.sum candidates / Py.len candidates
  end.

Definition STOCKOUT : string := "🔴欠品".
Definition CRITICAL : string := "🔴危険".
Definition EXCESS : string := "🟠過剰".
Definition NORMAL : string := "✅適正".

(** The [if]/[elif] chain of the loop body that labels a month end. *)
Definition status_of (month_end safety_stock max_stock : Qc) : string :=
  if bool_decide (month_end < 0) then STOCKOUT
  else if bool_decide (month_end < safety_stock) then CRITICAL
  else if bool_decide (max_stock < month_end) then EXCESS
  else NORMAL.

(** The [if]/[elif] chain of the loop body that reads the month's
    incoming and usage figures. *)
Definition figures (payload : Fields) (month : string) (usage_avg : Qc) : Qc * Qc :=
  if bool_decide (month = "2026-01"%string) then
    (Py.get payload K_IN_TRANSIT 0, Py.get payload K_USAGE_FORECAST usage_avg)
  else if bool_decide (month = "2026-02"%string) then
    (Py.get payload K_ARRANGED 0, Py.get payload K_USAGE_FORECAST usage_avg)
  else if bool_decide (month = "2026-03"%string) then
    (Py.get payload K_INCOMING 0, Py.get payload K_USAGE_FORECAST usage_avg)
  else
    (Py.get payload K_INCOMING 0, Py.get payload K_USAGE_FORECAST usage_avg).

(** The local variables of one iteration of the loop, before the row
    rounds them for display. *)
Record Step : Type := {
  st_month : string;
  st_month_start : Qc;
  st_incoming : Qc;
  st_usage : Qc;
  st_month_end : Qc;
  st_status : string;
}.

(** One row of the returned DataFrame. *)
Record Row : Type := {
  row_month : string;        (* 月 *)
  row_month_start : Qc;      (* 月初在庫 *)
  row_incoming : Qc;         (* 入庫🔒 *)
  row_usage : Qc;            (* 使用📊 *)
  row_month_end : Qc;        (* 月末📊 *)
  row_status : string;       (* 状態 *)
}.

Definition to_row (s : Step) : Row :=
  {| row_month := st_month s;
     row_month_start := Py.round1 (st_month_start s);
     row_incoming := Py.round1 (st_incoming s);
     row_usage := Py.round1 (st_usage s);
     row_month_end := Py.round1 (st_month_end s);
     row_status := st_status s |}.

(** [for index, month in enumerate(months)]: [n] is [len(months)] of the
    whole list, [index] the position of the head of [months]; the loop
    threads [month_start] and returns its last value. *)
Fixpoint loop (monthly_data : MonthlyData) (item_id : string)
    (usage_avg safety_stock max_stock order_qty : Qc)
    (n : nat) (index : nat) (months : list string) (month_start : Qc)
    : list Step * Qc :=
  match months with
  | [] => ([], month_start)
  | month :: rest =>
      let payload := Py.payload_of monthly_data month item_id in
      let '(incoming, usage) := figures payload month usage_avg in
      let incoming :=
        if bool_decide (Z.of_nat index = Z.of_nat n - 1)%Z
        then incoming + order_qty else incoming in
      let month_end := month_start + incoming - usage in
      let status := status_of month_end safety_stock max_stock in
      let step :=
        {| st_month := month; st_month_start := month_start;
           st_incoming := incoming; st_usage := usage;
           st_month_end := month_end; st_status := status |} in
      let '(steps, final) :=
        loop monthly_data item_id usage_avg safety_stock max_stock order_qty
             n (S index) rest month_end in
      (step :: steps, final)
  end.

Record Summary : Type := {
  usage_avg : Qc;
  final_month_end : Qc;
  final_month : string;
}.

(** The iterations of the loop of [build_dw309_forecast]. *)
Definition steps (monthly_data : MonthlyData) (item_id : string)
    (current_stock safety_stock max_stock order_qty : Qc)
    (start_month : YearMonth) (months_ahead : nat) : list Step * Qc :=
  let months := _month_range start_month months_ahead in
  let usage_avg := calculate_usage_average monthly_data item_id in
  loop monthly_data item_id usage_avg safety_stock max_stock order_qty
       (length months) 0 months current_stock.

Definition build_dw309_forecast (monthly_data : MonthlyData) (item_id : string)
    (current_stock safety_stock max_stock order_qty : Qc)
    (start_month : YearMonth) (months_ahead : nat) : list Row * Summary :=
  let months := _month_range start_month months_ahead in
  let '(trace, month_start) :=
    steps monthly_data item_id current_stock safety_stock max_stock order_qty
          start_month months_ahead in
  (fmap to_row trace,
   {| usage_avg := calculate_usage_average monthly_data item_id;
      final_month_end := month_start;
      final_month := List.last months ""%string |}).

(** The defaults of the signature: [start_month="2026-01"], [months_ahead=7]. *)
Definition DEFAULT_START : YearMonth := {| ym_year := 2026; ym_month := 1 |}.
Definition DEFAULT_MONTHS_AHEAD : nat := 7.

(** [calculate_prediction_error]: the loop over [monthly_data.items()],
    given as the list of (month, payload) pairs in the order of the
    dictionary; [errors] is the list built so far. *)
Fixpoint prediction_errors (items : list (string * Payload)) (item_id : string)
    (errors : list Qc) : list Qc :=
  match items with
  | [] => errors
  | (month, payload) :: rest =>
      let item_payload := Py.get payload item_id ∅ in
      let errors :=
        if bool_decide (is_Some (item_payload !! K_PREDICTED_STOCK))
           && bool_decide (is_Some (item_payload !! K_STOCK))
        then
          let predicted := Py.get item_payload K_PREDICTED_STOCK 0 in
          let actual := Py.get item_payload K_STOCK 0 in
          if bool_decide (predicted <> 0)
          then errors ++ [Qcabs.Qcabs (actual - predicted) / predicted * num 100]
          else errors
        else errors in
      prediction_errors rest item_id errors
  end.

(** [errors[-3:]] *)
Definition last_three (errors : list Qc) : list Qc := drop (length errors - 3) errors.

Definition calculate_prediction_error (items : list (string * Payload)) (item_id : string)
    : option Qc :=
  let errors := prediction_errors items item_id [] in
  match errors with
  | [] => None
  | _ =>
      let errors := last_three errors in
      Some (Py.sum errors / Py.len errors)
  end.

Definition COLOR_RED : string := "#ffebee".
Definition COLOR_ORANGE : string := "#fff3e0".
Definition COLOR_WHITE : string := "#ffffff".

(** The colour that [highlight_row] of [style_dw309_forecast] picks for a
    row of the table. *)
Definition row_color (row : Row) (safety_stock max_stock : Qc) : string :=
  let month_end := row_month_end row in
  if bool_decide (month_end < safety_stock) then COLOR_RED
  else if bool_decide (max_stock < month_end) then COLOR_ORANGE
  else COLOR_WHITE.

(** [highlight_row]: one style per column of the row. *)
Definition highlight_row (row : Row) (safety_stock max_stock : Qc) : list string :=
  replicate 6 ("background-color: " ++ row_color row safety_stock max_stock)%string.

End dw309.

(** ** Python numbers

    The definitions above compute in exact rationals.  Python computes
    [sum(...) / len(...)] in binary64, and every sum or difference that
    involves the result is a binary64 operation as well.  This module has
    the numbers as Python has them, for figures that are integers, as the
    JSON data of the repository has them: an [int] is exact and unbounded,
    a [float] is a binary64 value, computed by the operations of
    [SpecFloat] with rounding to nearest even.  [None] stands for the
    exception that the operation raises (OverflowError for an [int] too
    large for a float, ZeroDivisionError). *)

Module PyNum.

Definition prec : Z := 53.
Definition emax : Z := 1024.

Inductive number : Type :=
| Int (z : Z)
| Float (f : spec_float).

(** [float(z)] *)
Definition float_of_int (z : Z) : option spec_float :=
  match binary_normalize prec emax z 0 false with
  | S754_infinity _ => None
  | f => Some f
  end.

(** The conversion of an operand of a mixed operation. *)
Definition to_float (x : number) : option spec_float :=
  match x with
  | Int z => float_of_int z
  | Float f => Some f
  end.

(** [x + y] *)
Definition add (x y : number) : option number :=
  match x, y with
  | Int a, Int b => Some (Int (a + b)%Z)
  | _, _ =>
      match to_float x, to_float y with
      | Some a, Some b => Some (Float (SFadd prec emax a b))
      | _, _ => None
      end
  end.

(** [x - y] *)
Definition sub (x y : number) : option number :=
  match x, y with
  | Int a, Int b => Some (Int (a - b)%Z)
  | _, _ =>
      match to_float x, to_float y with
      | Some a, Some b => Some (Float (SFsub prec emax a b))
      | _, _ => None
      end
  end.

(** An [int] as the exact dividend or divisor of a true division: its
    mantissa is not rounded. *)
Definition exact_float (z : Z) : spec_float :=
  match z with
  | Z0 => S754_zero false
  | Zpos p => S754_finite false p 0
  | Zneg p => S754_finite true p 0
  end.

(** [a / b] for two [int]s: the float nearest to the quotient. *)
Definition truediv (a b : Z) : option number :=
  if bool_decide (b = 0%Z) then None
  else
    match SFdiv prec emax (exact_float a) (exact_float b) with
    | S754_infinity _ => None
    | f => Some (Float f)
    end.

(** The rational that a finite float is; 0 for the others. *)
Definition float_value (f : spec_float) : Qc :=
  match f with
  | S754_finite s m e => Q2Qc (inject_Z (cond_Zopp s (Zpos m)) * Qpower 2 e)
  | _ => 0
  end.

Definition value (x : number) : Qc :=
  match x with
  | Int z => num z
  | Float f => float_value f
  end.

(** [x < k] and [x > k] for an [int] [k]: Python compares an [int] and
    a [float] by their exact values. *)
Definition lt_int (x : number) (k : Z) : bool :=
  match x with
  | Int z => bool_decide (z < k)%Z
  | Float S754_nan => false
  | Float (S754_infinity s) => s
  | Float f => bool_decide (float_value f < num k)
  end.

Definition gt_int (x : number) (k : Z) : bool :=
  match x with
  | Int z => bool_decide (k < z)%Z
  | Float S754_nan => false
  | Float (S754_infinity s) => negb s
  | Float f => bool_decide (num k < float_value f)
  end.

End PyNum.

(** ** utils/dw309.py on Python numbers

    The projection of [build_dw309_forecast] once more, on integer
    figures and with the arithmetic of [PyNum]: the stock, the thresholds
    and the order are [int]s, as [app.py] passes them, and so are the
    figures of the monthly data.  The steps are the local variables of the
    loop; the rows of the table show them through [round(x, 1)], which
    raises nothing. *)

Module dw309_binary64.

Import PyNum.

Abbreviation IntFields := (gmap string Z).
Abbreviation IntData := (gmap string (gmap string (gmap string Z))).

(** [monthly_data.get(month, {}).get(item_id, {})] *)
Definition payload_of (monthly_data : IntData) (month item_id : string) : IntFields :=
  Py.get (Py.get monthly_data month ∅) item_id ∅.

Fixpoint collect (monthly_data : IntData) (item_id key : string)
    (months : list string) (candidates : list Z) : list Z :=
  match months with
  | [] => candidates
  | month :: rest =>
      let value := payload_of monthly_data month item_id !! key in
      let candidates :=
        match value with
        | Some v => candidates ++ [v]
        | None => candidates
        end in
      collect monthly_data item_id key rest candidates
  end.

(** [sum(candidates)] of [int]s *)
Definition sum (candidates : list Z) : Z := fold_left Z.add candidates 0%Z.

Definition calculate_usage_average (monthly_data : IntData) (item_id : string)
    : option number :=
  let candidates :=
    collect monthly_data item_id K_USAGE_FORECAST dw309.FORECAST_WINDOW [] in
  let candidates :=
    match candidates with
    | [] => collect monthly_data item_id K_OUTGOING dw309.HISTORY_WINDOW candidates
    | _ => candidates
    end in
  match candidates with
  | [] => Some (Int 0)
  | _ => truediv (sum candidates) (Z.of_nat (length candidates))
  end.

Definition status_of (month_end : number) (safety_stock max_stock : Z) : string :=
  if lt_int month_end 0 then dw309.STOCKOUT
  else if lt_int month_end safety_stock then dw309.CRITICAL
  else if gt_int month_end max_stock then dw309.EXCESS
  else dw309.NORMAL.

(** [payload.get("使用量予測", usage_avg)] *)
Definition usage_or (payload : IntFields) (usage_avg : number) : number :=
  match payload !! K_USAGE_FORECAST with
  | Some usage => Int usage
  | None => usage_avg
  end.

Definition figures (payload : IntFields) (month : string) (usage_avg : number)
    : Z * number :=
  if bool_decide (month = "2026-01"%string) then
    (Py.get payload K_IN_TRANSIT 0%Z, usage_or payload usage_avg)
  else if bool_decide (month = "2026-02"%string) then
    (Py.get payload K_ARRANGED 0%Z, usage_or payload usage_avg)
  else if bool_decide (month = "2026-03"%string) then
    (Py.get payload K_INCOMING 0%Z, usage_or payload usage_avg)
  else
    (Py.get payload K_INCOMING 0%Z, usage_or payload usage_avg).

Record Step : Type := {
  st_month : string;
  st_month_start : number;
  st_incoming : Z;
  st_usage : number;
  st_month_end : number;
  st_status : string;
}.

(** [month_start + incoming - usage] *)
Definition month_end_of (month_start : number) (incoming : Z) (usage : number)
    : option number :=
  match add month_start (Int incoming) with
  | Some total => sub total usage
  | None => None
  end.

Fixpoint loop (monthly_data : IntData) (item_id : string) (usage_avg : number)
    (safety_stock max_stock order_qty : Z)
    (n : nat) (index : nat) (months : list string) (month_start : number)
    : option (list Step * number) :=
  match months with
  | [] => Some ([], month_start)
  | month :: rest =>
      let payload := payload_of monthly_data month item_id in
      let '(incoming, usage) := figures payload month usage_avg in
      let incoming :=
        if bool_decide (Z.of_nat index = Z.of_nat n - 1)%Z
        then (incoming + order_qty)%Z else incoming in
      match month_end_of month_start incoming usage with
      | None => None
      | Some month_end =>
          let status := status_of month_end safety_stock max_stock in
          let step :=
            {| st_month := month; st_month_start := month_start;
               st_incoming := incoming; st_usage := usage;
               st_month_end := month_end; st_status := status |} in
          match loop monthly_data item_id usage_avg safety_stock max_stock order_qty
                  n (S index) rest month_end with
          | None => None
          | Some (steps, final) => Some (step :: steps, final)
          end
      end
  end.

(** The iterations of the loop of [build_dw309_forecast] and the
    [final_month_end] of its summary. *)
Definition steps (monthly_data : IntData) (item_id : string)
    (current_stock safety_stock max_stock order_qty : Z)
    (start_month : dw309.YearMonth) (months_ahead : nat) : option (list Step * number) :=
  let months := dw309._month_range start_month months_ahead in
  match calculate_usage_average monthly_data item_id with
  | None => None
  | Some usage_avg =>
      loop monthly_data item_id usage_avg safety_stock max_stock order_qty
           (length months) 0 months (Int current_stock)
  end.

End dw309_binary64.

(** ** Master items

    The fields of a master record that the core reads with [item["..."]]. *)

Record Item : Type := {
  item_id : string;
  safety_stock : Qc;
  max_stock : Qc;
}.

(** ** utils/order_planning.py *)

Module order_planning.

(** [[value for value in values if value is not None]] *)
Definition not_none (values : list (option Qc)) : list Qc := omap id values.

(** [d.get(key, 0)] as a possibly-[None] Python value; the fields of
    [MonthlyData] hold numbers, so the value is never [None] here.  The
    same functions on figures that may be [None] are in
    [order_planning_nullable] below, and agree with these on records
    without a null ([without_null_usage_average],
    [without_null_order_average]). *)
Definition get0 (monthly_data : MonthlyData) (month item_id key : string) : option Qc :=
  Some (Py.get (Py.payload_of monthly_data month item_id) key 0).

Definition calculate_normal_order_average (monthly_data : MonthlyData) (item_id : string) : Qc :=
  let values :=
    fmap (fun month => get0 monthly_data month item_id K_INCOMING)
         ["2025-09"; "2025-10"; "2025-11"; "2025-12"]%string in
  let values := values ++ [get0 monthly_data "2026-01" item_id K_IN_TRANSIT] in
  let values := values ++ [get0 monthly_data "2026-02" item_id K_ARRANGED] in
  let cleaned := not_none values in
  match cleaned with
  | [] => 0
  | _ => Py.sum cleaned / Py.len cleaned
  end.

Definition calculate_future_inventory (next_month_end order_qty next_next_usage : Qc) : Qc :=
  next_month_end + order_qty - next_next_usage.

Definition SHORTAGE : string := "欠品".
Definition EXCESS : string := "過剰".
Definition NORMAL : string := "適正".

Definition risk_level (next_next_end safety_stock max_stock : Qc) : string :=
  if bool_decide (next_next_end < safety_stock) then SHORTAGE
  else if bool_decide (max_stock < next_next_end) then EXCESS
  else NORMAL.

(** One row of the order DataFrame. *)
Record OrderRow : Type := {
  o_item : string;            (* 品目名 *)
  o_next_month_end : Qc;      (* 来月末在庫予測 *)
  o_next_next_usage : Qc;     (* 翌々月使用量予測 *)
  o_order_qty : Qc;           (* 発注量 *)
  o_next_next_end : Qc;       (* 翌々月末在庫予測 *)
  o_safety_stock : Qc;        (* 安全在庫 *)
  o_max_stock : Qc;           (* 上限在庫 *)
}.

Definition build_order_row (monthly_data : MonthlyData)
    (next_month_forecast orders : gmap string Qc) (item : Item) : OrderRow :=
  let item_id := item_id item in
  let next_month_end := Py.get next_month_forecast item_id 0 in
  let next_next_usage :=
    Py.get (Py.payload_of monthly_data "2026-03" item_id) K_USAGE_FORECAST 0 in
  let order_qty := Py.get orders item_id 0 in
  let next_next_end :=
    calculate_future_inventory next_month_end order_qty next_next_usage in
  {| o_item := item_id;
     o_next_month_end := next_month_end;
     o_next_next_usage := next_next_usage;
     o_order_qty := order_qty;
     o_next_next_end := next_next_end;
     o_safety_stock := safety_stock item;
     o_max_stock := max_stock item |}.

Definition build_order_dataframe (master_items : list Item) (monthly_data : MonthlyData)
    (next_month_forecast orders : gmap string Qc) : list OrderRow :=
  fmap (build_order_row monthly_data next_month_forecast orders) master_items.

Definition TAG_SHORTAGE : string := "欠品リスク".
Definition TAG_EXCESS : string := "過剰在庫リスク".
Definition TAG_ABNORMAL_ORDER : string := "発注量異常".
Definition TAG_NEXT_MONTH : string := "来月在庫不足".

(** [reasons.append(tag); priority = min(priority, p)] *)
Definition flag (tag : string) (p : Z) (state : list string * Z) : list string * Z :=
  (fst state ++ [tag], Z.min (snd state) p).

Definition discussion_reasons (row : OrderRow)
    (normal_order_avg next_month_buffer factor : Qc) : Z * list string :=
  let state : list string * Z := ([], 99%Z) in
  let next_next_end := o_next_next_end row in
  let safety_stock := o_safety_stock row in
  let max_stock := o_max_stock row in
  let order_qty := o_order_qty row in
  let state :=
    if bool_decide (next_next_end < safety_stock)
    then flag TAG_SHORTAGE 1 state else state in
  let state :=
    if bool_decide (max_stock < next_next_end)
    then flag TAG_EXCESS 2 state else state in
  let state :=
    if bool_decide (0 < normal_order_avg) then
      if bool_decide (order_qty = 0) || bool_decide (normal_order_avg * num 2 <= order_qty)
      then flag TAG_ABNORMAL_ORDER 3 state else state
    else if bool_decide (order_qty = 0) then flag TAG_ABNORMAL_ORDER 3 state
    else state in
  let state :=
    if bool_decide (next_month_buffer < safety_stock * factor)
    then flag TAG_NEXT_MONTH 3 state else state in
  let '(reasons, priority) := state in
  let priority := if bool_decide (priority = 99%Z) then 4%Z else priority in
  (priority, reasons).

(** The three-argument usage average of this module; it shares its name
    with the two-argument one of [utils/dw309.py]. *)
Definition calculate_usage_average (monthly_data : MonthlyData) (item_id : string)
    (months : list string) : Qc :=
  let values := fmap (fun month => get0 monthly_data month item_id K_OUTGOING) months in
  let cleaned := not_none values in
  match cleaned with
  | [] => 0
  | _ => Py.sum cleaned / Py.len cleaned
  end.

End order_planning.

(** ** utils/order_planning.py: the two averages on figures that may be null

    A figure of the JSON data may be [null]; [d.get(key, 0)] then returns
    [None], and the filter [value is not None] of the two averages drops
    it before the sum and the count.  The records above hold numbers
    only, so that filter keeps every value there; this module has the two
    functions on records whose figures may be [None]. *)

Module order_planning_nullable.

Abbreviation NullableFields := (gmap string (option Qc)).
Abbreviation NullableData := (gmap string (gmap string (gmap string (option Qc)))).

(** [monthly_data.get(month, {}).get(item_id, {}).get(key, 0)] *)
Definition get0 (monthly_data : NullableData) (month item_id key : string) : option Qc :=
  Py.get (Py.get (Py.get monthly_data month ∅) item_id ∅) key (Some 0).

Definition calculate_normal_order_average (monthly_data : NullableData)
    (item_id : string) : Qc :=
  let values :=
    fmap (fun month => get0 monthly_data month item_id K_INCOMING)
         ["2025-09"; "2025-10"; "2025-11"; "2025-12"]%string in
  let values := values ++ [get0 monthly_data "2026-01" item_id K_IN_TRANSIT] in
  let values := values ++ [get0 monthly_data "2026-02" item_id K_ARRANGED] in
  let cleaned := order_planning.not_none values in
  match cleaned with
  | [] => 0
  | _ => Py.sum cleaned / Py.len cleaned
  end.

Definition calculate_usage_average (monthly_data : NullableData) (item_id : string)
    (months : list string) : Qc :=
  let values := fmap (fun month => get0 monthly_data month item_id K_OUTGOING) months in
  let cleaned := order_planning.not_none values in
  match cleaned with
  | [] => 0
  | _ => Py.sum cleaned / Py.len cleaned
  end.

End order_planning_nullable.

(** ** utils/forecast.py *)

Module forecast.

Record ForecastRow : Type := {
  f_item : string;              (* 品目名 *)
  f_current_stock : Qc;         (* 現在庫 *)
  f_incoming : Qc;              (* 入荷見込み *)
  f_usage_current : Qc;         (* 今月使用予測 *)
  f_month_end : Qc;             (* 今月末予測 *)
  f_prepared : Qc;              (* 手配済み *)
  f_usage_next : Qc;            (* 来月使用予測 *)
  f_next_month_end : Qc;        (* 来月末予測 *)
  f_safety_stock : Qc;          (* 安全在庫 *)
  f_max_stock : Qc;             (* 上限在庫 *)
}.

(** The body of the loop over [master_items]. *)
Definition forecast_item (monthly_data : MonthlyData) (item : Item) : Py.result ForecastRow :=
  let item_id := item_id item in
  current_month <- Py.getitem monthly_data "2026-01" ;;
  current_data <- Py.getitem current_month item_id ;;
  next_month <- Py.getitem monthly_data "2026-02" ;;
  next_data <- Py.getitem next_month item_id ;;
  current_stock <- Py.getitem current_data K_CURRENT_STOCK ;;
  incoming <- Py.getitem current_data K_IN_TRANSIT ;;
  usage_current <- Py.getitem current_data K_USAGE_FORECAST ;;
  let month_end_forecast := current_stock + incoming - usage_current in
  prepared <- Py.getitem next_data K_ARRANGED ;;
  usage_next <- Py.getitem next_data K_USAGE_FORECAST ;;
  let next_month_end_forecast := month_end_forecast + prepared - usage_next in
  Py.Ok {| f_item := item_id;
           f_current_stock := current_stock;
           f_incoming := incoming;
           f_usage_current := usage_current;
           f_month_end := month_end_forecast;
           f_prepared := prepared;
           f_usage_next := usage_next;
           f_next_month_end := next_month_end_forecast;
           f_safety_stock := safety_stock item;
           f_max_stock := max_stock item |}.

Definition calculate_inventory_forecast (monthly_data : MonthlyData)
    (master_items : list Item) : Py.result (list ForecastRow) :=
  Py.for_each (forecast_item monthly_data) master_items.

End forecast.

(** ** utils/prediction_review.py *)

Module prediction_review.

Record AccuracyRow : Type := {
  a_item : string;            (* 品目 *)
  a_predicted_usage : Qc;     (* 予測出庫 *)
  a_actual_usage : Qc;        (* 実績出庫 *)
  a_diff : Qc;                (* 差分 *)
  a_error_rate : Qc;          (* 誤差率(%) *)
  a_predicted_stock : Qc;     (* 予測在庫 *)
  a_actual_stock : Qc;        (* 実績在庫 *)
}.

(** The unrounded [error_rate] of the loop body. *)
Definition error_rate (diff predicted_usage : Qc) : Qc :=
  if bool_decide (predicted_usage <> 0) then diff / predicted_usage * num 100 else 0.

(** The body of the loop over [month_payload.items()]. *)
Definition accuracy_row (monthly_data : MonthlyData) (item_id : string) (data : Fields)
    : AccuracyRow :=
  let previous_month := "2025-11"%string in
  let start_stock := Py.get (Py.payload_of monthly_data previous_month item_id) K_STOCK 0 in
  let incoming := Py.get data K_INCOMING 0 in
  let predicted_stock := Py.get data K_PREDICTED_STOCK 0 in
  let actual_stock := Py.get data K_STOCK 0 in
  let predicted_usage := start_stock + incoming - predicted_stock in
  let actual_usage := start_stock + incoming - actual_stock in
  let diff := actual_usage - predicted_usage in
  {| a_item := item_id;
     a_predicted_usage := predicted_usage;
     a_actual_usage := actual_usage;
     a_diff := diff;
     a_error_rate := Py.round1 (error_rate diff predicted_usage);
     a_predicted_stock := predicted_stock;
     a_actual_stock := actual_stock |}.

(** The rows follow the iteration order of the month's dictionary, which
    is its insertion order; the embedding lists them in the order of
    [map_to_list], so what is stated of the table below is stated of its
    rows as a collection (membership, number of rows, every row), never of
    their order. *)
Definition calculate_prediction_accuracy (monthly_data : MonthlyData) (last_month : string)
    : list AccuracyRow :=
  let month_payload := Py.get monthly_data last_month ∅ in
  fmap (fun entry => accuracy_row monthly_data (fst entry) (snd entry))
       (map_to_list month_payload).


Definition COLOR_RED : string := "#ffebee".
Definition COLOR_YELLOW : string := "#fff8e1".
Definition COLOR_WHITE : string := "#ffffff".

(** The colour that [highlight_row] of [style_accuracy_dataframe] picks
    for a row. *)
Definition row_color (row : AccuracyRow) : string :=
  let error_rate := a_error_rate row in
  if bool_decide (num 20 <= error_rate) then COLOR_RED
  else if bool_decide (num 10 <= error_rate) then COLOR_YELLOW
  else COLOR_WHITE.

(** [highlight_row]: one style per column of the row, [columns] being
    [len(row)]. *)
Definition highlight_row (row : AccuracyRow) (columns : nat) : list string :=
  replicate columns ("background-color: " ++ row_color row)%string.

End prediction_review.

(** ** utils/excel_view.py *)

Module excel_view.

(** A column of the sheet: a pair of header strings. *)
Definition Column : Type := string * string.

Definition ITEM_COLUMN : Column := ("品目", "品目名")%string.

Definition MONTH_COLUMN_LABELS : list (string * list string) :=
  [("2025-09", ["入庫"; "出庫"; "在庫"]);
   ("2025-10", ["入庫"; "出庫"; "在庫"]);
   ("2025-11", ["入庫"; "出庫"; "在庫"]);
   ("2025-12", ["入庫"; "出庫"; "在庫"]);
   ("2026-01", ["入荷見込み"; "-"; "-"]);
   ("2026-02", ["手配済み"; "-"; "-"]);
   ("2026-03", ["発注予定"; "-"; "-"])]%string.

Definition MONTH_CATEGORIES : list (string * string) :=
  [("2025-09", "past"); ("2025-10", "past"); ("2025-11", "past"); ("2025-12", "past");
   ("2026-01", "current"); ("2026-02", "next"); ("2026-03", "future")]%string.

Definition CATEGORY_COLORS : list (string * string) :=
  [("past", "#f0f4f8"); ("current", "#e3f2fd"); ("next", "#e8f5e9");
   ("future", "#fff8e1")]%string.

Definition _ordered_months (monthly_data : MonthlyData) : list string :=
  let months :=
    filter (fun month => is_Some (monthly_data !! month)) (fst <$> MONTH_COLUMN_LABELS) in
  match months with
  | [] => Py.sorted id (fst <$> map_to_list monthly_data)
  | _ => months
  end.

Definition _column_name (month label : string) : Column := (month, label).

Definition _value_for_label (month label : string) (item_payload : Fields) : option Qc :=
  if String.prefix "-" label then None
  else if bool_decide (month = "2026-03"%string) && bool_decide (label = "発注予定"%string)
       then item_payload !! K_USAGE_FORECAST
  else item_payload !! label.

(** [" " * n] *)
Fixpoint spaces (n : nat) : string :=
  match n with
  | O => ""
  | S n' => String " " (spaces n')
  end.

(** [MONTH_COLUMN_LABELS.get(month, ("-", "-", "-"))] *)
Definition labels_of (month : string) : list string :=
  Py.table_get MONTH_COLUMN_LABELS month ["-"; "-"; "-"]%string.

(** The loop over the labels of a month, which both passes of
    [create_excel_style_dataframe] run: each label with the column it is
    shown under; [dash_count] counts the dashes seen so far. *)
Fixpoint label_columns (month : string) (labels : list string) (dash_count : nat)
    : list (string * Column) :=
  match labels with
  | [] => []
  | label :: rest =>
      let '(dash_count, label_display) :=
        if bool_decide (label = "-"%string)
        then (S dash_count, spaces (S dash_count))
        else (dash_count, label) in
      (label, _column_name month label_display) :: label_columns month rest dash_count
  end.

(** A cell of a row: the item id under [ITEM_COLUMN], a figure or nothing
    under the other columns. *)
Inductive Cell : Type :=
| ItemId (item_id : string)
| Figure (value : option Qc).

(** The first pass: the columns and the month of each column. *)
Fixpoint header_pass (months : list string)
    (state : list Column * gmap Column string) : list Column * gmap Column string :=
  match months with
  | [] => state
  | month :: rest =>
      let state :=
        fold_left (fun st entry =>
                     (fst st ++ [snd entry], <[snd entry := month]> (snd st)))
                  (label_columns month (labels_of month) 0) state in
      header_pass rest state
  end.

(** The second pass, for one item: the dictionary of its row. *)
Fixpoint row_pass (monthly_data : MonthlyData) (item_id : string) (months : list string)
    (row : gmap Column Cell) : gmap Column Cell :=
  match months with
  | [] => row
  | month :: rest =>
      let item_payload := Py.payload_of monthly_data month item_id in
      let row :=
        fold_left (fun r entry =>
                     <[snd entry := Figure (_value_for_label month (fst entry) item_payload)]> r)
                  (label_columns month (labels_of month) 0) row in
      row_pass monthly_data item_id rest row
  end.

(** A DataFrame built from row dictionaries with an explicit column
    list. *)
Record Sheet : Type := {
  sheet_columns : list Column;
  sheet_rows : list (gmap Column Cell);
}.

Definition create_excel_style_dataframe (master_items : list Item)
    (monthly_data : MonthlyData) : Sheet * gmap Column string :=
  let months := _ordered_months monthly_data in
  let '(columns, column_months) := header_pass months ([ITEM_COLUMN], ∅) in
  let rows :=
    (fun item =>
       row_pass monthly_data (item_id item) months {[ ITEM_COLUMN := ItemId (item_id item) ]})
    <$> Py.sorted item_id master_items in
  ({| sheet_columns := columns; sheet_rows := rows |}, column_months).

(** The colour that [apply_column_color] of [style_excel_dataframe] picks
    for a column. *)
Definition column_color (column_months : gmap Column string) (item_column name : Column)
    : string :=
  if bool_decide (name = item_column) then "#f7f7f7"%string
  else
    let month := default ""%string (column_months !! name) in
    match Py.table_get (fmap (fun entry => (fst entry, Some (snd entry))) MONTH_CATEGORIES)
            month None with
    | Some category => Py.table_get CATEGORY_COLORS category "#ffffff"%string
    | None => "#ffffff"%string
    end.

End excel_view.

(** ** app.py: the discussion list *)

Module app.

Import order_planning.

(** A row of the order DataFrame after the [リスク] column is attached. *)
Record RiskRow : Type := {
  r_row : OrderRow;
  r_risk : string;            (* リスク *)
}.

(** [df["リスク"] = df.apply(lambda row: risk_level(...), axis=1)] *)
Definition with_risk (rows : list OrderRow) : list RiskRow :=
  fmap (fun row =>
    {| r_row := row;
       r_risk := risk_level (o_next_next_end row) (o_safety_stock row) (o_max_stock row) |})
    rows.

Record DiscussionEntry : Type := {
  d_priority : Z;             (* priority *)
  d_item_id : string;         (* 品目ID *)
  d_name : string;            (* 品目名 *)
  d_next_month_end : Qc;      (* 来月末在庫予測 *)
  d_next_next_usage : Qc;     (* 翌々月使用量予測 *)
  d_order_qty : Qc;           (* 発注量 *)
  d_next_next_end : Qc;       (* 翌々月末在庫予測 *)
  d_risk : string;            (* リスク *)
  d_reasons : string;         (* 要議論理由 *)
  d_safety_stock : Qc;        (* 安全在庫 *)
  d_max_stock : Qc;           (* 上限在庫 *)
}.

(** [build_discussion_rows] closes over [monthly_data] and [name_map];
    they are explicit arguments here. *)
Fixpoint build_discussion_rows (monthly_data : MonthlyData) (name_map : gmap string string)
    (source_df : list RiskRow) (factor : Qc) : list DiscussionEntry :=
  match source_df with
  | [] => []
  | r :: rest =>
      let row := r_row r in
      let item_id := o_item row in
      let normal_avg := calculate_normal_order_average monthly_data item_id in
      let next_month_end := o_next_month_end row in
      let '(priority, reasons) := discussion_reasons row normal_avg next_month_end factor in
      let rows := build_discussion_rows monthly_data name_map rest factor in
      match reasons with
      | [] => rows
      | _ =>
          {| d_priority := priority;
             d_item_id := item_id;
             d_name := Py.get name_map item_id item_id;
             d_next_month_end := o_next_month_end row;
             d_next_next_usage := o_next_next_usage row;
             d_order_qty := o_order_qty row;
             d_next_next_end := o_next_next_end row;
             d_risk := r_risk r;
             d_reasons := String.concat " / " reasons;
             d_safety_stock := o_safety_stock row;
             d_max_stock := o_max_stock row |} :: rows
      end
  end.

(** The risk level that the page of the long-lead item derives from the
    forecast table and the summary: a shortage when some month of the
    table ends below the safety stock, an excess when the final ending
    stock is above the max stock. *)
Definition dw309_risk (forecast_table : list dw309.Row) (final_month_end : Qc)
    (safety_stock max_stock : Qc) : string :=
  let below_safety :=
    existsb (fun row => bool_decide (dw309.row_month_end row < safety_stock))
            forecast_table in
  let above_max := bool_decide (max_stock < final_month_end) in
  if below_safety then SHORTAGE else if above_max then EXCESS else NORMAL.

(** [dict(zip(forecast_df["品目名"], forecast_df["来月末予測"]))]: a later
    row of an item replaces an earlier one. *)
Definition next_month_forecast_of (forecast_df : list forecast.ForecastRow)
    : gmap string Qc :=
  fold_left (fun acc row => <[forecast.f_item row := forecast.f_next_month_end row]> acc)
            forecast_df ∅.

(** The rows that the review page selects for its two tables,
    [accuracy_df[accuracy_df["誤差率(%)"] > 0]] and
    [accuracy_df[accuracy_df["誤差率(%)"] < 0]], before [sort_values]
    orders them. *)
Definition positive_rows (accuracy_df : list prediction_review.AccuracyRow)
    : list prediction_review.AccuracyRow :=
  filter (fun row => 0 < prediction_review.a_error_rate row) accuracy_df.

Definition negative_rows (accuracy_df : list prediction_review.AccuracyRow)
    : list prediction_review.AccuracyRow :=
  filter (fun row => prediction_review.a_error_rate row < 0) accuracy_df.

(** ** app.py: the demo orders *)

Definition DW309_ID : string := "DW-309-Mol".

(** [normal_items_only] and [item_ids]; the flag [is_long_leadtime] of an
    item is an argument here. *)
Definition normal_items_only (is_long_leadtime : Item -> bool) (master_items : list Item)
    : list Item :=
  filter (fun item => is_long_leadtime item = false) master_items.

Definition item_ids_of (normal_items : list Item) : list string :=
  item_id <$> normal_items.

(** The first value of [discussion_targets]. *)
Definition DEMO_TARGETS : list string := ["DW-005"; "DW-012"]%string.

(** The second value of [discussion_targets]; the slice bound is computed
    from the first value, which the name still denotes on the right-hand
    side of the assignment. *)
Definition discussion_targets (item_ids : list string) : list string :=
  let discussion_targets := DEMO_TARGETS in
  let fallback_targets :=
    filter (fun item_id => item_id ∉ discussion_targets) item_ids in
  filter (fun item_id => item_id ∈ item_ids) discussion_targets
  ++ take (Z.to_nat (Z.max 0 (2 - Z.of_nat (length discussion_targets)))) fallback_targets.

(** The body of the loop that fills [sample_orders]: the order quantity
    of one item. *)
Definition sample_order (monthly_data : MonthlyData) (next_month_forecast : gmap string Qc)
    (discussion_targets : list string) (item : Item) : Qc :=
  let item_id := item_id item in
  if bool_decide (item_id = DW309_ID)
  then Py.round0 ((safety_stock item + max_stock item) / num 2)
  else
    let next_month_end := Py.get next_month_forecast item_id 0 in
    let next_next_usage :=
      Py.get (Py.payload_of monthly_data "2026-03" item_id) K_USAGE_FORECAST 0 in
    let safety_stock := safety_stock item in
    let max_stock := max_stock item in
    let min_order := Py.max 0 (safety_stock - next_month_end + next_next_usage) in
    let max_order := Py.max 0 (max_stock - next_month_end + next_next_usage) in
    let target_end := (safety_stock + max_stock) / num 2 in
    let order_qty := Py.max 0 (Py.round0 (target_end - next_month_end + next_next_usage)) in
    let order_qty := Py.min (Py.max order_qty min_order) max_order in
    let avg := calculate_normal_order_average monthly_data item_id in
    let order_qty :=
      if bool_decide (0 < avg) && bool_decide (avg * num 2 <= order_qty)
      then Py.max 0 (Py.round0 (avg * (num 3 / num 2)))
      else order_qty in
    let order_qty :=
      if bool_decide (item_id ∈ discussion_targets) then 0 else order_qty in
    Py.max order_qty 0.

Definition sample_orders (monthly_data : MonthlyData) (next_month_forecast : gmap string Qc)
    (discussion_targets : list string) (master_items : list Item) : gmap string Qc :=
  fold_left (fun acc item =>
               <[item_id item :=
                   sample_order monthly_data next_month_forecast discussion_targets item]> acc)
            master_items ∅.

(** [st.session_state.orders] after
    [orders.update({item_id: qty for ... if item_id in item_ids})]. *)
Definition orders_after_demo (orders sample_orders : gmap string Qc)
    (item_ids : list string) : gmap string Qc :=
  filter (fun entry => fst entry ∈ item_ids) sample_orders ∪ orders.

(** The orders once the demo button is clicked. *)
Definition demo (is_long_leadtime : Item -> bool) (master_items : list Item)
    (monthly_data : MonthlyData) (next_month_forecast orders : gmap string Qc)
    : gmap string Qc :=
  let item_ids := item_ids_of (normal_items_only is_long_leadtime master_items) in
  orders_after_demo orders
    (sample_orders monthly_data next_month_forecast (discussion_targets item_ids)
       master_items)
    item_ids.

End app.

(** ** scripts/generate_dummy_data.py: the adjustments of the generated data

    The records of distinct months and items are distinct dictionaries,
    as [generate_monthly_data] builds them; an assignment to a key of a
    record changes that record inside [monthly_data]. *)

Module generate_dummy_data.

(** [monthly_data.get(month, {}).get(item_id)] *)
Definition record (monthly_data : MonthlyData) (month item_id : string) : option Fields :=
  Py.get monthly_data month ∅ !! item_id.

(** The records that pass [if not data]: neither [None] nor empty. *)
Definition truthy (data : option Fields) : option Fields :=
  match data with
  | Some fields => if bool_decide (fields = ∅) then None else Some fields
  | None => None
  end.

(** The state of [monthly_data] once the record of an item in a month
    has become [fields]. *)
Definition set_record (monthly_data : MonthlyData) (month item_id : string)
    (fields : Fields) : MonthlyData :=
  <[month := <[item_id := fields]> (Py.get monthly_data month ∅)]> monthly_data.

(** [target_warning_item if target_warning_item in safety_by_item else
    next(iter(safety_by_item.keys()))]; [None] stands for the
    [StopIteration] of an empty dictionary.  [safety_by_item] is iterated
    in the order of its entries. *)
Definition warning_item_of (safety_by_item : list (string * Qc))
    (target_warning_item : string) : option string :=
  if bool_decide (target_warning_item ∈ fst <$> safety_by_item)
  then Some target_warning_item
  else head (fst <$> safety_by_item).

(** The body of the loop of [_adjust_next_month_shortages]. *)
Definition adjust_item (warning_item : string) (monthly_data : MonthlyData)
    (entry : string * Qc) : MonthlyData :=
  let '(item_id, safety_stock) := entry in
  match truthy (record monthly_data "2026-01" item_id),
        truthy (record monthly_data "2026-02" item_id) with
  | Some current_data, Some next_data =>
      let current_stock := Py.get current_data K_CURRENT_STOCK 0 in
      let incoming := Py.get current_data K_IN_TRANSIT 0 in
      let usage_current := Py.get current_data K_USAGE_FORECAST 0 in
      let month_end := current_stock + incoming - usage_current in
      let prepared := Py.get next_data K_ARRANGED 0 in
      let usage_next := Py.get next_data K_USAGE_FORECAST 0 in
      let next_month_end := month_end + prepared - usage_next in
      if bool_decide (item_id = warning_item) then
        let target := safety_stock - num 5 in
        if bool_decide (target <= next_month_end) then
          let adjust := next_month_end - target + num 1 in
          set_record monthly_data "2026-02" item_id
            (<[K_USAGE_FORECAST := usage_next + adjust]> next_data)
        else monthly_data
      else if bool_decide (next_month_end < safety_stock) then
        let adjust := safety_stock - next_month_end + num 5 in
        set_record monthly_data "2026-02" item_id
          (<[K_ARRANGED := prepared + adjust]> next_data)
      else monthly_data
  | _, _ => monthly_data
  end.

Definition _adjust_next_month_shortages (monthly_data : MonthlyData)
    (safety_by_item : list (string * Qc)) (target_warning_item : string)
    : option MonthlyData :=
  match warning_item_of safety_by_item target_warning_item with
  | Some warning_item => Some (fold_left (adjust_item warning_item) safety_by_item monthly_data)
  | None => None
  end.

(** [_stabilize_dw309_start]; [safety_by_item] is only looked up here,
    and [max_by_item] is not used. *)
Definition _stabilize_dw309_start (monthly_data : MonthlyData)
    (safety_by_item max_by_item : gmap string Qc) (item_id : string) : MonthlyData :=
  match safety_by_item !! item_id with
  | None => monthly_data
  | Some safety_stock =>
      match truthy (record monthly_data "2026-01" item_id),
            truthy (record monthly_data "2026-02" item_id),
            truthy (record monthly_data "2026-03" item_id) with
      | Some current_data, Some next_data, Some third_data =>
          let min_target := safety_stock + num 10 in
          let current_stock := Py.get current_data K_CURRENT_STOCK 0 in
          let current_stock := Py.max current_stock (safety_stock * num 2) in
          let current_data := <[K_CURRENT_STOCK := current_stock]> current_data in
          let incoming := Py.get current_data K_IN_TRANSIT 0 in
          let usage_current := Py.get current_data K_USAGE_FORECAST 0 in
          let month_end := current_stock + incoming - usage_current in
          let '(current_data, month_end) :=
            if bool_decide (month_end < min_target) then
              let adjust := min_target - month_end in
              (<[K_IN_TRANSIT := incoming + adjust]> current_data, month_end + adjust)
            else (current_data, month_end) in
          let prepared := Py.get next_data K_ARRANGED 0 in
          let usage_next := Py.get next_data K_USAGE_FORECAST 0 in
          let next_month_end := month_end + prepared - usage_next in
          let '(next_data, next_month_end) :=
            if bool_decide (next_month_end < min_target) then
              let adjust := min_target - next_month_end in
              (<[K_ARRANGED := prepared + adjust]> next_data, next_month_end + adjust)
            else (next_data, next_month_end) in
          let incoming_third := Py.get third_data K_INCOMING 0 in
          let usage_third := Py.get third_data K_USAGE_FORECAST 0 in
          let third_month_end := next_month_end + incoming_third - usage_third in
          let third_data :=
            if bool_decide (third_month_end < min_target) then
              let adjust := min_target - third_month_end in
              <[K_INCOMING := incoming_third + adjust]> third_data
            else third_data in
          set_record
            (set_record (set_record monthly_data "2026-01" item_id current_data)
               "2026-02" item_id next_data)
            "2026-03" item_id third_data
      | _, _, _ => monthly_data
      end
  end.

End generate_dummy_data.

(** ** Notions used in the statements *)

(** The field [key] of [item_id] in [month], when all three levels are
    present. *)
Definition field_of (monthly_data : MonthlyData) (month item_id key : string) : option Qc :=
  match monthly_data !! month with
  | Some payload =>
      match payload !! item_id with
      | Some fields => fields !! key
      | None => None
      end
  | None => None
  end.

(** The values of [key] that are present in the months of a window, in
    the order of the window. *)
Definition window_values (monthly_data : MonthlyData) (item_id key : string)
    (months : list string) : list Qc :=
  omap (fun month => field_of monthly_data month item_id key) months.

(** Net change of the stock in one month of the projection. *)
Definition net (s : dw309.Step) : Qc := dw309.st_incoming s - dw309.st_usage s.

(** Whether position [i] is the last one of a horizon of [n] months. *)
Definition is_last (n i : nat) : bool := bool_decide (Z.of_nat i = Z.of_nat n - 1)%Z.

(** The name of the incoming field that the projection reads in [month]. *)
Definition incoming_key (month : string) : string :=
  if bool_decide (month = "2026-01"%string) then K_IN_TRANSIT
  else if bool_decide (month = "2026-02"%string) then K_ARRANGED
  else K_INCOMING.

(** The figures the projection loop uses for [month] at position [i] of a
    horizon of [n] months. *)
Definition incoming_at (monthly_data : MonthlyData) (item_id : string)
    (usage_avg order_qty : Qc) (n i : nat) (month : string) : Qc :=
  let base :=
    fst (dw309.figures (Py.payload_of monthly_data month item_id) month usage_avg) in
  if is_last n i then base + order_qty else base.

Definition usage_at (monthly_data : MonthlyData) (item_id : string)
    (usage_avg : Qc) (month : string) : Qc :=
  snd (dw309.figures (Py.payload_of monthly_data month item_id) month usage_avg).

(** The four checks of the discussion list, as the specification words
    them: (1) the ending stock two months ahead is below the safety
    stock; (2) it is above the max stock; (3) the order quantity is zero,
    or the normal-order average is positive and the order is at least
    twice the average; (4) next month's stock is below safety stock times
    the safety factor. *)
Definition check1 (row : order_planning.OrderRow) : bool :=
  bool_decide (order_planning.o_next_next_end row < order_planning.o_safety_stock row).

Definition check2 (row : order_planning.OrderRow) : bool :=
  bool_decide (order_planning.o_max_stock row < order_planning.o_next_next_end row).

Definition check3 (row : order_planning.OrderRow) (normal_order_avg : Qc) : bool :=
  bool_decide (order_planning.o_order_qty row = 0)
  || (bool_decide (0 < normal_order_avg)
      && bool_decide (normal_order_avg * num 2 <= order_planning.o_order_qty row)).

Definition check4 (row : order_planning.OrderRow) (next_month_buffer factor : Qc) : bool :=
  bool_decide (next_month_buffer < order_planning.o_safety_stock row * factor).

(** The priorities and the tags of the checks that trigger, in the order
    of the checks. *)
Definition triggered_priorities (row : order_planning.OrderRow)
    (normal_order_avg next_month_buffer factor : Qc) : list Z :=
  (if check1 row then [1%Z] else [])
  ++ (if check2 row then [2%Z] else [])
  ++ (if check3 row normal_order_avg then [3%Z] else [])
  ++ (if check4 row next_month_buffer factor then [3%Z] else []).

Definition triggered_tags (row : order_planning.OrderRow)
    (normal_order_avg next_month_buffer factor : Qc) : list string :=
  (if check1 row then [order_planning.TAG_SHORTAGE] else [])
  ++ (if check2 row then [order_planning.TAG_EXCESS] else [])
  ++ (if check3 row normal_order_avg then [order_planning.TAG_ABNORMAL_ORDER] else [])
  ++ (if check4 row next_month_buffer factor then [order_planning.TAG_NEXT_MONTH] else []).

(** What [build_discussion_rows] passes to [discussion_reasons] for a row
    of its source DataFrame. *)
Definition reasons_of (monthly_data : MonthlyData) (factor : Qc) (r : app.RiskRow)
    : Z * list string :=
  let row := app.r_row r in
  order_planning.discussion_reasons row
    (order_planning.calculate_normal_order_average monthly_data (order_planning.o_item row))
    (order_planning.o_next_month_end row) factor.

(** The dictionary that [build_discussion_rows] appends for a row with
    the given priority and reasons. *)
Definition entry_of (name_map : gmap string string) (r : app.RiskRow)
    (priority : Z) (reasons : list string) : app.DiscussionEntry :=
  let row := app.r_row r in
  {| app.d_priority := priority;
     app.d_item_id := order_planning.o_item row;
     app.d_name := Py.get name_map (order_planning.o_item row) (order_planning.o_item row);
     app.d_next_month_end := order_planning.o_next_month_end row;
     app.d_next_next_usage := order_planning.o_next_next_usage row;
     app.d_order_qty := order_planning.o_order_qty row;
     app.d_next_next_end := order_planning.o_next_next_end row;
     app.d_risk := app.r_risk r;
     app.d_reasons := String.concat " / " reasons;
     app.d_safety_stock := order_planning.o_safety_stock row;
     app.d_max_stock := order_planning.o_max_stock row |}.

(** Whether some check triggers for a row of the source DataFrame. *)
Definition flagged (monthly_data : MonthlyData) (factor : Qc) (r : app.RiskRow) : bool :=
  match snd (reasons_of monthly_data factor r) with
  | [] => false
  | _ => true
  end.

(** The five figures that [calculate_inventory_forecast] reads for an
    item, when all of them are present. *)
Definition current_and_next (monthly_data : MonthlyData) (item_id : string)
    : option (Qc * Qc * Qc * Qc * Qc) :=
  match field_of monthly_data "2026-01" item_id K_CURRENT_STOCK,
        field_of monthly_data "2026-01" item_id K_IN_TRANSIT,
        field_of monthly_data "2026-01" item_id K_USAGE_FORECAST,
        field_of monthly_data "2026-02" item_id K_ARRANGED,
        field_of monthly_data "2026-02" item_id K_USAGE_FORECAST with
  | Some current_stock, Some incoming, Some usage_current, Some prepared, Some usage_next =>
      Some (current_stock, incoming, usage_current, prepared, usage_next)
  | _, _, _, _, _ => None
  end.

(** ** Sample data

    The end-to-end example: starting stock 200, thresholds 100 and 500,
    seven months that each receive 20 and use 30, the last one receiving
    nothing but the order. *)

Definition DW309 : string := "DW-309-Mol".

Definition month_fields (incoming_key : string) (incoming usage : Z) : Payload :=
  {[ DW309 := ({[ incoming_key := num incoming; K_USAGE_FORECAST := num usage ]} : Fields) ]}.

Definition sample_data : MonthlyData :=
  <[ "2026-01"%string := month_fields K_IN_TRANSIT 20 30 ]>
  (<[ "2026-02"%string := month_fields K_ARRANGED 20 30 ]>
  (<[ "2026-03"%string := month_fields K_INCOMING 20 30 ]>
  (<[ "2026-04"%string := month_fields K_INCOMING 20 30 ]>
  (<[ "2026-05"%string := month_fields K_INCOMING 20 30 ]>
  (<[ "2026-06"%string := month_fields K_INCOMING 20 30 ]>
  (<[ "2026-07"%string :=
        ({[ DW309 := ({[ K_USAGE_FORECAST := num 30 ]} : Fields) ]} : Payload) ]> ∅)))))).

Definition sample_steps (order_qty stock : Z) : list dw309.Step :=
  fst (dw309.steps sample_data DW309 (num stock) (num 100) (num 500) (num order_qty)
         dw309.DEFAULT_START 6).

(** The numerators and denominators of a list of numbers, for reading
    computed values. *)
Definition values_of (xs : list Qc) : list Q := this <$> xs.

(** The step of the final month once [order_qty] is added to a run that
    injected nothing. *)
Definition shift_step (order_qty safety_stock max_stock : Qc) (s : dw309.Step) : dw309.Step :=
  {| dw309.st_month := dw309.st_month s;
     dw309.st_month_start := dw309.st_month_start s;
     dw309.st_incoming := dw309.st_incoming s + order_qty;
     dw309.st_usage := dw309.st_usage s;
     dw309.st_month_end := dw309.st_month_end s + order_qty;
     dw309.st_status :=
       dw309.status_of (dw309.st_month_end s + order_qty) safety_stock max_stock |}.

(** Monthly data that holds nothing but the outgoing figures of the last
    three months of 2025. *)
Definition history_only_data : MonthlyData :=
  <[ "2025-10"%string := ({[ DW309 := ({[ K_OUTGOING := num 30 ]} : Fields) ]} : Payload) ]>
  (<[ "2025-11"%string := ({[ DW309 := ({[ K_OUTGOING := num 60 ]} : Fields) ]} : Payload) ]>
  (<[ "2025-12"%string := ({[ DW309 := ({[ K_OUTGOING := num 90 ]} : Fields) ]} : Payload) ]> ∅)).

(** The default horizon from a stock of 100 with no order. *)
Definition default_steps (monthly_data : MonthlyData) : list dw309.Step :=
  fst (dw309.steps monthly_data DW309 (num 100) (num 30) (num 300) 0
         dw309.DEFAULT_START dw309.DEFAULT_MONTHS_AHEAD).

(** Rows of the order DataFrame with safety stock 100 and max stock 500. *)
Definition sample_row (item : string) (next_month_end next_next_usage order_qty : Z)
    : order_planning.OrderRow :=
  {| order_planning.o_item := item;
     order_planning.o_next_month_end := num next_month_end;
     order_planning.o_next_next_usage := num next_next_usage;
     order_planning.o_order_qty := num order_qty;
     order_planning.o_next_next_end :=
       order_planning.calculate_future_inventory
         (num next_month_end) (num order_qty) (num next_next_usage);
     order_planning.o_safety_stock := num 100;
     order_planning.o_max_stock := num 500 |}.

(** Stock stays between the thresholds, nothing is ordered. *)
Definition row_zero_order : order_planning.OrderRow := sample_row "DW-001" 180 30 0.
(** Stock stays between the thresholds, a usual quantity is ordered. *)
Definition row_quiet : order_planning.OrderRow := sample_row "DW-002" 180 30 10.
(** Stock falls below the safety stock, nothing is ordered. *)
Definition row_short : order_planning.OrderRow := sample_row "DW-003" 110 30 0.

(** The safety factor 1.2 of the session defaults. *)
Definition FACTOR : Qc := num 12 / num 10.

(** The order DataFrame of the three sample rows, with its risk column. *)
Definition sample_source : list app.RiskRow :=
  app.with_risk [row_zero_order; row_quiet; row_short].

(** The accuracy example: stock 100 at the end of 2025-11; in 2025-12 an
    incoming quantity of 20, a predicted ending stock of 90 and an actual
    ending stock of 80. *)
Definition accuracy_data : MonthlyData :=
  <[ "2025-11"%string := ({[ DW309 := ({[ K_STOCK := num 100 ]} : Fields) ]} : Payload) ]>
  (<[ "2025-12"%string :=
        ({[ DW309 := (<[ K_INCOMING := num 20 ]>
                      (<[ K_PREDICTED_STOCK := num 90 ]>
                      (<[ K_STOCK := num 80 ]> ∅)) : Fields) ]} : Payload) ]> ∅).

(** The current and the next month of the sample item, with every figure
    that the two-month forecast reads. *)
Definition two_month_data : MonthlyData :=
  <[ "2026-01"%string :=
       ({[ DW309 := (<[ K_CURRENT_STOCK := num 200 ]>
                     (<[ K_IN_TRANSIT := num 20 ]>
                     (<[ K_USAGE_FORECAST := num 30 ]> ∅)) : Fields) ]} : Payload) ]>
  (<[ "2026-02"%string := month_fields K_ARRANGED 20 30 ]> ∅).

Definition sample_item : Item :=
  {| item_id := DW309; safety_stock := num 100; max_stock := num 500 |}.

(** A step of the projection once the starting stock is raised by [d]. *)
Definition shift_start (d safety_stock max_stock : Qc) (s : dw309.Step) : dw309.Step :=
  {| dw309.st_month := dw309.st_month s;
     dw309.st_month_start := dw309.st_month_start s + d;
     dw309.st_incoming := dw309.st_incoming s;
     dw309.st_usage := dw309.st_usage s;
     dw309.st_month_end := dw309.st_month_end s + d;
     dw309.st_status :=
       dw309.status_of (dw309.st_month_end s + d) safety_stock max_stock |}.

(** The six figures that enter the normal-order average of an item: the
    incoming quantities of 2025-09..2025-12, the quantity in transit of
    2026-01 and the arranged quantity of 2026-02, each when present. *)
Definition normal_order_figures (monthly_data : MonthlyData) (item_id : string)
    : list (option Qc) :=
  [field_of monthly_data "2025-09" item_id K_INCOMING;
   field_of monthly_data "2025-10" item_id K_INCOMING;
   field_of monthly_data "2025-11" item_id K_INCOMING;
   field_of monthly_data "2025-12" item_id K_INCOMING;
   field_of monthly_data "2026-01" item_id K_IN_TRANSIT;
   field_of monthly_data "2026-02" item_id K_ARRANGED].

(** The row that [calculate_inventory_forecast] builds for an item from
    its five figures. *)
Definition forecast_row_of (it : Item) (figures : Qc * Qc * Qc * Qc * Qc)
    : forecast.ForecastRow :=
  let '(current_stock, incoming, usage_current, prepared, usage_next) := figures in
  {| forecast.f_item := item_id it;
     forecast.f_current_stock := current_stock;
     forecast.f_incoming := incoming;
     forecast.f_usage_current := usage_current;
     forecast.f_month_end := current_stock + incoming - usage_current;
     forecast.f_prepared := prepared;
     forecast.f_usage_next := usage_next;
     forecast.f_next_month_end :=
       current_stock + incoming - usage_current + prepared - usage_next;
     forecast.f_safety_stock := safety_stock it;
     forecast.f_max_stock := max_stock it |}.

(** The prediction error of one month for an item: defined when the month
    records both a predicted and an actual stock and the predicted stock
    is not 0. *)
Definition month_error (payload : Payload) (item_id : string) : option Qc :=
  match payload !! item_id with
  | Some fields =>
      match fields !! K_PREDICTED_STOCK, fields !! K_STOCK with
      | Some predicted, Some actual =>
          if bool_decide (predicted = 0) then None
          else Some (Qcabs.Qcabs (actual - predicted) / predicted * num 100)
      | _, _ => None
      end
  | None => None
  end.

(** Monthly records with a predicted and an actual stock, oldest first. *)
Definition stock_record (predicted actual : Z) : Payload :=
  {[ DW309 := (<[ K_PREDICTED_STOCK := num predicted ]>
               (<[ K_STOCK := num actual ]> ∅) : Fields) ]}.

Definition error_history : list (string * Payload) :=
  [("2025-09", stock_record 100 50); ("2025-10", stock_record 100 90);
   ("2025-11", stock_record 100 120); ("2025-12", stock_record 100 100)]%string.

(** The order of sorted rows: the key of the left one is not above the
    key of the right one. *)
Definition key_le {A : Type} (key : A -> string) (x y : A) : Prop :=
  String.leb (key x) (key y) = true.

(** The months for which the sheet has its own labels, and the three
    columns of a month. *)
Definition KNOWN_MONTHS : list string := fst <$> excel_view.MONTH_COLUMN_LABELS.

Definition month_columns (month : string) : list excel_view.Column :=
  snd <$> excel_view.label_columns month (excel_view.labels_of month) 0.

(** The label of the item column. *)
Definition ITEM_LABEL : string := snd excel_view.ITEM_COLUMN.

(** The colour of a month: [MONTH_CATEGORIES] followed by
    [CATEGORY_COLORS], written out month by month. *)
Definition month_color (month : string) : string :=
  if bool_decide (month ∈ ["2025-09"; "2025-10"; "2025-11"; "2025-12"]%string)
  then "#f0f4f8"%string
  else if bool_decide (month = "2026-01"%string) then "#e3f2fd"%string
  else if bool_decide (month = "2026-02"%string) then "#e8f5e9"%string
  else if bool_decide (month = "2026-03"%string) then "#fff8e1"%string
  else "#ffffff"%string.

(** What a row of the sheet shows for an item: its id under the item
    column, and under each column of each month the figure of the label. *)
Definition row_shows (monthly_data : MonthlyData) (months : list string)
    (item : Item) (row : gmap excel_view.Column excel_view.Cell) : Prop :=
  row !! excel_view.ITEM_COLUMN = Some (excel_view.ItemId (item_id item))
  /\ forall month label column,
       month ∈ months ->
       (label, column) ∈ excel_view.label_columns month (excel_view.labels_of month) 0 ->
       row !! column
       = Some (excel_view.Figure
                 (excel_view._value_for_label month label
                    (Py.payload_of monthly_data month (item_id item)))).

(** Data under a month the sheet has no labels for. *)
Definition unlabelled_data : MonthlyData :=
  {[ "2027-01"%string := {[ "A"%string := {[ K_INCOMING := num 5; K_STOCK := num 7 ]} ]} ]}.

(** Data for the planning month, with a field named like its label. *)
Definition planning_month_data : MonthlyData :=
  {[ "2026-03"%string :=
       {[ "A"%string := {[ K_USAGE_FORECAST := num 40; "発注予定"%string := num 99 ]} ]} ]}.

(** Two items of the master list, out of order. *)
Definition sheet_items : list Item :=
  [ {| item_id := "B"; safety_stock := num 1; max_stock := num 2 |};
    {| item_id := "A"; safety_stock := num 3; max_stock := num 4 |} ]%string.

(** Master items, forecast and data for the demo orders. *)
Definition demo_items : list Item :=
  [ {| item_id := "DW-005"; safety_stock := num 100; max_stock := num 500 |};
    {| item_id := "DW-001"; safety_stock := num 100; max_stock := num 300 |} ]%string.

Definition demo_item : Item :=
  {| item_id := "DW-001"; safety_stock := num 100; max_stock := num 300 |}.

Definition demo_target : Item :=
  {| item_id := "DW-005"; safety_stock := num 100; max_stock := num 500 |}.

Definition demo_forecast : gmap string Qc :=
  {[ "DW-001"%string := num 150; "DW-005"%string := num 200 ]}.

Definition demo_data : MonthlyData :=
  {[ "2026-03"%string := {[ "DW-001"%string := {[ K_USAGE_FORECAST := num 120 ]} ]} ]}.

(** The stocks that the generator computes for an item from the records
    of 2026-01, 2026-02 and 2026-03, a missing figure counting as 0. *)
Definition generated_month_end (monthly_data : MonthlyData) (item_id : string) : Qc :=
  let current_data := Py.payload_of monthly_data "2026-01" item_id in
  Py.get current_data K_CURRENT_STOCK 0 + Py.get current_data K_IN_TRANSIT 0
  - Py.get current_data K_USAGE_FORECAST 0.

Definition generated_next_month_end (monthly_data : MonthlyData) (item_id : string) : Qc :=
  let next_data := Py.payload_of monthly_data "2026-02" item_id in
  generated_month_end monthly_data item_id
  + Py.get next_data K_ARRANGED 0 - Py.get next_data K_USAGE_FORECAST 0.

Definition generated_third_month_end (monthly_data : MonthlyData) (item_id : string) : Qc :=
  let third_data := Py.payload_of monthly_data "2026-03" item_id in
  generated_next_month_end monthly_data item_id
  + Py.get third_data K_INCOMING 0 - Py.get third_data K_USAGE_FORECAST 0.

(** The item has a record for the month, and the record is not empty. *)
Definition has_record (monthly_data : MonthlyData) (month item_id : string) : Prop :=
  is_Some (generate_dummy_data.truthy (generate_dummy_data.record monthly_data month item_id)).

(** Generated data before the adjustments: DW-001 would run short next
    month, DW-005 would not. *)
Definition raw_record (a b : Z) : Fields :=
  {[ K_CURRENT_STOCK := num a; K_ARRANGED := num b ]}.

Definition raw_data : MonthlyData :=
  {[ "2026-01"%string :=
       ({[ "DW-001"%string := raw_record 30 0; "DW-005"%string := raw_record 90 0 ]} : Payload);
     "2026-02"%string :=
       ({[ "DW-001"%string := raw_record 0 10; "DW-005"%string := raw_record 0 10 ]} : Payload);
     "2026-03"%string :=
       ({[ "DW-001"%string := raw_record 0 0 ]} : Payload) ]}.

Definition raw_safety : list (string * Qc) :=
  [("DW-001", num 50); ("DW-005", num 40)]%string.

(** What [_adjust_next_month_shortages] achieves for an item with safety
    stock [safety_stock], [monthly_data'] being the data after it: the
    stock at the end of the month is as before, and the stock at the end
    of next month is at least the safety stock, or for the warning item
    more than 5 below it. *)
Definition adjusted (warning_item : string) (monthly_data monthly_data' : MonthlyData)
    (item_id : string) (safety_stock : Qc) : Prop :=
  generated_month_end monthly_data' item_id = generated_month_end monthly_data item_id
  /\ (item_id <> warning_item ->
      safety_stock <= generated_next_month_end monthly_data' item_id)
  /\ (item_id = warning_item ->
      generated_next_month_end monthly_data' item_id < safety_stock - num 5).

(** The records of an item that the adjustment leaves as they are, and
    the one it keeps non-empty. *)
Definition records_kept (monthly_data monthly_data' : MonthlyData) (item_id : string)
    : Prop :=
  generate_dummy_data.record monthly_data' "2026-01" item_id
  = generate_dummy_data.record monthly_data "2026-01" item_id
  /\ generate_dummy_data.record monthly_data' "2026-03" item_id
     = generate_dummy_data.record monthly_data "2026-03" item_id
  /\ has_record monthly_data' "2026-02" item_id.

(** ** Integer data, its exact reading, and the months that stay integers *)

(** The integer data read as exact rationals, and a step on Python
    numbers read by the values of its numbers. *)
Definition exact_data (monthly_data : dw309_binary64.IntData) : MonthlyData :=
  (fun payload : gmap string (gmap string Z) =>
     (fun fields : gmap string Z => Qc_of_Z <$> fields) <$> payload) <$> monthly_data.

Definition exact_step (s : dw309_binary64.Step) : dw309.Step :=
  {| dw309.st_month := dw309_binary64.st_month s;
     dw309.st_month_start := PyNum.value (dw309_binary64.st_month_start s);
     dw309.st_incoming := num (dw309_binary64.st_incoming s);
     dw309.st_usage := PyNum.value (dw309_binary64.st_usage s);
     dw309.st_month_end := PyNum.value (dw309_binary64.st_month_end s);
     dw309.st_status := dw309_binary64.st_status s |}.

(** The usage average is computed, and no month of [months] computes with
    a float: every month has its own usage forecast, or the average is the
    [int] 0 of an item without any figure. *)
Definition integer_usage (monthly_data : dw309_binary64.IntData) (item_id : string)
    (months : list string) : Prop :=
  exists usage_avg,
    dw309_binary64.calculate_usage_average monthly_data item_id = Some usage_avg
    /\ (Forall (fun month =>
                  is_Some (dw309_binary64.payload_of monthly_data month item_id
                             !! K_USAGE_FORECAST)) months
        \/ usage_avg = PyNum.Int 0).

(** Three months that each receive 20 and use 30. *)
Definition integer_plan : dw309_binary64.IntData :=
  {[ "2026-01"%string := {[ DW309 := {[ K_IN_TRANSIT := 20%Z; K_USAGE_FORECAST := 30%Z ]} ]};
     "2026-02"%string := {[ DW309 := {[ K_ARRANGED := 20%Z; K_USAGE_FORECAST := 30%Z ]} ]};
     "2026-03"%string := {[ DW309 := {[ K_INCOMING := 20%Z; K_USAGE_FORECAST := 30%Z ]} ]} ]}.


(** Usage forecasts 0, 0 and 1 for the first three months of 2026: the
    usage average is the float nearest to 1/3, and 2026-04 uses it. *)
Definition float_forecast : dw309_binary64.IntData :=
  {[ "2026-01"%string := {[ DW309 := {[ K_USAGE_FORECAST := 0%Z ]} ]};
     "2026-02"%string := {[ DW309 := {[ K_USAGE_FORECAST := 0%Z ]} ]};
     "2026-03"%string := {[ DW309 := {[ K_USAGE_FORECAST := 1%Z ]} ]} ]}.

(** ** Figures that may be null *)

(** What a record stores under a key: nothing, a null, or a number. *)
Definition stored (monthly_data : order_planning_nullable.NullableData)
    (month item_id key : string) : option (option Qc) :=
  match monthly_data !! month with
  | Some payload =>
      match payload !! item_id with
      | Some fields => fields !! key
      | None => None
      end
  | None => None
  end.

(** The figure that enters an average: 0 for an absent one, [None] for a
    null. *)
Definition figure_or_zero (monthly_data : order_planning_nullable.NullableData)
    (month item_id key : string) : option Qc :=
  default (Some 0) (stored monthly_data month item_id key).

(** The six figures of the normal-order average. *)
Definition nullable_order_figures (monthly_data : order_planning_nullable.NullableData)
    (item_id : string) : list (option Qc) :=
  [figure_or_zero monthly_data "2025-09" item_id K_INCOMING;
   figure_or_zero monthly_data "2025-10" item_id K_INCOMING;
   figure_or_zero monthly_data "2025-11" item_id K_INCOMING;
   figure_or_zero monthly_data "2025-12" item_id K_INCOMING;
   figure_or_zero monthly_data "2026-01" item_id K_IN_TRANSIT;
   figure_or_zero monthly_data "2026-02" item_id K_ARRANGED].

(** Numeric records as records without a null. *)
Definition without_null (monthly_data : MonthlyData)
    : order_planning_nullable.NullableData :=
  (fun payload : gmap string (gmap string Qc) =>
     (fun fields : gmap string Qc => Some <$> fields) <$> payload) <$> monthly_data.

(** [sum(xs) / len(xs)], and 0 for no value. *)
Definition mean (xs : list Qc) : Qc :=
  match xs with
  | [] => 0
  | _ => Py.sum xs / Py.len xs
  end.

(** Five incoming or arranged figures of 12 and a null one. *)
Definition null_fields (key : string) (figure : option Qc)
    : gmap string (gmap string (option Qc)) :=
  {[ DW309 := {[ key := figure ]} ]}.

Definition null_data : order_planning_nullable.NullableData :=
  {[ "2025-09"%string := null_fields K_INCOMING (Some (num 12));
     "2025-10"%string := null_fields K_INCOMING (Some (num 12));
     "2025-11"%string := null_fields K_INCOMING None;
     "2025-12"%string := null_fields K_INCOMING (Some (num 12));
     "2026-01"%string := null_fields K_IN_TRANSIT (Some (num 12));
     "2026-02"%string := null_fields K_ARRANGED (Some (num 12)) ]}.

(** The six figures of [null_data] with the null one of 2025-11 absent
    instead. *)
Definition absent_data : order_planning_nullable.NullableData :=
  delete "2025-11"%string null_data.

(** Outgoing figures of 30 and 90 around a null one. *)
Definition null_usage_data : order_planning_nullable.NullableData :=
  {[ "2025-10"%string := null_fields K_OUTGOING (Some (num 30));
     "2025-11"%string := null_fields K_OUTGOING None;
     "2025-12"%string := null_fields K_OUTGOING (Some (num 90)) ]}.

(** * Properties *)

Example month_range_default :
  dw309._month_range dw309.DEFAULT_START dw309.DEFAULT_MONTHS_AHEAD
  = ["2026-01"; "2026-02"; "2026-03"; "2026-04"; "2026-05"; "2026-06";
     "2026-07"; "2026-08"]%string.
Proof. reflexivity. Qed.

Example month_range_wraps_year :
  dw309._month_range {| dw309.ym_year := 2025; dw309.ym_month := 11 |} 3
  = ["2025-11"; "2025-12"; "2026-01"; "2026-02"]%string.
Proof. reflexivity. Qed.

(** ** Sums and lookups *)

Section PyFacts.

Lemma fold_left_Qcplus (xs : list Qc) (a : Qc) :
  fold_left Qcplus xs a = a + Py.sum xs.
Proof.
  unfold Py.sum. revert a.
  induction xs as [|x xs IH]; intros a; simpl.
  - ring.
  - rewrite (IH (a + x)), (IH (0 + x)). ring.
Qed.

Lemma sum_nil : Py.sum [] = 0.
Proof. reflexivity. Qed.

Lemma sum_cons (x : Qc) (xs : list Qc) : Py.sum (x :: xs) = x + Py.sum xs.
Proof. unfold Py.sum at 1. simpl. rewrite fold_left_Qcplus. ring. Qed.

Lemma sum_app (xs ys : list Qc) : Py.sum (xs ++ ys) = Py.sum xs + Py.sum ys.
Proof.
  induction xs as [|x xs IH]; simpl.
  - rewrite sum_nil. ring.
  - rewrite !sum_cons, IH. ring.
Qed.

Lemma sum_snoc (xs : list Qc) (x : Qc) : Py.sum (xs ++ [x]) = Py.sum xs + x.
Proof. rewrite sum_app, sum_cons, sum_nil. ring. Qed.

Lemma get_absent {V : Type} (d : gmap string V) (k : string) (dflt : V) :
  d !! k = None -> Py.get d k dflt = dflt.
Proof. unfold Py.get. intros ->. reflexivity. Qed.

Lemma round_half_even_integer (z : Z) : Py.round_half_even (Qc_of_Z z) = z.
Proof.
  unfold Py.round_half_even. cbn [this Qc_of_Z inject_Z Qnum Qden].
  rewrite Z.mod_1_r, Z.div_1_r. reflexivity.
Qed.

(** [round(x, 1)] leaves whole numbers as they are. *)
Lemma round1_integer (z : Z) : Py.round1 (num z) = num z.
Proof.
  unfold Py.round1. rewrite <- Z2Qc_inj_mul, round_half_even_integer, Z2Qc_inj_mul.
  field. rewrite <- Z2Qc_inj_0. intros H. apply Z2Qc_inj in H. discriminate H.
Qed.

Lemma payload_of_lookup (md : MonthlyData) (month item key : string) :
  Py.payload_of md month item !! key = field_of md month item key.
Proof.
  unfold Py.payload_of, Py.get, field_of.
  destruct (md !! month) as [p|]; simpl; [|apply lookup_empty].
  destruct (p !! item) as [f|]; simpl; [reflexivity|apply lookup_empty].
Qed.

Lemma payload_of_empty (month item : string) :
  Py.payload_of (∅ : MonthlyData) month item = ∅.
Proof. unfold Py.payload_of, Py.get. rewrite !lookup_empty. reflexivity. Qed.

End PyFacts.

(** ** The projection loop of [build_dw309_forecast] *)

Section Dw309Loop.

Import dw309.

Variable monthly_data : MonthlyData.
Variable item : string.
Variables avg safety max_ order : Qc.
Variable n : nat.

Local Abbreviation inc_at := (incoming_at monthly_data item avg order n).
Local Abbreviation use_at := (usage_at monthly_data item avg).

Lemma loop_unfold (index : nat) (month : string) (rest : list string) (start : Qc) :
  loop monthly_data item avg safety max_ order n index (month :: rest) start
  = let month_end := start + inc_at index month - use_at month in
    let rec := loop monthly_data item avg safety max_ order n (S index) rest month_end in
    ({| st_month := month; st_month_start := start;
        st_incoming := inc_at index month; st_usage := use_at month;
        st_month_end := month_end;
        st_status := status_of month_end safety max_ |} :: fst rec, snd rec).
Proof.
  unfold incoming_at, usage_at, is_last. simpl.
  destruct (figures _ month avg) as [inc us]. simpl.
  destruct (loop _ _ _ _ _ _ _ _ rest _) as [steps fin]. reflexivity.
Qed.

Lemma loop_length (months : list string) (index : nat) (start : Qc) :
  length (fst (loop monthly_data item avg safety max_ order n index months start))
  = length months.
Proof.
  revert index start. induction months as [|m rest IH]; intros index start.
  - reflexivity.
  - rewrite loop_unfold. simpl. f_equal. apply IH.
Qed.

Lemma loop_final (months : list string) (index : nat) (start : Qc) :
  snd (loop monthly_data item avg safety max_ order n index months start)
  = start + Py.sum (fmap net
      (fst (loop monthly_data item avg safety max_ order n index months start))).
Proof.
  revert index start. induction months as [|m rest IH]; intros index start.
  - simpl. rewrite sum_nil. ring.
  - rewrite loop_unfold. cbv zeta. cbn [fst snd].
    rewrite fmap_cons, sum_cons, IH. unfold net. cbn [st_incoming st_usage]. ring.
Qed.

Lemma loop_step (months : list string) (index : nat) (start : Qc) (i : nat) (s : Step) :
  fst (loop monthly_data item avg safety max_ order n index months start) !! i = Some s ->
  months !! i = Some (st_month s)
  /\ st_month_start s = start + Py.sum (fmap net (take i
       (fst (loop monthly_data item avg safety max_ order n index months start))))
  /\ st_incoming s = inc_at (index + i) (st_month s)
  /\ st_usage s = use_at (st_month s)
  /\ st_month_end s = st_month_start s + st_incoming s - st_usage s
  /\ st_status s = status_of (st_month_end s) safety max_.
Proof.
  revert index start i. induction months as [|m rest IH]; intros index start i.
  - simpl. intros H. discriminate H.
  - rewrite loop_unfold. cbv zeta. cbn [fst]. destruct i as [|i].
    + intros [= <-]. cbn [take firstn st_month st_month_start st_incoming st_usage
        st_month_end st_status]. rewrite fmap_nil, sum_nil, Nat.add_0_r.
      repeat split; try reflexivity. ring.
    + intros H. change ((loop monthly_data item avg safety max_ order n (S index) rest
        (start + inc_at index m - use_at m)).1 !! i = Some s) in H.
      apply IH in H as (Hm & Hs & Hi & Hu & He & Hst).
      rewrite firstn_cons, fmap_cons, sum_cons. cbn [net st_incoming st_usage].
      replace (index + S i)%nat with (S index + i)%nat by lia.
      split; [exact Hm|]. split; [rewrite Hs; unfold net; cbn [st_incoming st_usage]; ring|].
      repeat split; assumption.
Qed.

End Dw309Loop.

Example sample_month_ends :
  values_of (dw309.st_month_end <$> sample_steps 50 200)
  = [190 # 1; 180 # 1; 170 # 1; 160 # 1; 150 # 1; 140 # 1; 160 # 1]%Q.
Proof. vm_compute. reflexivity. Qed.

(** ** Telescoping sum of the projection *)

Section Projection.

Import dw309.

Variable monthly_data : MonthlyData.
Variable item : string.
Variables current safety max_ order : Qc.
Variable start : YearMonth.
Variable months_ahead : nat.

Local Abbreviation trace :=
  (fst (steps monthly_data item current safety max_ order start months_ahead)).
Local Abbreviation result :=
  (build_dw309_forecast monthly_data item current safety max_ order start months_ahead).

Lemma month_range_length : length (_month_range start months_ahead) = S months_ahead.
Proof. unfold _month_range. rewrite length_fmap, length_seq. lia. Qed.

Lemma trace_length : length trace = S months_ahead.
Proof. unfold steps. rewrite loop_length. apply month_range_length. Qed.

Lemma forecast_rows : fst result = to_row <$> trace.
Proof.
  unfold build_dw309_forecast.
  destruct (steps _ _ _ _ _ _ _ _) as [tr fin]. reflexivity.
Qed.

Lemma forecast_final : final_month_end (snd result) = current + Py.sum (net <$> trace).
Proof.
  unfold build_dw309_forecast.
  destruct (steps _ _ _ _ _ _ _ _) as [tr fin] eqn:E. cbn [snd final_month_end fst].
  change fin with (snd (tr, fin)). change tr with (fst (tr, fin)) at 2.
  rewrite <- E. unfold steps. apply loop_final.
Qed.

Lemma trace_prefix_sum (i : nat) (s : Step) :
  trace !! i = Some s ->
  st_month_end s = current + Py.sum (net <$> take (S i) trace).
Proof.
  intros H. pose proof H as H'. unfold steps in H'.
  apply loop_step in H' as (_ & Hs & _ & _ & He & _).
  rewrite (take_S_r _ _ _ H), fmap_app, fmap_cons, fmap_nil, sum_snoc.
  rewrite He, Hs. unfold net, steps. ring.
Qed.

End Projection.

(** A projection that runs out of stock keeps the negative values. *)
Example negative_stock_is_kept :
  values_of (dw309.st_month_end <$> sample_steps 0 15)
  = [5 # 1; -5 # 1; -15 # 1; -25 # 1; -35 # 1; -45 # 1; -75 # 1]%Q
  /\ dw309.st_status <$> sample_steps 0 15
     = [dw309.CRITICAL; dw309.STOCKOUT; dw309.STOCKOUT; dw309.STOCKOUT;
        dw309.STOCKOUT; dw309.STOCKOUT; dw309.STOCKOUT].
Proof. split; vm_compute; reflexivity. Qed.

(** ** The injected order *)

Section Injection.

Import dw309.

Variable monthly_data : MonthlyData.
Variable item : string.
Variables avg safety max_ order : Qc.
Variable n : nat.

Local Abbreviation run q := (loop monthly_data item avg safety max_ q n).

Lemma is_last_end (index len : nat) :
  (index + S len = n)%nat -> is_last n index = true -> len = O.
Proof.
  unfold is_last. intros Hn H. apply bool_decide_eq_true_1 in H. lia.
Qed.

Lemma incoming_at_not_last (q : Qc) (i : nat) (month : string) :
  is_last n i = false ->
  incoming_at monthly_data item avg q n i month
  = fst (figures (Py.payload_of monthly_data month item) month avg).
Proof. unfold incoming_at. intros ->. reflexivity. Qed.

Lemma incoming_at_last (q : Qc) (i : nat) (month : string) :
  is_last n i = true ->
  incoming_at monthly_data item avg q n i month
  = fst (figures (Py.payload_of monthly_data month item) month avg) + q.
Proof. unfold incoming_at. intros ->. reflexivity. Qed.

(** Position by position, the run with an order is the run without one,
    shifted in its last month only. *)
Lemma loop_injection (months : list string) (index : nat) (start0 : Qc) (i : nat) (sb : Step) :
  (index + length months = n)%nat ->
  fst (run 0 index months start0) !! i = Some sb ->
  fst (run order index months start0) !! i
  = Some (if is_last n (index + i) then shift_step order safety max_ sb else sb).
Proof.
  revert index start0 i. induction months as [|m rest IH]; intros index start0 i Hn.
  - intros H. discriminate H.
  - rewrite !loop_unfold. cbv zeta. cbn [fst length] in *. destruct i as [|i].
    + intros [= <-]. rewrite Nat.add_0_r. cbn [lookup list_lookup]. f_equal.
      destruct (is_last n index) eqn:L.
      * rewrite !(incoming_at_last _ _ _ L). unfold shift_step.
        cbn [st_month st_month_start st_incoming st_usage st_month_end].
        f_equal; try ring.
        f_equal; ring.
      * rewrite !(incoming_at_not_last _ _ _ L). reflexivity.
    + destruct (is_last n index) eqn:L.
      * apply (is_last_end _ _ Hn) in L. destruct rest; [|discriminate L].
        intros H. discriminate H.
      * rewrite !(incoming_at_not_last _ _ _ L).
        replace (index + S i)%nat with (S index + i)%nat by lia.
        apply IH. lia.
Qed.

End Injection.

Section InjectionForecast.

Import dw309.

Variable monthly_data : MonthlyData.
Variable item : string.
Variables current safety max_ order : Qc.
Variable start : YearMonth.
Variable months_ahead : nat.

Local Abbreviation base :=
  (fst (steps monthly_data item current safety max_ 0 start months_ahead)).
Local Abbreviation shifted :=
  (fst (steps monthly_data item current safety max_ order start months_ahead)).
Local Abbreviation forecast q :=
  (build_dw309_forecast monthly_data item current safety max_ q start months_ahead).

Lemma is_last_horizon (i : nat) :
  is_last (S months_ahead) i = bool_decide (i = months_ahead).
Proof. unfold is_last. apply bool_decide_ext. lia. Qed.

Lemma shifted_lookup (i : nat) (sb : Step) :
  base !! i = Some sb ->
  shifted !! i
  = Some (if bool_decide (i = months_ahead) then shift_step order safety max_ sb else sb).
Proof.
  intros H. unfold steps in *.
  pose proof (loop_injection monthly_data item (calculate_usage_average monthly_data item)
    safety max_ order _ (_month_range start months_ahead) O current i sb eq_refl H) as L.
  cbn [Nat.add] in L. rewrite L, month_range_length, is_last_horizon. reflexivity.
Qed.

Lemma earlier_steps_unchanged : take months_ahead shifted = take months_ahead base.
Proof.
  apply list_eq. intros i. destruct (decide (i < months_ahead)%nat) as [Hi|Hi].
  - rewrite !lookup_take_lt by exact Hi.
    destruct (lookup_lt_is_Some_2 base i) as [sb Hb].
    { rewrite trace_length. lia. }
    rewrite (shifted_lookup _ _ Hb), Hb, bool_decide_eq_false_2 by lia. reflexivity.
  - rewrite !lookup_take_ge by lia. reflexivity.
Qed.

Lemma trace_split (q : Qc) (s : Step) :
  fst (steps monthly_data item current safety max_ q start months_ahead) !! months_ahead
    = Some s ->
  fst (steps monthly_data item current safety max_ q start months_ahead)
  = take months_ahead
      (fst (steps monthly_data item current safety max_ q start months_ahead)) ++ [s].
Proof.
  intros H. rewrite <- (take_S_r _ _ _ H). symmetry. apply take_ge.
  rewrite trace_length. lia.
Qed.

End InjectionForecast.

Example sample_without_order :
  values_of (dw309.st_month_end <$> sample_steps 0 200)
  = [190 # 1; 180 # 1; 170 # 1; 160 # 1; 150 # 1; 140 # 1; 110 # 1]%Q.
Proof. vm_compute. reflexivity. Qed.

(** ** The usage average of the long-lead item *)

Section UsageAverage.

Import dw309.

Variable monthly_data : MonthlyData.
Variable item : string.

Lemma collect_window (key : string) (months : list string) (acc : list Qc) :
  collect monthly_data item key months acc
  = acc ++ window_values monthly_data item key months.
Proof.
  revert acc. induction months as [|m rest IH]; intros acc.
  - cbn. rewrite app_nil_r. reflexivity.
  - cbn [collect]. rewrite IH, payload_of_lookup. unfold window_values at 2.
    cbn [omap list_omap].
    destruct (field_of monthly_data m item key) as [v|].
    + rewrite <- app_assoc. reflexivity.
    + reflexivity.
Qed.



End UsageAverage.

Example usage_average_samples :
  this (dw309.calculate_usage_average sample_data DW309) = (30 # 1)%Q
  /\ this (dw309.calculate_usage_average history_only_data DW309) = (60 # 1)%Q
  /\ this (dw309.calculate_usage_average
             (<[ "2026-02"%string := month_fields K_ARRANGED 20 45 ]> history_only_data)
             DW309) = (45 # 1)%Q
  /\ dw309.calculate_usage_average ∅ DW309 = 0.
Proof. repeat split; vm_compute; reflexivity. Qed.

(** ** Defaults of the projection for missing fields *)

Section MissingFields.

Import dw309.

Lemma figures_get (payload : Fields) (month : string) (avg : Qc) :
  figures payload month avg
  = (Py.get payload (incoming_key month) 0, Py.get payload K_USAGE_FORECAST avg).
Proof.
  unfold figures, incoming_key.
  repeat (case_bool_decide; [reflexivity|]). reflexivity.
Qed.

Lemma sum_zeros (xs : list Qc) : (forall x, x ∈ xs -> x = 0) -> Py.sum xs = 0.
Proof.
  induction xs as [|x xs IH]; intros H; [reflexivity|].
  rewrite sum_cons, IH, (H x).
  - ring.
  - apply list_elem_of_here.
  - intros y Hy. apply H. apply list_elem_of_further, Hy.
Qed.

Variable monthly_data : MonthlyData.
Variable item : string.
Variables current safety max_ order : Qc.
Variable start : YearMonth.
Variable months_ahead : nat.

Local Abbreviation trace :=
  (fst (steps monthly_data item current safety max_ order start months_ahead)).

Lemma trace_figures (i : nat) (s : Step) :
  trace !! i = Some s ->
  st_incoming s
  = (let base := Py.get (Py.payload_of monthly_data (st_month s) item)
                        (incoming_key (st_month s)) 0 in
     if bool_decide (i = months_ahead) then base + order else base)
  /\ st_usage s
     = Py.get (Py.payload_of monthly_data (st_month s) item) K_USAGE_FORECAST
              (calculate_usage_average monthly_data item).
Proof.
  intros H. unfold steps in H.
  apply loop_step in H as (_ & _ & Hi & Hu & _ & _).
  rewrite Hi, Hu. unfold incoming_at, usage_at.
  rewrite figures_get, month_range_length, is_last_horizon. cbn [fst snd].
  split; reflexivity.
Qed.

(** C10, as the code has it: a month without a usage forecast uses the
    usage average, a month without its incoming field receives 0 (plus
    the order in the final month); with no monthly data at all the
    average is itself 0, so no month uses anything and the stock stays at
    its starting level until the order arrives in the final month. *)
Theorem dw309_missing_fields (i : nat) (s : Step) :
  trace !! i = Some s ->
  (field_of monthly_data (st_month s) item K_USAGE_FORECAST = None ->
   st_usage s = calculate_usage_average monthly_data item)
  /\ (field_of monthly_data (st_month s) item (incoming_key (st_month s)) = None ->
      st_incoming s = if bool_decide (i = months_ahead) then order else 0)
  /\ (monthly_data = ∅ ->
      calculate_usage_average monthly_data item = 0
      /\ st_usage s = 0
      /\ st_month_start s = current
      /\ st_month_end s = if bool_decide (i = months_ahead) then current + order else current).
Proof.
  intros H. destruct (trace_figures _ _ H) as [Hi Hu].
  split; [|split].
  - intros Hnone. rewrite Hu. apply get_absent.
    rewrite payload_of_lookup. exact Hnone.
  - intros Hnone. rewrite Hi. cbv zeta. rewrite get_absent.
    + case_bool_decide; [ring|reflexivity].
    + rewrite payload_of_lookup. exact Hnone.
  - intros Hempty.
    assert (Hzero : forall j p, trace !! j = Some p ->
              st_usage p = 0
              /\ st_incoming p = if bool_decide (j = months_ahead) then order else 0).
    { intros j p Hp. destruct (trace_figures _ _ Hp) as [Hpi Hpu].
      rewrite Hpi, Hpu. cbv zeta. rewrite Hempty, payload_of_empty.
      rewrite !get_absent by apply lookup_empty.
      split; [reflexivity|]. case_bool_decide; [ring|reflexivity]. }
    assert (Hstart : st_month_start s = current).
    { pose proof H as H'. unfold steps in H'.
      apply loop_step in H' as (_ & Hs & _).
      rewrite Hs, sum_zeros; [ring|].
      intros x Hx. apply list_elem_of_fmap in Hx as (p & -> & Hp).
      apply list_elem_of_lookup in Hp as [j Hj].
      apply lookup_take_Some in Hj as [Hj Hlt].
      apply lookup_lt_Some in H. rewrite trace_length in H.
      destruct (Hzero _ _ Hj) as [Hu0 Hi0].
      unfold net. rewrite Hu0, Hi0, bool_decide_eq_false_2 by lia. ring. }
    destruct (Hzero _ _ H) as [Hu0 Hi0].
    split; [rewrite Hempty; reflexivity|]. split; [exact Hu0|]. split; [exact Hstart|].
    pose proof H as H'. unfold steps in H'.
    apply loop_step in H' as (_ & _ & _ & _ & He & _).
    rewrite He, Hstart, Hu0, Hi0. case_bool_decide; ring.
Qed.

End MissingFields.

Lemma dw309_missing_fields_witness :
  exists s, default_steps ∅ !! 3%nat = Some s
    /\ dw309.st_usage s = 0 /\ dw309.st_month_end s = num 100.
Proof.
  destruct (default_steps ∅ !! 3%nat) as [s|] eqn:E.
  - exists s. split; [reflexivity|].
    destruct (dw309_missing_fields ∅ DW309 (num 100) (num 30) (num 300) 0
                dw309.DEFAULT_START dw309.DEFAULT_MONTHS_AHEAD 3 s E)
      as (_ & _ & Hempty).
    destruct (Hempty eq_refl) as (_ & Hu & _ & He).
    split; [exact Hu|exact He].
  - vm_compute in E. discriminate E.
Defined.

(** With no monthly data at all, every month of the default horizon uses
    0 and the stock stays at its starting level. *)
Lemma empty_data_stock_constant :
  values_of (dw309.st_usage <$> default_steps ∅) = replicate 8 (0 # 1)%Q
  /\ values_of (dw309.st_month_end <$> default_steps ∅) = replicate 8 (100 # 1)%Q.
Proof. split; vm_compute; reflexivity. Qed.

(** With historical outgoing figures only, every month uses their mean. *)
Example history_only_uses_average :
  values_of (dw309.st_usage <$> default_steps history_only_data) = replicate 8 (60 # 1)%Q
  /\ values_of (dw309.st_month_end <$> default_steps history_only_data)
     = [40 # 1; -20 # 1; -80 # 1; -140 # 1; -200 # 1; -260 # 1; -320 # 1; -380 # 1]%Q.
Proof. split; vm_compute; reflexivity. Qed.

(** ** Risk classification *)

Section RiskBoundaries.

Import order_planning.

Lemma lt_true (x y : Qc) : x < y -> bool_decide (x < y) = true.
Proof. apply bool_decide_eq_true_2. Qed.

Lemma lt_false (x y : Qc) : y <= x -> bool_decide (x < y) = false.
Proof. intros H. apply bool_decide_eq_false_2. apply Qcle_not_lt, H. Qed.

(** C2, as the code has it: below the safety stock the classification is
    the unsafe one for every threshold pair (stockout below 0, critical
    from 0 up to the safety stock, in the four-way labels).  An ending
    stock equal to the safety stock or to the max stock is normal, and
    one above the max stock is excess, when safety <= max, and for the
    four-way labels also 0 <= safety.  Each month of the long-lead
    projection carries the four-way label of its ending stock. *)
Theorem risk_boundaries (safety max_ e : Qc) :
  (e < safety -> risk_level e safety max_ = SHORTAGE)
  /\ (e < 0 -> dw309.status_of e safety max_ = dw309.STOCKOUT)
  /\ (0 <= e -> e < safety -> dw309.status_of e safety max_ = dw309.CRITICAL)
  /\ (safety <= max_ ->
      risk_level safety safety max_ = NORMAL
      /\ risk_level max_ safety max_ = NORMAL
      /\ (max_ < e -> risk_level e safety max_ = EXCESS))
  /\ (0 <= safety -> safety <= max_ ->
      dw309.status_of safety safety max_ = dw309.NORMAL
      /\ dw309.status_of max_ safety max_ = dw309.NORMAL
      /\ (max_ < e -> dw309.status_of e safety max_ = dw309.EXCESS))
  /\ (forall monthly_data item current order start months_ahead i s,
        fst (dw309.steps monthly_data item current safety max_ order start months_ahead)
          !! i = Some s ->
        dw309.st_status s = dw309.status_of (dw309.st_month_end s) safety max_).
Proof.
  unfold risk_level, dw309.status_of.
  split; [intros H; rewrite (lt_true _ _ H); reflexivity|].
  split; [intros H; rewrite (lt_true _ _ H); reflexivity|].
  split; [intros H0 H; rewrite (lt_false _ _ H0), (lt_true _ _ H); reflexivity|].
  split.
  { intros Hm. split; [|split].
    - rewrite (lt_false safety safety), (lt_false max_ safety); auto using Qcle_refl.
    - rewrite (lt_false max_ safety), (lt_false max_ max_); auto using Qcle_refl.
    - intros H. rewrite (lt_false e safety), (lt_true _ _ H); [reflexivity|].
      apply Qclt_le_weak. eapply Qcle_lt_trans; eassumption. }
  split.
  { intros H0 Hm. split; [|split].
    - rewrite (lt_false safety 0), (lt_false safety safety), (lt_false max_ safety);
        auto using Qcle_refl.
    - rewrite (lt_false max_ 0), (lt_false max_ safety), (lt_false max_ max_);
        auto using Qcle_refl. eapply Qcle_trans; eassumption.
    - intros H.
      assert (Hs : safety <= e) by (apply Qclt_le_weak; eapply Qcle_lt_trans; eassumption).
      rewrite (lt_false e 0), (lt_false e safety), (lt_true _ _ H); auto.
      eapply Qcle_trans; eassumption. }
  intros md item current order start n i s H. unfold dw309.steps in H.
  apply loop_step in H as (_ & _ & _ & _ & _ & Hst). exact Hst.
Qed.

End RiskBoundaries.

Lemma risk_boundaries_witness :
  order_planning.risk_level (num 100) (num 100) (num 500) = order_planning.NORMAL
  /\ dw309.status_of (num 500) (num 100) (num 500) = dw309.NORMAL
  /\ dw309.status_of (num 501) (num 100) (num 500) = dw309.EXCESS
  /\ order_planning.risk_level (num 99) (num 100) (num 500) = order_planning.SHORTAGE.
Proof.
  destruct (risk_boundaries (num 100) (num 500) (num 501)) as (_ & _ & _ & H3 & H4 & _).
  assert (Hm : num 100 <= num 500) by (vm_compute; discriminate).
  assert (H0 : 0 <= num 100) by (vm_compute; discriminate).
  destruct (H3 Hm) as (Ha & _ & _). destruct (H4 H0 Hm) as (_ & Hb & Hc).
  split; [exact Ha|]. split; [exact Hb|]. split; [apply Hc; reflexivity|].
  apply (risk_boundaries (num 100) (num 500) (num 99)). reflexivity.
Defined.

(** With the thresholds the wrong way round, an ending stock equal to
    the safety stock is excess and one equal to the max stock is a
    shortage; with a negative safety stock, an ending stock equal to it
    is a stockout. *)
Lemma unordered_thresholds_misclassify :
  order_planning.risk_level (num 10) (num 10) (num 5) = order_planning.EXCESS
  /\ order_planning.risk_level (num 5) (num 10) (num 5) = order_planning.SHORTAGE
  /\ dw309.status_of (num (-5)) (num (-5)) (num 10) = dw309.STOCKOUT
  /\ order_planning.EXCESS <> order_planning.NORMAL
  /\ order_planning.SHORTAGE <> order_planning.NORMAL
  /\ dw309.STOCKOUT <> dw309.NORMAL.
Proof. repeat split; try reflexivity; discriminate. Qed.

(** ** Discussion reasons *)

Section Discussion.

Import order_planning.

Variable row : OrderRow.
Variables avg buffer factor : Qc.

(** The nested test of the source on the order quantity is the third
    check. *)
Lemma abnormal_order_test :
  (if bool_decide (0 < avg)
   then bool_decide (o_order_qty row = 0) || bool_decide (avg * num 2 <= o_order_qty row)
   else bool_decide (o_order_qty row = 0))
  = check3 row avg.
Proof.
  unfold check3.
  destruct (bool_decide (0 < avg)), (bool_decide (o_order_qty row = 0)),
    (bool_decide (avg * num 2 <= o_order_qty row)); reflexivity.
Qed.

Lemma discussion_reasons_tags :
  snd (discussion_reasons row avg buffer factor) = triggered_tags row avg buffer factor.
Proof.
  unfold triggered_tags. rewrite <- abnormal_order_test.
  unfold discussion_reasons, check1, check2, check4, flag.
  destruct (bool_decide (o_next_next_end row < o_safety_stock row)),
    (bool_decide (o_max_stock row < o_next_next_end row)),
    (bool_decide (0 < avg)), (bool_decide (o_order_qty row = 0)),
    (bool_decide (avg * num 2 <= o_order_qty row)),
    (bool_decide (buffer < o_safety_stock row * factor)); reflexivity.
Qed.

Lemma discussion_reasons_priority :
  fst (discussion_reasons row avg buffer factor)
  = match triggered_priorities row avg buffer factor with
    | [] => 4%Z
    | p :: ps => foldr Z.min p ps
    end.
Proof.
  unfold triggered_priorities. rewrite <- abnormal_order_test.
  unfold discussion_reasons, check1, check2, check4, flag.
  destruct (bool_decide (o_next_next_end row < o_safety_stock row)),
    (bool_decide (o_max_stock row < o_next_next_end row)),
    (bool_decide (0 < avg)), (bool_decide (o_order_qty row = 0)),
    (bool_decide (avg * num 2 <= o_order_qty row)),
    (bool_decide (buffer < o_safety_stock row * factor)); reflexivity.
Qed.

(** C4: when some check triggers, the priority is one of the priorities
    of the triggered checks (1 for check 1, 2 for check 2, 3 for checks 3
    and 4) and no triggered check has a smaller one; a row that triggers
    check 3 alone has priority 3. *)
Theorem discussion_priority_is_minimum :
  let ps := triggered_priorities row avg buffer factor in
  let priority := fst (discussion_reasons row avg buffer factor) in
  (ps <> [] -> priority ∈ ps /\ forall q, q ∈ ps -> (priority <= q)%Z)
  /\ (check1 row = false -> check2 row = false -> check3 row avg = true ->
      check4 row buffer factor = false -> priority = 3%Z).
Proof.
  cbv zeta. rewrite discussion_reasons_priority. unfold triggered_priorities.
  split.
  - destruct (check1 row), (check2 row), (check3 row avg), (check4 row buffer factor);
      cbn [app foldr]; intros Hne; try (exfalso; apply Hne; reflexivity);
      (split; [set_solver|]);
      intros q Hq; repeat (apply elem_of_cons in Hq as [->|Hq]);
      try (apply elem_of_nil in Hq; contradiction); lia.
  - intros -> -> -> ->. reflexivity.
Qed.

End Discussion.

Lemma discussion_priority_is_minimum_witness :
  fst (order_planning.discussion_reasons row_zero_order (num 10) (num 180) FACTOR) = 3%Z
  /\ fst (order_planning.discussion_reasons row_short (num 10) (num 110) FACTOR)
     ∈ [1%Z; 3%Z; 3%Z].
Proof.
  split.
  - apply (discussion_priority_is_minimum row_zero_order (num 10) (num 180) FACTOR);
      reflexivity.
  - apply (discussion_priority_is_minimum row_short (num 10) (num 110) FACTOR).
    discriminate.
Defined.

Example discussion_reasons_samples :
  order_planning.discussion_reasons row_zero_order (num 10) (num 180) FACTOR
    = (3%Z, [order_planning.TAG_ABNORMAL_ORDER])
  /\ order_planning.discussion_reasons row_short (num 10) (num 110) FACTOR
     = (1%Z, [order_planning.TAG_SHORTAGE; order_planning.TAG_ABNORMAL_ORDER;
              order_planning.TAG_NEXT_MONTH])
  /\ order_planning.discussion_reasons row_quiet (num 10) (num 180) FACTOR = (4%Z, []).
Proof. repeat split; reflexivity. Qed.

(** ** The abnormal-order tag *)

Section AbnormalOrder.

Import order_planning.

Variable row : OrderRow.
Variables avg buffer factor : Qc.

Lemma check3_true :
  check3 row avg = true
  <-> o_order_qty row = 0 \/ (0 < avg /\ avg * num 2 <= o_order_qty row).
Proof.
  unfold check3.
  rewrite orb_true_iff, andb_true_iff, !bool_decide_eq_true. reflexivity.
Qed.

Lemma abnormal_order_tagged :
  TAG_ABNORMAL_ORDER ∈ snd (discussion_reasons row avg buffer factor)
  <-> check3 row avg = true.
Proof.
  rewrite discussion_reasons_tags. unfold triggered_tags.
  assert (H1 : TAG_ABNORMAL_ORDER <> TAG_SHORTAGE) by discriminate.
  assert (H2 : TAG_ABNORMAL_ORDER <> TAG_EXCESS) by discriminate.
  assert (H4 : TAG_ABNORMAL_ORDER <> TAG_NEXT_MONTH) by discriminate.
  rewrite !elem_of_app.
  destruct (check1 row), (check2 row), (check3 row avg), (check4 row buffer factor);
    rewrite ?elem_of_cons, ?elem_of_nil; intuition congruence.
Qed.

(** C5: against a zero average a zero order is tagged as abnormal and a
    nonzero order is not; against a positive average the order is tagged
    exactly when it is zero or at least twice the average. *)
Theorem abnormal_order_rule :
  let tagged := TAG_ABNORMAL_ORDER ∈ snd (discussion_reasons row avg buffer factor) in
  (avg = 0 -> (o_order_qty row = 0 -> tagged) /\ (o_order_qty row <> 0 -> ~ tagged))
  /\ (0 < avg -> (tagged <-> o_order_qty row = 0 \/ avg * num 2 <= o_order_qty row)).
Proof.
  cbv zeta. rewrite abnormal_order_tagged, check3_true. split.
  - intros ->. split; [tauto|].
    intros Hne [H|[H _]]; [exact (Hne H)|]. exact (Qclt_not_eq _ _ H eq_refl).
  - intros Hpos. tauto.
Qed.

End AbnormalOrder.

Lemma abnormal_order_rule_witness :
  order_planning.TAG_ABNORMAL_ORDER
    ∈ snd (order_planning.discussion_reasons row_zero_order 0 (num 180) FACTOR)
  /\ ~ order_planning.TAG_ABNORMAL_ORDER
       ∈ snd (order_planning.discussion_reasons row_quiet 0 (num 180) FACTOR)
  /\ ~ order_planning.TAG_ABNORMAL_ORDER
       ∈ snd (order_planning.discussion_reasons row_quiet (num 10) (num 180) FACTOR).
Proof.
  split; [|split].
  - destruct (abnormal_order_rule row_zero_order 0 (num 180) FACTOR) as [Hzero _].
    apply (Hzero eq_refl). apply Qc_is_canon. reflexivity.
  - destruct (abnormal_order_rule row_quiet 0 (num 180) FACTOR) as [Hzero _].
    apply (Hzero eq_refl). intros H. apply (f_equal this) in H. discriminate H.
  - destruct (abnormal_order_rule row_quiet (num 10) (num 180) FACTOR) as [_ Hpos].
    assert (Havg : 0 < num 10) by reflexivity.
    intros H. apply (Hpos Havg) in H.
    destruct H as [H|H]; [apply (f_equal this) in H; discriminate H|].
    vm_compute in H. apply H. reflexivity.
Defined.

(** ** The discussion list *)

Section DiscussionList.

Import order_planning app.

Lemma no_reasons_iff (row : OrderRow) (avg buffer factor : Qc) :
  snd (discussion_reasons row avg buffer factor) = []
  <-> check1 row = false /\ check2 row = false /\ check3 row avg = false
      /\ check4 row buffer factor = false.
Proof.
  rewrite discussion_reasons_tags. unfold triggered_tags.
  destruct (check1 row), (check2 row), (check3 row avg), (check4 row buffer factor);
    cbn [app]; split; intros H; try discriminate H; try tauto;
    destruct H as (H1 & H2 & H3 & H4); discriminate.
Qed.


Lemma priority_range (row : OrderRow) (avg buffer factor : Qc) :
  snd (discussion_reasons row avg buffer factor) <> [] ->
  (1 <= fst (discussion_reasons row avg buffer factor) <= 3)%Z.
Proof.
  rewrite discussion_reasons_tags, discussion_reasons_priority.
  unfold triggered_tags, triggered_priorities.
  destruct (check1 row), (check2 row), (check3 row avg), (check4 row buffer factor);
    cbn [app foldr]; intros H; try (exfalso; apply H; reflexivity); lia.
Qed.


Variable monthly_data : MonthlyData.
Variable name_map : gmap string string.
Variable factor : Qc.

Local Abbreviation reasons r := (reasons_of monthly_data factor r).

Lemma build_discussion_rows_cons (r : RiskRow) (rest : list RiskRow) :
  build_discussion_rows monthly_data name_map (r :: rest) factor
  = if flagged monthly_data factor r
    then entry_of name_map r (fst (reasons r)) (snd (reasons r))
         :: build_discussion_rows monthly_data name_map rest factor
    else build_discussion_rows monthly_data name_map rest factor.
Proof.
  unfold flagged, reasons_of. cbn [build_discussion_rows].
  destruct (discussion_reasons _ _ _ _) as [priority [|tag tags]]; reflexivity.
Qed.

Lemma flagged_true (r : RiskRow) :
  flagged monthly_data factor r = true <-> snd (reasons r) <> [].
Proof.
  unfold flagged. destruct (snd (reasons r)) as [|tag tags]; split; intros H.
  - discriminate H.
  - exfalso. apply H. reflexivity.
  - discriminate.
  - reflexivity.
Qed.

Lemma discussion_rows_filter (source_df : list RiskRow) :
  build_discussion_rows monthly_data name_map source_df factor
  = (fun r => entry_of name_map r (fst (reasons r)) (snd (reasons r)))
    <$> filter (fun r => flagged monthly_data factor r = true) source_df.
Proof.
  induction source_df as [|r rest IH]; [reflexivity|].
  rewrite build_discussion_rows_cons, IH, filter_cons.
  destruct (flagged monthly_data factor r); case_decide; try congruence; reflexivity.
Qed.


End DiscussionList.



Example sample_discussion_list :
  (fun e => (app.d_item_id e, app.d_priority e, app.d_reasons e))
    <$> app.build_discussion_rows ∅ ∅ sample_source FACTOR
  = [("DW-001", 3%Z, "発注量異常");
     ("DW-003", 1%Z, "欠品リスク / 発注量異常 / 来月在庫不足")]%string.
Proof. vm_compute. reflexivity. Qed.

(** ** Prediction accuracy *)

Section PredictionAccuracy.

Import prediction_review.

Lemma round1_zero : Py.round1 0 = 0.
Proof. apply Qc_is_canon. reflexivity. Qed.

Lemma get_default {V : Type} (d : gmap string V) (k : string) (dflt : V) :
  Py.get d k dflt = default dflt (d !! k).
Proof. unfold Py.get. destruct (d !! k); reflexivity. Qed.

Variable monthly_data : MonthlyData.
Variable last_month : string.


End PredictionAccuracy.


(** ** Missing monthly data *)

Section MissingData.

Import order_planning forecast.

Lemma for_each_ok {A B : Type} (body : A -> Py.result B) (xs : list A) :
  Forall (fun x => exists y, body x = Py.Ok y) xs ->
  exists ys, Py.for_each body xs = Py.Ok ys /\ length ys = length xs.
Proof.
  induction 1 as [|x xs [y Hy] _ [ys [Hys Hlen]]].
  - exists []. split; reflexivity.
  - exists (y :: ys). cbn [Py.for_each]. rewrite Hy, Hys. cbn. rewrite Hlen.
    split; reflexivity.
Qed.


Variable monthly_data : MonthlyData.



End MissingData.



Example two_month_forecast :
  match forecast.calculate_inventory_forecast two_month_data [sample_item] with
  | Py.Ok [row] =>
      this (forecast.f_month_end row) = (190 # 1)%Q
      /\ this (forecast.f_next_month_end row) = (180 # 1)%Q
  | _ => False
  end.
Proof. vm_compute. split; reflexivity. Qed.

(** * Further properties of the sources *)

(** ** The projection under a change of the starting stock *)

Section StartShift.

Import dw309.

Variable monthly_data : MonthlyData.
Variable item : string.
Variables avg safety max_ order : Qc.
Variable n : nat.

Lemma loop_start_shift (months : list string) (index : nat) (start0 d : Qc) :
  fst (loop monthly_data item avg safety max_ order n index months (start0 + d))
  = shift_start d safety max_
    <$> fst (loop monthly_data item avg safety max_ order n index months start0)
  /\ snd (loop monthly_data item avg safety max_ order n index months (start0 + d))
     = snd (loop monthly_data item avg safety max_ order n index months start0) + d.
Proof.
  revert index start0. induction months as [|m rest IH]; intros index start0.
  - split; reflexivity.
  - rewrite !loop_unfold. cbv zeta. cbn [fst snd].
    replace (start0 + d + incoming_at monthly_data item avg order n index m
             - usage_at monthly_data item avg m)
      with (start0 + incoming_at monthly_data item avg order n index m
            - usage_at monthly_data item avg m + d) by ring.
    destruct (IH (S index) (start0 + incoming_at monthly_data item avg order n index m
                            - usage_at monthly_data item avg m)) as [IH1 IH2].
    split; [|exact IH2].
    rewrite fmap_cons, IH1. reflexivity.
Qed.

End StartShift.

Section ProjectionLayout.

Import dw309.

Variable monthly_data : MonthlyData.
Variable item : string.
Variables current safety max_ order : Qc.
Variable start : YearMonth.
Variable months_ahead : nat.

Lemma forecast_final_snd :
  final_month_end
    (snd (build_dw309_forecast monthly_data item current safety max_ order start
            months_ahead))
  = snd (steps monthly_data item current safety max_ order start months_ahead).
Proof.
  unfold build_dw309_forecast.
  destruct (steps _ _ _ _ _ _ _ _) as [tr fin]. reflexivity.
Qed.

Lemma forecast_final_month :
  final_month
    (snd (build_dw309_forecast monthly_data item current safety max_ order start
            months_ahead))
  = strftime (add_months start months_ahead).
Proof.
  unfold build_dw309_forecast.
  destruct (steps _ _ _ _ _ _ _ _) as [tr fin]. cbn [snd final_month].
  unfold _month_range. rewrite Nat.add_1_r, seq_S, fmap_app. cbn [fmap list_fmap].
  rewrite last_last. reflexivity.
Qed.

Lemma loop_months (avg : Qc) (n index : nat) (months : list string) (start0 : Qc) :
  st_month <$> fst (loop monthly_data item avg safety max_ order n index months start0)
  = months.
Proof.
  revert index start0. induction months as [|m rest IH]; intros index start0.
  - reflexivity.
  - rewrite loop_unfold. cbv zeta. cbn [fst]. rewrite fmap_cons, IH. reflexivity.
Qed.

End ProjectionLayout.

(** X2: the table has one row per month from the start month to
    [months_ahead] months later, in calendar order; the summary names the
    month of the last row, and the ending stock of that row is the final
    ending stock of the summary rounded to one decimal. *)
Theorem dw309_table_layout (monthly_data : MonthlyData) (item : string)
    (current safety max_ order : Qc) (start : dw309.YearMonth) (months_ahead : nat) :
  let result :=
    dw309.build_dw309_forecast monthly_data item current safety max_ order start
      months_ahead in
  dw309.row_month <$> fst result
  = (fun offset => dw309.strftime (dw309.add_months start offset))
    <$> seq 0 (S months_ahead)
  /\ length (fst result) = S months_ahead
  /\ exists row,
       fst result !! months_ahead = Some row
       /\ dw309.row_month row = dw309.final_month (snd result)
       /\ dw309.row_month_end row = Py.round1 (dw309.final_month_end (snd result)).
Proof.
  cbv zeta.
  assert (Hmonths :
    dw309.row_month
      <$> fst (dw309.build_dw309_forecast monthly_data item current safety max_ order
                 start months_ahead)
    = dw309._month_range start months_ahead).
  { rewrite forecast_rows, <- list_fmap_compose. unfold dw309.steps.
    etransitivity; [|apply (loop_months monthly_data item safety max_ order)].
    reflexivity. }
  split.
  { rewrite Hmonths. unfold dw309._month_range. rewrite Nat.add_1_r. reflexivity. }
  destruct (lookup_lt_is_Some_2
              (fst (dw309.steps monthly_data item current safety max_ order start
                      months_ahead)) months_ahead) as [s Hs].
  { rewrite trace_length. lia. }
  split; [rewrite forecast_rows, length_fmap; apply trace_length|].
  exists (dw309.to_row s).
  split; [rewrite forecast_rows, list_lookup_fmap, Hs; reflexivity|]. split.
  - rewrite forecast_final_month.
    pose proof Hs as Hs'. unfold dw309.steps in Hs'.
    apply loop_step in Hs' as (Hm & _).
    unfold dw309._month_range in Hm. rewrite list_lookup_fmap in Hm.
    rewrite lookup_seq_lt in Hm by lia.
    cbn [fmap option_fmap option_map Nat.add] in Hm. injection Hm as Hm.
    cbn [dw309.to_row dw309.row_month]. rewrite <- Hm. reflexivity.
  - cbn [dw309.to_row dw309.row_month_end]. f_equal.
    rewrite forecast_final, (trace_prefix_sum _ _ _ _ _ _ _ _ _ _ Hs).
    rewrite take_ge by (rewrite trace_length; lia). reflexivity.
Qed.

(** ** Splitting the horizon of the projection *)

Section Reprojection.

Import dw309.

Lemma add_months_add (d : YearMonth) (x y : nat) :
  add_months (add_months d x) y = add_months d (x + y).
Proof.
  unfold add_months. cbn [ym_year ym_month].
  set (t := (ym_month d - 1 + x)%nat).
  replace (t mod 12 + 1 - 1 + y)%nat with (t mod 12 + y)%nat by lia.
  replace (ym_month d - 1 + (x + y))%nat with (t + y)%nat by (unfold t; lia).
  pose proof (Nat.div_mod_eq t 12) as Ht.
  assert (Hdiv : ((t + y) / 12 = t / 12 + (t mod 12 + y) / 12)%nat).
  { replace (t + y)%nat with (t / 12 * 12 + (t mod 12 + y))%nat by lia.
    rewrite Nat.div_add_l by lia. reflexivity. }
  assert (Hmod : ((t + y) mod 12 = (t mod 12 + y) mod 12)%nat).
  { replace (t + y)%nat with (t mod 12 + y + t / 12 * 12)%nat by lia.
    rewrite Nat.Div0.mod_add. reflexivity. }
  rewrite Hdiv, Hmod. f_equal. lia.
Qed.

Lemma month_range_split (start : YearMonth) (a b : nat) :
  _month_range start (a + S b)
  = _month_range start a ++ _month_range (add_months start (S a)) b.
Proof.
  unfold _month_range.
  replace (a + S b + 1)%nat with ((a + 1) + (b + 1))%nat by lia.
  rewrite seq_app, fmap_app. f_equal.
  replace (seq (0 + (a + 1)) (b + 1)) with (Nat.add (a + 1) <$> seq 0 (b + 1))
    by (rewrite fmap_add_seq; f_equal; lia).
  rewrite <- list_fmap_compose.
  apply list_fmap_ext. intros _ k _. cbn [compose].
  rewrite add_months_add. do 2 f_equal. lia.
Qed.

Variable monthly_data : MonthlyData.
Variable item : string.
Variables avg safety max_ : Qc.

Lemma loop_app (order : Qc) (n : nat) (months1 months2 : list string) (index : nat)
    (start0 : Qc) :
  loop monthly_data item avg safety max_ order n index (months1 ++ months2) start0
  = (fst (loop monthly_data item avg safety max_ order n index months1 start0)
     ++ fst (loop monthly_data item avg safety max_ order n (index + length months1) months2
               (snd (loop monthly_data item avg safety max_ order n index months1 start0))),
     snd (loop monthly_data item avg safety max_ order n (index + length months1) months2
            (snd (loop monthly_data item avg safety max_ order n index months1 start0)))).
Proof.
  revert index start0. induction months1 as [|m rest IH]; intros index start0.
  - cbn [app length loop fst snd]. rewrite Nat.add_0_r.
    destruct (loop _ _ _ _ _ _ _ _ months2 _). reflexivity.
  - rewrite <- app_comm_cons, !loop_unfold. cbv zeta. cbn [fst snd length].
    rewrite IH. cbn [fst snd].
    replace (S index + length rest)%nat with (index + S (length rest))%nat by lia.
    reflexivity.
Qed.

(** Two runs of the loop agree when they add the same to the incoming
    figure at every position. *)
Lemma loop_ext (q q' : Qc) (n n' : nat) (months : list string) (index index' : nat)
    (start0 : Qc) :
  (forall j month, (j < length months)%nat ->
     incoming_at monthly_data item avg q n (index + j) month
     = incoming_at monthly_data item avg q' n' (index' + j) month) ->
  loop monthly_data item avg safety max_ q n index months start0
  = loop monthly_data item avg safety max_ q' n' index' months start0.
Proof.
  revert index index' start0.
  induction months as [|m rest IH]; intros index index' start0 H; [reflexivity|].
  rewrite !loop_unfold. cbv zeta.
  pose proof (H 0%nat m ltac:(cbn; lia)) as H0. rewrite !Nat.add_0_r in H0.
  rewrite H0.
  rewrite (IH (S index) (S index')); [reflexivity|].
  intros j month Hj. specialize (H (S j) month ltac:(cbn; lia)).
  replace (S index + j)%nat with (index + S j)%nat by lia.
  replace (S index' + j)%nat with (index' + S j)%nat by lia. exact H.
Qed.

End Reprojection.

(** X3: a projection over [a + 1 + b] months ahead is the projection over
    the first [a] months ahead without an order, followed by the
    projection that starts one month later from the stock reached there,
    over [b] months ahead with the order. *)
Theorem dw309_reprojection (monthly_data : MonthlyData) (item : string)
    (current safety max_ order : Qc) (start : dw309.YearMonth) (a b : nat) :
  let first := dw309.steps monthly_data item current safety max_ 0 start a in
  let second :=
    dw309.steps monthly_data item (snd first) safety max_ order
      (dw309.add_months start (S a)) b in
  dw309.steps monthly_data item current safety max_ order start (a + S b)
  = (fst first ++ fst second, snd second).
Proof.
  cbv zeta. unfold dw309.steps.
  rewrite month_range_split, loop_app.
  rewrite length_app, !month_range_length.
  set (avg := dw309.calculate_usage_average monthly_data item).
  assert (H1 :
    dw309.loop monthly_data item avg safety max_ order (S a + S b) 0
      (dw309._month_range start a) current
    = dw309.loop monthly_data item avg safety max_ 0 (S a) 0
        (dw309._month_range start a) current).
  { apply loop_ext. intros j month Hj. rewrite month_range_length in Hj.
    unfold incoming_at, is_last. cbn [Nat.add].
    rewrite (bool_decide_eq_false_2 (Z.of_nat j = Z.of_nat (S a + S b) - 1)%Z) by lia.
    case_bool_decide; [ring|reflexivity]. }
  rewrite H1.
  assert (H2 : forall start0,
    dw309.loop monthly_data item avg safety max_ order (S a + S b) (0 + S a)
      (dw309._month_range (dw309.add_months start (S a)) b) start0
    = dw309.loop monthly_data item avg safety max_ order (S b) 0
        (dw309._month_range (dw309.add_months start (S a)) b) start0).
  { intros start0. apply loop_ext. intros j month Hj.
    unfold incoming_at, is_last. cbn [Nat.add].
    rewrite (bool_decide_ext (Z.of_nat (S (a + j)) = Z.of_nat (S a + S b) - 1)%Z
               (Z.of_nat j = Z.of_nat (S b) - 1)%Z) by lia.
    reflexivity. }
  rewrite H2. reflexivity.
Qed.

(** ** The risk level and the row colours of the long-lead item *)

(** X4: when, in the table computed without an order, some month before
    the final one ends below the safety stock, the page reports a
    shortage for every order quantity: an order arrives in the final
    month and cannot lift an earlier month. *)
Theorem dw309_early_shortage_stays (monthly_data : MonthlyData) (item : string)
    (current safety max_ : Qc) (start : dw309.YearMonth) (months_ahead i : nat)
    (row : dw309.Row) :
  (i < months_ahead)%nat ->
  fst (dw309.build_dw309_forecast monthly_data item current safety max_ 0 start
         months_ahead) !! i = Some row ->
  dw309.row_month_end row < safety ->
  forall order,
    app.dw309_risk
      (fst (dw309.build_dw309_forecast monthly_data item current safety max_ order start
              months_ahead))
      (dw309.final_month_end
         (snd (dw309.build_dw309_forecast monthly_data item current safety max_ order
                 start months_ahead)))
      safety max_
    = order_planning.SHORTAGE.
Proof.
  intros Hi Hrow Hlow order.
  assert (Hrow' :
    fst (dw309.build_dw309_forecast monthly_data item current safety max_ order start
           months_ahead) !! i = Some row).
  { rewrite <- (lookup_take_lt _ months_ahead i) by exact Hi.
    rewrite forecast_rows, <- fmap_take, earlier_steps_unchanged, fmap_take,
      <- forecast_rows.
    rewrite lookup_take_lt by exact Hi. exact Hrow. }
  unfold app.dw309_risk.
  assert (Hex : existsb (fun r => bool_decide (dw309.row_month_end r < safety))
                  (fst (dw309.build_dw309_forecast monthly_data item current safety max_
                          order start months_ahead)) = true).
  { apply existsb_exists. exists row. split.
    - apply list_elem_of_In, list_elem_of_lookup. exists i. exact Hrow'.
    - apply bool_decide_eq_true_2, Hlow. }
  rewrite Hex. reflexivity.
Qed.

Lemma dw309_early_shortage_stays_witness :
  app.dw309_risk
    (fst (dw309.build_dw309_forecast sample_data DW309 (num 110) (num 100) (num 500)
            (num 1000) dw309.DEFAULT_START 6))
    (dw309.final_month_end
       (snd (dw309.build_dw309_forecast sample_data DW309 (num 110) (num 100) (num 500)
               (num 1000) dw309.DEFAULT_START 6)))
    (num 100) (num 500)
  = order_planning.SHORTAGE.
Proof.
  destruct (fst (dw309.build_dw309_forecast sample_data DW309 (num 110) (num 100)
                   (num 500) 0 dw309.DEFAULT_START 6) !! 1%nat) as [row|] eqn:E.
  - apply (dw309_early_shortage_stays sample_data DW309 (num 110) (num 100) (num 500)
             dw309.DEFAULT_START 6 1 row); [lia|exact E|].
    vm_compute in E. injection E as <-. reflexivity.
  - vm_compute in E. discriminate E.
Defined.

(** X5: for a month of the projection whose ending stock is a whole
    number, with a safety stock that is not negative, the colour of the
    row agrees with its status: red for a stockout or a critical month,
    orange for an excess, white for a normal month. *)
Theorem dw309_row_color_matches_status (monthly_data : MonthlyData) (item : string)
    (current safety max_ order : Qc) (start : dw309.YearMonth) (months_ahead i : nat)
    (s : dw309.Step) (z : Z) :
  fst (dw309.steps monthly_data item current safety max_ order start months_ahead) !! i
    = Some s ->
  dw309.st_month_end s = num z ->
  0 <= safety ->
  let row := dw309.to_row s in
  (dw309.row_color row safety max_ = dw309.COLOR_RED
   <-> dw309.row_status row = dw309.STOCKOUT \/ dw309.row_status row = dw309.CRITICAL)
  /\ (dw309.row_color row safety max_ = dw309.COLOR_ORANGE
      <-> dw309.row_status row = dw309.EXCESS)
  /\ (dw309.row_color row safety max_ = dw309.COLOR_WHITE
      <-> dw309.row_status row = dw309.NORMAL).
Proof.
  intros Hs Hz Hsafe. cbv zeta. unfold dw309.steps in Hs.
  apply loop_step in Hs as (_ & _ & _ & _ & _ & Hst).
  unfold dw309.row_color. cbn [dw309.to_row dw309.row_month_end dw309.row_status].
  rewrite Hst, Hz, round1_integer. unfold dw309.status_of.
  destruct (bool_decide (num z < 0)) eqn:Hneg.
  - apply bool_decide_eq_true_1 in Hneg.
    rewrite (lt_true (num z) safety) by (eapply Qclt_le_trans; eassumption).
    repeat split; intros H;
      first [reflexivity | left; reflexivity | discriminate H
            | destruct H as [H|H]; discriminate H].
  - destruct (bool_decide (num z < safety)), (bool_decide (max_ < num z));
      repeat split; intros H;
      first [reflexivity | right; reflexivity | discriminate H
            | destruct H as [H|H]; discriminate H].
Qed.

Lemma dw309_row_color_matches_status_witness :
  exists s, sample_steps 50 200 !! 6%nat = Some s
    /\ (dw309.row_color (dw309.to_row s) (num 100) (num 500) = dw309.COLOR_WHITE
        <-> dw309.row_status (dw309.to_row s) = dw309.NORMAL).
Proof.
  destruct (sample_steps 50 200 !! 6%nat) as [s|] eqn:E.
  - exists s. split; [reflexivity|].
    apply (dw309_row_color_matches_status sample_data DW309 (num 200) (num 100) (num 500)
             (num 50) dw309.DEFAULT_START 6 6 s 160 E).
    + vm_compute in E. injection E as <-. apply Qc_is_canon. reflexivity.
    + vm_compute. discriminate.
  - vm_compute in E. discriminate E.
Defined.

(** ** The averages of the order planning *)

Section PlanningAverages.

Import order_planning.

Variable monthly_data : MonthlyData.
Variable item : string.

Lemma get0_field (month key : string) :
  get0 monthly_data month item key = Some (default 0 (field_of monthly_data month item key)).
Proof. unfold get0. rewrite get_default, payload_of_lookup. reflexivity. Qed.

Lemma not_none_get0 (key : string) (months : list string) :
  not_none ((fun month => get0 monthly_data month item key) <$> months)
  = (fun month => default 0 (field_of monthly_data month item key)) <$> months.
Proof.
  unfold not_none. induction months as [|m rest IH]; [reflexivity|].
  rewrite !fmap_cons. cbn [omap list_omap]. rewrite get0_field. cbn [id].
  f_equal. exact IH.
Qed.

Lemma sum_defaults (f : string -> option Qc) (months : list string) :
  Py.sum ((fun month => default 0 (f month)) <$> months) = Py.sum (omap f months).
Proof.
  induction months as [|m rest IH]; [reflexivity|].
  rewrite fmap_cons, sum_cons. cbn [omap list_omap] in *.
  destruct (f m) as [v|]; cbn [default].
  - rewrite sum_cons, IH. reflexivity.
  - rewrite IH. ring.
Qed.

Lemma omap_length_le (f : string -> option Qc) (months : list string) :
  (length (omap f months) <= length months)%nat.
Proof.
  induction months as [|m rest IH]; cbn [omap list_omap length] in *; [lia|].
  destruct (f m); cbn [length]; lia.
Qed.

Lemma omap_full (f : string -> option Qc) (months : list string) :
  length (omap f months) = length months ->
  (fun month => default 0 (f month)) <$> months = omap f months.
Proof.
  induction months as [|m rest IH]; [reflexivity|].
  rewrite fmap_cons.
  pose proof (omap_length_le f rest) as Hle. cbn [omap list_omap] in *.
  destruct (f m) as [v|]; cbn [default length]; intros H.
  - f_equal. apply IH. lia.
  - exfalso. lia.
Qed.

Lemma len_nonzero (xs : list Qc) : xs <> [] -> Py.len xs <> 0.
Proof.
  intros Hne. unfold Py.len. rewrite <- Z2Qc_inj_0. intros H. apply Z2Qc_inj in H.
  destruct xs; [apply Hne; reflexivity|discriminate H].
Qed.

End PlanningAverages.

Example planning_usage_average_sample :
  this (order_planning.calculate_usage_average history_only_data DW309
          ["2025-09"; "2025-10"; "2025-11"]%string) = (30 # 1)%Q
  /\ this (order_planning.calculate_normal_order_average two_month_data DW309) = (20 # 3)%Q.
Proof. split; vm_compute; reflexivity. Qed.

(** ** The averages of the order planning on figures that may be null *)

Section NullableAverages.

Import order_planning_nullable.

Variable monthly_data : NullableData.
Variable item : string.

Lemma nullable_get0 (month key : string) :
  get0 monthly_data month item key = figure_or_zero monthly_data month item key.
Proof.
  unfold get0, figure_or_zero, stored, Py.get.
  destruct (monthly_data !! month) as [payload|]; cbn [default].
  - destruct (payload !! item) as [fields|]; cbn [default].
    + destruct (fields !! key); reflexivity.
    + rewrite lookup_empty. reflexivity.
  - rewrite !lookup_empty. reflexivity.
Qed.

Lemma nullable_values (key : string) (months : list string) :
  (fun month => get0 monthly_data month item key) <$> months
  = (fun month => figure_or_zero monthly_data month item key) <$> months.
Proof.
  induction months as [|m rest IH]; [reflexivity|].
  rewrite !fmap_cons, nullable_get0, IH. reflexivity.
Qed.

Lemma nullable_usage_average (months : list string) :
  calculate_usage_average monthly_data item months
  = mean (omap id ((fun month => figure_or_zero monthly_data month item K_OUTGOING)
                     <$> months)).
Proof.
  unfold calculate_usage_average, order_planning.not_none, mean.
  rewrite nullable_values. reflexivity.
Qed.

Lemma nullable_order_average :
  calculate_normal_order_average monthly_data item
  = mean (omap id (nullable_order_figures monthly_data item)).
Proof.
  unfold calculate_normal_order_average, order_planning.not_none, mean,
    nullable_order_figures.
  cbn [fmap list_fmap app]. rewrite !nullable_get0. reflexivity.
Qed.

End NullableAverages.

Section NoNull.

Variable monthly_data : MonthlyData.
Variable item : string.

Lemma without_null_stored (month key : string) :
  stored (without_null monthly_data) month item key
  = Some <$> field_of monthly_data month item key.
Proof.
  unfold stored, without_null, field_of. rewrite lookup_fmap.
  destruct (monthly_data !! month) as [payload|]; cbn [fmap option_fmap option_map];
    [|reflexivity].
  rewrite lookup_fmap.
  destruct (payload !! item) as [fields|]; cbn [fmap option_fmap option_map];
    [|reflexivity].
  rewrite lookup_fmap. reflexivity.
Qed.

Lemma without_null_figure (month key : string) :
  figure_or_zero (without_null monthly_data) month item key
  = order_planning.get0 monthly_data month item key.
Proof.
  unfold figure_or_zero. rewrite without_null_stored, get0_field.
  destruct (field_of monthly_data month item key); reflexivity.
Qed.

Lemma without_null_usage_average (months : list string) :
  order_planning_nullable.calculate_usage_average (without_null monthly_data) item months
  = order_planning.calculate_usage_average monthly_data item months.
Proof.
  rewrite nullable_usage_average. unfold order_planning.calculate_usage_average, mean.
  replace ((fun month => figure_or_zero (without_null monthly_data) month item K_OUTGOING)
             <$> months)
    with ((fun month => order_planning.get0 monthly_data month item K_OUTGOING) <$> months);
    [reflexivity|].
  apply list_fmap_ext. intros _ month _. symmetry. apply without_null_figure.
Qed.

Lemma without_null_order_average :
  order_planning_nullable.calculate_normal_order_average (without_null monthly_data) item
  = order_planning.calculate_normal_order_average monthly_data item.
Proof.
  rewrite nullable_order_average.
  unfold order_planning.calculate_normal_order_average, mean, nullable_order_figures.
  rewrite !without_null_figure. reflexivity.
Qed.

End NoNull.

Lemma omap_id_full (figures : list (option Qc)) :
  Forall is_Some figures -> omap id figures = default 0 <$> figures.
Proof.
  induction 1 as [|f rest [v ->] _ IH]; [reflexivity|].
  cbn [omap list_omap id]. rewrite fmap_cons, IH. reflexivity.
Qed.

Lemma omap_id_none (figures : list (option Qc)) :
  Forall (fun figure => figure = None) figures -> omap id figures = [].
Proof.
  induction 1 as [|f rest -> _ IH]; [reflexivity|].
  cbn [omap list_omap id]. exact IH.
Qed.

Lemma omap_id_length (figures : list (option Qc)) :
  (length (omap id figures) + length (filter (fun figure => figure = None) figures)
   = length figures)%nat.
Proof.
  induction figures as [|[v|] rest IH]; [reflexivity| |].
  - cbn [omap list_omap id]. rewrite filter_cons_False by discriminate.
    cbn [length]. lia.
  - cbn [omap list_omap id]. rewrite filter_cons_True by reflexivity.
    cbn [length]. lia.
Qed.

Lemma mean_cons (x : Qc) (xs : list Qc) :
  mean (x :: xs) = Py.sum (x :: xs) / Py.len (x :: xs).
Proof. reflexivity. Qed.

Lemma mean_nonempty (xs : list Qc) : xs <> [] -> mean xs = Py.sum xs / Py.len xs.
Proof. destruct xs; [congruence|reflexivity]. Qed.

Section SkippedNulls.

Import order_planning_nullable.

Variable monthly_data : NullableData.
Variable item : string.

(** X6: the usage average of the order planning is the mean of the
    outgoing figures of the given months that are not null: a month
    without the figure enters as 0, a null figure is left out of the sum
    and of the count, and the average is 0 when nothing is left.  On
    records without a null it is the sum of the existing outgoing figures
    divided by the number of months, and when the three months
    2025-10..2025-12 all have an outgoing figure and no usage forecast
    exists for 2026-01..2026-03 it is the usage average of the long-lead
    projection. *)
Theorem planning_usage_average_skips_nulls (months : list string) :
  let figures :=
    (fun month => figure_or_zero monthly_data month item K_OUTGOING) <$> months in
  let kept := omap id figures in
  let average := calculate_usage_average monthly_data item months in
  average = mean kept
  /\ (length kept + length (filter (fun figure => figure = None) figures)
      = length months)%nat
  /\ (kept <> [] -> average = Py.sum kept / num (Z.of_nat (length kept)))
  /\ (Forall (fun figure => figure = None) figures -> average = 0)
  /\ forall numeric : MonthlyData,
       monthly_data = without_null numeric ->
       average = order_planning.calculate_usage_average numeric item months
       /\ (months <> [] ->
           average
           = Py.sum (window_values numeric item K_OUTGOING months)
             / num (Z.of_nat (length months)))
       /\ (months = dw309.HISTORY_WINDOW ->
           window_values numeric item K_USAGE_FORECAST dw309.FORECAST_WINDOW = [] ->
           length (window_values numeric item K_OUTGOING dw309.HISTORY_WINDOW) = 3%nat ->
           dw309.calculate_usage_average numeric item = average).
Proof.
  cbv zeta. split; [apply nullable_usage_average|].
  split; [rewrite omap_id_length, length_fmap; reflexivity|].
  split; [intros Hkept; rewrite nullable_usage_average; apply mean_nonempty, Hkept|].
  split; [intros Hnone; rewrite nullable_usage_average, (omap_id_none _ Hnone);
          reflexivity|].
  intros numeric ->.
  rewrite without_null_usage_average.
  split; [reflexivity|]. split.
  - intros Hmonths. unfold order_planning.calculate_usage_average, window_values.
    rewrite not_none_get0.
    rewrite <- (sum_defaults (fun month => field_of numeric month item K_OUTGOING)).
    set (values := (fun month => default 0 (field_of numeric month item K_OUTGOING))
                     <$> months).
    change (mean values = Py.sum values / num (Z.of_nat (length months))).
    rewrite mean_nonempty.
    + unfold Py.len, values. rewrite length_fmap. reflexivity.
    + unfold values. destruct months; [congruence|discriminate].
  - intros -> Hf Hh.
    unfold order_planning.calculate_usage_average, dw309.calculate_usage_average.
    rewrite !collect_window, not_none_get0. cbn [app]. rewrite Hf. cbn [app].
    unfold window_values in *.
    rewrite (omap_full (fun month => field_of numeric month item K_OUTGOING)
               dw309.HISTORY_WINDOW Hh).
    reflexivity.
Qed.

(** X7: the normal-order average is the mean of those of its six figures
    (the incoming quantities of 2025-09..2025-12, the quantity in transit
    of 2026-01, the arranged quantity of 2026-02) that are not null: an
    absent figure enters as 0, a null figure is left out of the sum and of
    the count, and the average is 0 when all six are null.  When no figure
    is null, and so on records without a null, it is the sum of the six
    divided by 6. *)
Theorem normal_order_average_skips_nulls :
  let figures := nullable_order_figures monthly_data item in
  let kept := omap id figures in
  let average := calculate_normal_order_average monthly_data item in
  average = mean kept
  /\ (length kept + length (filter (fun figure => figure = None) figures) = 6)%nat
  /\ (kept <> [] -> average = Py.sum kept / num (Z.of_nat (length kept)))
  /\ (Forall is_Some figures -> average = Py.sum (default 0 <$> figures) / num 6)
  /\ (Forall (fun figure => figure = None) figures -> average = 0)
  /\ forall numeric : MonthlyData,
       monthly_data = without_null numeric ->
       average = order_planning.calculate_normal_order_average numeric item
       /\ average = Py.sum (default 0 <$> normal_order_figures numeric item) / num 6.
Proof.
  cbv zeta. split; [apply nullable_order_average|].
  split; [rewrite omap_id_length; reflexivity|].
  split; [intros Hkept; rewrite nullable_order_average; apply mean_nonempty, Hkept|].
  split.
  { intros Hsome. rewrite nullable_order_average, (omap_id_full _ Hsome).
    unfold nullable_order_figures. reflexivity. }
  split; [intros Hnone; rewrite nullable_order_average, (omap_id_none _ Hnone);
          reflexivity|].
  intros numeric ->. rewrite without_null_order_average.
  split; [reflexivity|].
  unfold order_planning.calculate_normal_order_average, normal_order_figures,
    order_planning.not_none.
  cbn [fmap list_fmap app omap list_omap]. rewrite !get0_field. cbn [id].
  reflexivity.
Qed.

End SkippedNulls.

Lemma planning_usage_average_skips_nulls_witness :
  dw309.calculate_usage_average history_only_data DW309
  = order_planning_nullable.calculate_usage_average (without_null history_only_data)
      DW309 dw309.HISTORY_WINDOW.
Proof.
  apply (proj2 (proj2 (proj2 (proj2
           (planning_usage_average_skips_nulls (without_null history_only_data) DW309
              dw309.HISTORY_WINDOW)))) history_only_data eq_refl).
  - reflexivity.
  - reflexivity.
  - reflexivity.
Defined.

Lemma null_data_kept :
  omap id (nullable_order_figures null_data DW309)
  = [num 12; num 12; num 12; num 12; num 12].
Proof. reflexivity. Qed.

Lemma normal_order_average_skips_nulls_witness :
  order_planning_nullable.calculate_normal_order_average null_data DW309
  = Py.sum (omap id (nullable_order_figures null_data DW309)) / num 5.
Proof.
  apply (proj1 (proj2 (proj2
           (normal_order_average_skips_nulls null_data DW309)))).
  rewrite null_data_kept. discriminate.
Defined.

Example null_figures_change_the_divisor :
  order_planning_nullable.calculate_normal_order_average null_data DW309 = num 12
  /\ order_planning_nullable.calculate_normal_order_average absent_data DW309 = num 10
  /\ order_planning_nullable.calculate_usage_average null_usage_data DW309
       dw309.HISTORY_WINDOW = num 60
  /\ order_planning_nullable.calculate_usage_average
       (delete "2025-11"%string null_usage_data) DW309 dw309.HISTORY_WINDOW = num 40.
Proof.
  split; [apply Qc_is_canon; reflexivity|].
  split; [apply Qc_is_canon; reflexivity|].
  split; [apply Qc_is_canon; reflexivity|].
  apply Qc_is_canon; reflexivity.
Qed.

(** ** The order DataFrame and the discussion list together *)

Section OrdersAndDiscussion.

Import order_planning app.

Variable monthly_data : MonthlyData.
Variable name_map : gmap string string.
Variable factor : Qc.

Lemma zero_order_flagged (r : RiskRow) :
  o_order_qty (r_row r) = 0 -> flagged monthly_data factor r = true.
Proof.
  intros Hzero. apply flagged_true. unfold reasons_of.
  rewrite no_reasons_iff. intros (_ & _ & H3 & _).
  unfold check3 in H3. rewrite (bool_decide_eq_true_2 _ Hzero) in H3. discriminate H3.
Qed.

Lemma discussion_rows_all_flagged (source_df : list RiskRow) :
  Forall (fun r => flagged monthly_data factor r = true) source_df ->
  build_discussion_rows monthly_data name_map source_df factor
  = (fun r => entry_of name_map r (fst (reasons_of monthly_data factor r))
                (snd (reasons_of monthly_data factor r))) <$> source_df.
Proof.
  induction 1 as [|r rest Hr _ IH]; [reflexivity|].
  rewrite build_discussion_rows_cons, Hr, IH, fmap_cons. reflexivity.
Qed.

(** X8: when every item of the order DataFrame has an order quantity of
    0 (entered as 0 or not entered at all), every item is put on the
    discussion list, in the order of the master items, each with a
    priority between 1 and 3. *)
Theorem zero_orders_flag_every_item (master_items : list Item)
    (next_month_forecast orders : gmap string Qc) :
  Forall (fun it => Py.get orders (item_id it) 0 = 0) master_items ->
  let discussion :=
    build_discussion_rows monthly_data name_map
      (with_risk (build_order_dataframe master_items monthly_data next_month_forecast
                    orders)) factor in
  d_item_id <$> discussion = item_id <$> master_items
  /\ Forall (fun e => d_order_qty e = 0 /\ (1 <= d_priority e <= 3)%Z) discussion.
Proof.
  intros Hzero. cbv zeta.
  set (source := with_risk (build_order_dataframe master_items monthly_data
                              next_month_forecast orders)).
  assert (Hrows : Forall (fun r => o_order_qty (r_row r) = 0) source).
  { unfold source, with_risk, build_order_dataframe.
    rewrite <- list_fmap_compose. apply Forall_fmap.
    eapply List.Forall_impl; [|exact Hzero]. intros it Hit. exact Hit. }
  assert (Hflag : Forall (fun r => flagged monthly_data factor r = true) source).
  { eapply List.Forall_impl; [|exact Hrows]. intros r. apply zero_order_flagged. }
  rewrite (discussion_rows_all_flagged _ Hflag). split.
  - rewrite <- list_fmap_compose. unfold source, with_risk, build_order_dataframe.
    rewrite <- !list_fmap_compose. reflexivity.
  - apply Forall_fmap. apply Forall_forall. intros r Hr.
    cbn [compose entry_of d_order_qty d_priority]. split.
    + rewrite Forall_forall in Hrows. apply Hrows, Hr.
    + unfold reasons_of. apply priority_range.
      rewrite Forall_forall in Hflag. apply flagged_true, Hflag, Hr.
Qed.

(** X9: with the risk column computed by [risk_level], the priority of a
    row is 1 exactly when its risk is a shortage and 2 exactly when its
    risk is an excess; a row of normal risk has priority 3 or 4. *)
Theorem risk_column_matches_priority (rows : list OrderRow) (r : RiskRow) :
  r ∈ with_risk rows ->
  (fst (reasons_of monthly_data factor r) = 1%Z <-> r_risk r = SHORTAGE)
  /\ (fst (reasons_of monthly_data factor r) = 2%Z <-> r_risk r = EXCESS)
  /\ (fst (reasons_of monthly_data factor r) = 3%Z
      \/ fst (reasons_of monthly_data factor r) = 4%Z <-> r_risk r = NORMAL).
Proof.
  intros Hr. unfold with_risk in Hr.
  apply list_elem_of_fmap in Hr as (row & -> & _).
  unfold reasons_of. cbn [r_row r_risk].
  rewrite discussion_reasons_priority. unfold triggered_priorities, risk_level.
  fold (check1 row). fold (check2 row).
  destruct (check1 row), (check2 row),
    (check3 row (calculate_normal_order_average monthly_data (o_item row))),
    (check4 row (o_next_month_end row) factor);
    cbn [app foldr]; repeat split; intros H;
    first [reflexivity | discriminate H | left; reflexivity | right; reflexivity
          | destruct H as [H|H]; discriminate H].
Qed.

(** X10: a larger order quantity raises the projected stock two months
    ahead by the difference; it never turns a row that is no shortage
    into a shortage, and never removes an excess. *)
Theorem larger_order_never_adds_shortage (next_month_forecast orders orders' :
    gmap string Qc) (it : Item) :
  Py.get orders (item_id it) 0 <= Py.get orders' (item_id it) 0 ->
  let row := build_order_row monthly_data next_month_forecast orders it in
  let row' := build_order_row monthly_data next_month_forecast orders' it in
  let risk r := risk_level (o_next_next_end r) (o_safety_stock r) (o_max_stock r) in
  o_next_next_end row'
  = o_next_next_end row + (o_order_qty row' - o_order_qty row)
  /\ (risk row <> SHORTAGE -> risk row' <> SHORTAGE)
  /\ (risk row = EXCESS -> risk row' = EXCESS).
Proof.
  intros Hle. cbv zeta. unfold build_order_row, calculate_future_inventory.
  cbn [o_next_next_end o_order_qty o_safety_stock o_max_stock].
  set (nme := Py.get next_month_forecast (item_id it) 0).
  set (nnu := Py.get _ K_USAGE_FORECAST 0).
  set (q := Py.get orders (item_id it) 0) in *.
  set (q' := Py.get orders' (item_id it) 0) in *.
  assert (He : nme + q - nnu <= nme + q' - nnu).
  { replace (nme + q - nnu) with (q + (nme - nnu)) by ring.
    replace (nme + q' - nnu) with (q' + (nme - nnu)) by ring.
    apply Qcplus_le_mono_r, Hle. }
  split; [ring|]. unfold risk_level. split.
  - destruct (bool_decide (nme + q - nnu < safety_stock it)) eqn:B;
      [intros H; exfalso; apply H; reflexivity|].
    apply bool_decide_eq_false_1 in B. intros _.
    rewrite (lt_false (nme + q' - nnu) (safety_stock it)).
    + destruct (bool_decide (max_stock it < nme + q' - nnu)); discriminate.
    + eapply Qcle_trans; [|exact He]. apply Qcnot_lt_le, B.
  - destruct (bool_decide (nme + q - nnu < safety_stock it)) eqn:B; [discriminate|].
    destruct (bool_decide (max_stock it < nme + q - nnu)) eqn:M; [|discriminate].
    apply bool_decide_eq_false_1 in B. apply bool_decide_eq_true_1 in M. intros _.
    rewrite (lt_false (nme + q' - nnu) (safety_stock it)),
      (lt_true (max_stock it) (nme + q' - nnu)); [reflexivity| |].
    + eapply Qclt_le_trans; eassumption.
    + eapply Qcle_trans; [|exact He]. apply Qcnot_lt_le, B.
Qed.

End OrdersAndDiscussion.

Lemma zero_orders_flag_every_item_witness :
  app.d_item_id
    <$> app.build_discussion_rows two_month_data ∅
          (app.with_risk (order_planning.build_order_dataframe [sample_item] two_month_data
                            ∅ ∅)) FACTOR
  = [DW309].
Proof.
  apply (zero_orders_flag_every_item two_month_data ∅ FACTOR [sample_item] ∅ ∅).
  repeat constructor.
Defined.

Lemma risk_column_matches_priority_witness :
  exists r, sample_source !! 2%nat = Some r
    /\ (fst (reasons_of ∅ FACTOR r) = 1%Z <-> app.r_risk r = order_planning.SHORTAGE).
Proof.
  destruct (sample_source !! 2%nat) as [r|] eqn:E.
  - exists r. split; [reflexivity|].
    apply (risk_column_matches_priority ∅ FACTOR [row_zero_order; row_quiet; row_short] r).
    apply list_elem_of_lookup. exists 2%nat. exact E.
  - vm_compute in E. discriminate E.
Defined.

Lemma larger_order_never_adds_shortage_witness :
  order_planning.o_next_next_end
    (order_planning.build_order_row two_month_data ∅ {[ DW309 := num 40 ]} sample_item)
  = order_planning.o_next_next_end
      (order_planning.build_order_row two_month_data ∅ ∅ sample_item)
    + (order_planning.o_order_qty
         (order_planning.build_order_row two_month_data ∅ {[ DW309 := num 40 ]} sample_item)
       - order_planning.o_order_qty
           (order_planning.build_order_row two_month_data ∅ ∅ sample_item)).
Proof.
  apply (larger_order_never_adds_shortage two_month_data ∅ ∅ {[ DW309 := num 40 ]}
           sample_item).
  vm_compute. discriminate.
Defined.

(** ** The two-month forecast and what is built on it *)

Section InventoryForecast.

Import order_planning forecast.

Lemma for_each_inv {A B : Type} (body : A -> Py.result B) (xs : list A) (ys : list B) :
  Py.for_each body xs = Py.Ok ys -> Forall2 (fun x y => body x = Py.Ok y) xs ys.
Proof.
  revert ys. induction xs as [|x xs IH]; intros ys; cbn [Py.for_each].
  - intros [= <-]. constructor.
  - destruct (body x) as [y|key] eqn:Hy; cbn [Py.bind]; [|discriminate].
    destruct (Py.for_each body xs) as [ys'|key]; cbn [Py.bind]; [|discriminate].
    intros [= <-]. constructor; [exact Hy|]. apply IH. reflexivity.
Qed.

Variable monthly_data : MonthlyData.

Lemma forecast_item_row (it : Item) (figures : Qc * Qc * Qc * Qc * Qc) :
  current_and_next monthly_data (item_id it) = Some figures ->
  forecast_item monthly_data it = Py.Ok (forecast_row_of it figures).
Proof.
  unfold current_and_next, field_of, forecast_item, Py.getitem.
  destruct (monthly_data !! "2026-01"%string) as [p1|]; [|discriminate].
  cbn [Py.bind].
  destruct (p1 !! item_id it) as [f1|]; [|discriminate].
  cbn [Py.bind].
  destruct (f1 !! K_CURRENT_STOCK) as [a|]; [|discriminate].
  destruct (f1 !! K_IN_TRANSIT) as [b|]; [|discriminate].
  destruct (f1 !! K_USAGE_FORECAST) as [c|]; [|discriminate].
  destruct (monthly_data !! "2026-02"%string) as [p2|]; [|discriminate].
  cbn [Py.bind].
  destruct (p2 !! item_id it) as [f2|]; [|discriminate].
  cbn [Py.bind].
  destruct (f2 !! K_ARRANGED) as [d|]; [|discriminate].
  destruct (f2 !! K_USAGE_FORECAST) as [e|]; [|discriminate].
  intros [= <-]. reflexivity.
Qed.

Lemma forecast_item_ok_inv (it : Item) (row : ForecastRow) :
  forecast_item monthly_data it = Py.Ok row ->
  exists figures,
    current_and_next monthly_data (item_id it) = Some figures
    /\ row = forecast_row_of it figures.
Proof.
  intros Hrow.
  destruct (current_and_next monthly_data (item_id it)) as [figures|] eqn:H.
  - exists figures. split; [reflexivity|].
    rewrite (forecast_item_row it figures H) in Hrow. injection Hrow as <-. reflexivity.
  - exfalso. unfold current_and_next, field_of in H.
    unfold forecast_item, Py.getitem in Hrow.
    destruct (monthly_data !! "2026-01"%string) as [p1|]; [|discriminate Hrow].
    cbn [Py.bind] in Hrow.
    destruct (p1 !! item_id it) as [f1|]; [|discriminate Hrow].
    cbn [Py.bind] in Hrow.
    destruct (monthly_data !! "2026-02"%string) as [p2|]; [|discriminate Hrow].
    cbn [Py.bind] in Hrow.
    destruct (p2 !! item_id it) as [f2|]; [|discriminate Hrow].
    cbn [Py.bind] in Hrow.
    destruct (f1 !! K_CURRENT_STOCK) as [a'|]; [|discriminate Hrow].
    destruct (f1 !! K_IN_TRANSIT) as [b'|]; [|discriminate Hrow].
    destruct (f1 !! K_USAGE_FORECAST) as [c'|]; [|discriminate Hrow].
    destruct (f2 !! K_ARRANGED) as [d'|]; [|discriminate Hrow].
    destruct (f2 !! K_USAGE_FORECAST) as [e'|]; [|discriminate Hrow].
    discriminate H.
Qed.

(** X11: [calculate_inventory_forecast] returns a table exactly when
    every master item has its five figures (current stock, quantity in
    transit and usage forecast of 2026-01, arranged quantity and usage
    forecast of 2026-02), and fails with a [KeyError] otherwise.  The
    table then has one row per master item, in order, with
    month end = current stock + incoming - usage and
    next month end = month end + arranged - usage of the next month. *)
Theorem inventory_forecast_complete_iff (master_items : list Item) :
  ((exists rows, calculate_inventory_forecast monthly_data master_items = Py.Ok rows)
   <-> Forall (fun it => is_Some (current_and_next monthly_data (item_id it))) master_items)
  /\ ((exists key, calculate_inventory_forecast monthly_data master_items = Py.KeyError key)
      <-> Exists (fun it => current_and_next monthly_data (item_id it) = None) master_items)
  /\ (forall rows,
        calculate_inventory_forecast monthly_data master_items = Py.Ok rows ->
        Forall2 (fun it row =>
                   exists figures,
                     current_and_next monthly_data (item_id it) = Some figures
                     /\ row = forecast_row_of it figures
                     /\ f_next_month_end row = f_month_end row + f_prepared row
                                               - f_usage_next row)
                master_items rows).
Proof.
  assert (Hok : (exists rows,
                   calculate_inventory_forecast monthly_data master_items = Py.Ok rows)
                <-> Forall (fun it => is_Some (current_and_next monthly_data (item_id it)))
                      master_items).
  { split.
    - intros [rows Hrows]. apply for_each_inv in Hrows.
      induction Hrows as [|it row its rows Hrow _ IH]; constructor; [|exact IH].
      apply forecast_item_ok_inv in Hrow as (figures & Hf & _). rewrite Hf. eauto.
    - intros Hall. destruct (for_each_ok (forecast_item monthly_data) master_items)
        as (rows & Hrows & _); [|eauto].
      eapply List.Forall_impl; [|exact Hall]. intros it [figures Hf].
      rewrite (forecast_item_row it figures Hf). eauto. }
  split; [exact Hok|]. split.
  - assert (Hdec : Forall (fun it => is_Some (current_and_next monthly_data (item_id it)))
                     master_items
                   \/ Exists (fun it => current_and_next monthly_data (item_id it) = None)
                        master_items).
    { clear Hok. induction master_items as [|it its IH]; [left; constructor|].
      destruct (current_and_next monthly_data (item_id it)) as [figures|] eqn:E.
      - destruct IH as [IH|IH]; [left|right].
        + constructor; [rewrite E; eauto|exact IH].
        + apply Exists_cons_tl, IH.
      - right. apply Exists_cons_hd, E. }
    split.
    + intros [key Hkey]. destruct Hdec as [Hall|Hex]; [|exact Hex].
      apply Hok in Hall as [rows Hrows]. rewrite Hrows in Hkey. discriminate Hkey.
    + intros Hex.
      destruct (calculate_inventory_forecast monthly_data master_items) as [rows|key]
        eqn:E; [|eauto].
      exfalso.
      assert (Hall : Forall (fun it => is_Some (current_and_next monthly_data (item_id it)))
                       master_items) by (apply Hok; eauto).
      rewrite Forall_forall in Hall. apply Exists_exists in Hex as (it & Hit & Hnone).
      destruct (Hall it Hit) as [figures Hf]. rewrite Hf in Hnone. discriminate Hnone.
  - intros rows Hrows. apply for_each_inv in Hrows.
    eapply List.Forall2_impl; [|exact Hrows]. cbn beta. intros it row Hrow.
    apply forecast_item_ok_inv in Hrow as (figures & Hf & ->).
    exists figures. split; [exact Hf|]. split; [reflexivity|].
    destruct figures as [[[[a b] c] d] e]. reflexivity.
Qed.

End InventoryForecast.

Lemma inventory_forecast_complete_iff_witness :
  exists rows,
    forecast.calculate_inventory_forecast two_month_data [sample_item] = Py.Ok rows.
Proof.
  apply (proj2 (proj1 (inventory_forecast_complete_iff two_month_data [sample_item]))).
  constructor; [|constructor]. vm_compute. eauto.
Defined.

Example inventory_forecast_missing_field :
  forecast.calculate_inventory_forecast sample_data [sample_item]
  = Py.KeyError K_CURRENT_STOCK.
Proof. vm_compute. reflexivity. Qed.

Section ThreeMonths.

Import order_planning forecast app.

Lemma forecast_map_keeps (rows : list ForecastRow) (acc : gmap string Qc) (k : string) :
  is_Some (acc !! k) ->
  is_Some (fold_left (fun acc row => <[f_item row := f_next_month_end row]> acc) rows acc
             !! k).
Proof.
  revert acc. induction rows as [|r rest IH]; intros acc Hk; [exact Hk|].
  cbn [fold_left]. apply IH.
  destruct (decide (f_item r = k)) as [->|Hne].
  - rewrite lookup_insert_eq. eauto.
  - rewrite lookup_insert_ne by exact Hne. exact Hk.
Qed.

Lemma forecast_map_member (rows : list ForecastRow) (acc : gmap string Qc)
    (row : ForecastRow) :
  row ∈ rows ->
  is_Some (fold_left (fun acc row => <[f_item row := f_next_month_end row]> acc) rows acc
             !! f_item row).
Proof.
  revert acc. induction rows as [|r rest IH]; intros acc Hin.
  - apply elem_of_nil in Hin. contradiction.
  - cbn [fold_left]. apply elem_of_cons in Hin as [->|Hin].
    + apply forecast_map_keeps. rewrite lookup_insert_eq. eauto.
    + apply IH, Hin.
Qed.

Lemma forecast_map_lookup (rows : list ForecastRow) (acc : gmap string Qc)
    (k : string) (v : Qc) :
  fold_left (fun acc row => <[f_item row := f_next_month_end row]> acc) rows acc !! k
    = Some v ->
  (exists row, row ∈ rows /\ f_item row = k /\ f_next_month_end row = v)
  \/ acc !! k = Some v.
Proof.
  revert acc. induction rows as [|r rest IH]; intros acc H; [right; exact H|].
  cbn [fold_left] in H. apply IH in H as [(row & Hin & Hk & Hv)|H].
  - left. exists row. split; [apply list_elem_of_further, Hin|]. split; assumption.
  - destruct (decide (f_item r = k)) as [Heq|Hne].
    + rewrite <- Heq, lookup_insert_eq in H. injection H as H.
      left. exists r. split; [apply list_elem_of_here|]. split; assumption.
    + rewrite lookup_insert_ne in H by exact Hne. right. exact H.
Qed.

Variable monthly_data : MonthlyData.

(** X12: when the two-month forecast succeeds, the order row of a master
    item built on it projects three months in a row: its stock at the end
    of next month is current stock + in transit - usage + arranged - next
    month's usage, and its stock two months ahead adds the order and
    subtracts the usage forecast of 2026-03 (0 when absent).  This holds
    even when the master list names an item twice. *)
Theorem order_projection_three_months (master_items : list Item)
    (rows : list ForecastRow) (orders : gmap string Qc) (it : Item) :
  calculate_inventory_forecast monthly_data master_items = Py.Ok rows ->
  it ∈ master_items ->
  exists current_stock incoming usage_current prepared usage_next,
    current_and_next monthly_data (item_id it)
    = Some (current_stock, incoming, usage_current, prepared, usage_next)
    /\ let row :=
         build_order_row monthly_data (next_month_forecast_of rows) orders it in
       o_next_month_end row
       = current_stock + incoming - usage_current + prepared - usage_next
       /\ o_next_next_end row
          = current_stock + incoming - usage_current + prepared - usage_next
            + default 0 (orders !! item_id it)
            - default 0 (field_of monthly_data "2026-03" (item_id it) K_USAGE_FORECAST).
Proof.
  intros Hrows Hit. apply for_each_inv in Hrows.
  apply list_elem_of_lookup in Hit as [i Hi].
  destruct (Forall2_lookup_l _ _ _ _ _ Hrows Hi) as (row & Hrow & Hitem).
  apply forecast_item_ok_inv in Hitem as (figures & Hf & ->).
  destruct figures as [[[[a b] c] d] e]. exists a, b, c, d, e.
  split; [exact Hf|]. cbv zeta.
  assert (Hnme : Py.get (next_month_forecast_of rows) (item_id it) 0 = a + b - c + d - e).
  { assert (Hin : forecast_row_of it (a, b, c, d, e) ∈ rows)
      by (apply list_elem_of_lookup; eauto).
    destruct (forecast_map_member rows ∅ _ Hin) as [v Hv].
    cbn [forecast_row_of f_item] in Hv.
    unfold next_month_forecast_of. rewrite (get_default _ _ _), Hv. cbn [default].
    apply forecast_map_lookup in Hv as [(row' & Hin' & Hk & Hv')|Hv];
      [|rewrite lookup_empty in Hv; discriminate Hv].
    apply list_elem_of_lookup in Hin' as [j Hj].
    destruct (Forall2_lookup_r _ _ _ _ _ Hrows Hj) as (it' & _ & Hitem').
    apply forecast_item_ok_inv in Hitem' as (figures' & Hf' & ->).
    destruct figures' as [[[[a' b'] c'] d'] e'].
    cbn [forecast_row_of f_item f_next_month_end] in Hk, Hv'.
    rewrite Hk, Hf in Hf'. injection Hf' as <- <- <- <- <-. symmetry. exact Hv'. }
  unfold build_order_row, calculate_future_inventory.
  cbn [o_next_month_end o_next_next_end]. rewrite Hnme.
  rewrite !get_default, payload_of_lookup. split; reflexivity.
Qed.

End ThreeMonths.

Lemma order_projection_three_months_witness :
  exists rows,
    forecast.calculate_inventory_forecast two_month_data [sample_item] = Py.Ok rows
    /\ order_planning.o_next_month_end
         (order_planning.build_order_row two_month_data (app.next_month_forecast_of rows)
            ∅ sample_item)
       = num 200 + num 20 - num 30 + num 20 - num 30.
Proof.
  destruct (forecast.calculate_inventory_forecast two_month_data [sample_item])
    as [rows|key] eqn:E; [|vm_compute in E; discriminate E].
  exists rows. split; [reflexivity|].
  destruct (order_projection_three_months two_month_data [sample_item] rows ∅ sample_item E)
    as (a & b & c & d & e & Hf & Hnme & _).
  - apply list_elem_of_here.
  - vm_compute in Hf. injection Hf as <- <- <- <- <-. rewrite Hnme.
    apply Qc_is_canon. reflexivity.
Defined.

(** ** Rounding to one decimal *)

Section Rounding.

Lemma round_half_even_lower (y : Qc) (k : Z) :
  Qc_of_Z k <= y -> (k <= Py.round_half_even y)%Z.
Proof.
  destruct y as [[n d] Hc]. unfold Qcle, Qle, Py.round_half_even.
  cbn [this Qc_of_Z inject_Z Qnum Qden]. intros H.
  pose proof (Z.div_mod n (Z.pos d) ltac:(lia)) as Hdm.
  pose proof (Z.mod_pos_bound n (Z.pos d) ltac:(lia)) as Hr.
  assert (Hq : (k <= n / Z.pos d)%Z) by nia.
  destruct (2 * (n mod Z.pos d) <? Z.pos d)%Z; [exact Hq|].
  destruct (Z.pos d <? 2 * (n mod Z.pos d))%Z; [lia|].
  destruct (Z.even (n / Z.pos d)); lia.
Qed.

Lemma round_half_even_upper (y : Qc) (k : Z) :
  y <= Qc_of_Z k -> (Py.round_half_even y <= k)%Z.
Proof.
  destruct y as [[n d] Hc]. unfold Qcle, Qle, Py.round_half_even.
  cbn [this Qc_of_Z inject_Z Qnum Qden]. intros H.
  pose proof (Z.div_mod n (Z.pos d) ltac:(lia)) as Hdm.
  pose proof (Z.mod_pos_bound n (Z.pos d) ltac:(lia)) as Hr.
  assert (Hq : (n / Z.pos d <= k)%Z) by nia.
  destruct (2 * (n mod Z.pos d) <? Z.pos d)%Z eqn:E1; [exact Hq|].
  apply Z.ltb_ge in E1.
  assert (Hlt : (n / Z.pos d < k)%Z) by nia.
  destruct (Z.pos d <? 2 * (n mod Z.pos d))%Z; [lia|].
  destruct (Z.even (n / Z.pos d)); lia.
Qed.

Lemma ten_positive : 0 < num 10.
Proof. reflexivity. Qed.

Lemma tenth_of_ten_times (m : Z) (x : Qc) : x * num 10 = num m -> x = num m / num 10.
Proof.
  intros <-. field. intros H. pose proof ten_positive as Hp. rewrite H in Hp.
  exact (Qclt_not_eq _ _ Hp eq_refl).
Qed.

(** A whole number below a value is below its rounding, and one above it
    is above its rounding. *)
Lemma round1_lower (x : Qc) (z : Z) : num z <= x -> num z <= Py.round1 x.
Proof.
  intros H. unfold Py.round1.
  apply (Qcmult_le_mono_pos_r _ _ (num 10) ten_positive).
  replace (num (Py.round_half_even (x * num 10)) / num 10 * num 10)
    with (num (Py.round_half_even (x * num 10))).
  - rewrite <- Z2Qc_inj_mul. apply (proj1 (Z2Qc_inj_le _ _)), round_half_even_lower.
    rewrite Z2Qc_inj_mul. apply Qcmult_le_mono_pos_r; [exact ten_positive|exact H].
  - field. intros H0. pose proof ten_positive as Hp. rewrite H0 in Hp.
    exact (Qclt_not_eq _ _ Hp eq_refl).
Qed.

Lemma round1_upper (x : Qc) (z : Z) : x <= num z -> Py.round1 x <= num z.
Proof.
  intros H. unfold Py.round1.
  apply (Qcmult_le_mono_pos_r _ _ (num 10) ten_positive).
  replace (num (Py.round_half_even (x * num 10)) / num 10 * num 10)
    with (num (Py.round_half_even (x * num 10))).
  - rewrite <- Z2Qc_inj_mul. apply (proj1 (Z2Qc_inj_le _ _)), round_half_even_upper.
    rewrite Z2Qc_inj_mul. apply Qcmult_le_mono_pos_r; [exact ten_positive|exact H].
  - field. intros H0. pose proof ten_positive as Hp. rewrite H0 in Hp.
    exact (Qclt_not_eq _ _ Hp eq_refl).
Qed.

Lemma round1_nonneg (x : Qc) : 0 <= x -> 0 <= Py.round1 x.
Proof. rewrite <- Z2Qc_inj_0. apply round1_lower. Qed.

Lemma round1_nonpos (x : Qc) : x <= 0 -> Py.round1 x <= 0.
Proof. rewrite <- Z2Qc_inj_0. apply round1_upper. Qed.

End Rounding.

(** ** The review of last month's predictions *)

Section Review.

Import prediction_review app.

Lemma rate_sign (diff predicted_usage : Qc) :
  0 < predicted_usage ->
  (diff <= 0 -> diff / predicted_usage * num 100 <= 0)
  /\ (0 <= diff -> 0 <= diff / predicted_usage * num 100).
Proof.
  intros Hpos.
  assert (Hc : 0 <= / predicted_usage * num 100).
  { apply Qcmult_nonneg_nonneg; apply Qclt_le_weak; [apply Qcinv_pos, Hpos|reflexivity]. }
  replace (diff / predicted_usage * num 100) with (diff * (/ predicted_usage * num 100))
    by (unfold Qcdiv; ring).
  split; intros H.
  - pose proof (Qcmult_le_mono_nonneg_r diff 0 _ Hc H) as HH.
    rewrite Qcmult_0_l in HH. exact HH.
  - pose proof (Qcmult_le_mono_nonneg_r 0 diff _ Hc H) as HH.
    rewrite Qcmult_0_l in HH. exact HH.
Qed.

Lemma not_above_threshold (e : Qc) (z : Z) :
  (0 < z)%Z -> e <= 0 -> bool_decide (num z <= e) = false.
Proof.
  intros Hz He. apply bool_decide_eq_false_2. apply Qclt_not_le.
  eapply Qcle_lt_trans; [exact He|]. rewrite <- Z2Qc_inj_0.
  apply (proj1 (Z2Qc_inj_lt _ _)), Hz.
Qed.

Lemma color_white_nonpos (row : AccuracyRow) :
  a_error_rate row <= 0 -> row_color row = COLOR_WHITE.
Proof.
  intros H. unfold row_color.
  rewrite (not_above_threshold _ 20), (not_above_threshold _ 10) by (lia || exact H).
  reflexivity.
Qed.

Variable monthly_data : MonthlyData.

(** X13: the accuracy table has one row per item of the month's payload,
    and in every row the difference of the two usages is the predicted
    ending stock minus the actual ending stock: the starting stock and
    the incoming quantity cancel. *)
Theorem accuracy_difference_is_stock_gap (last_month : string) :
  length (calculate_prediction_accuracy monthly_data last_month)
  = size (Py.get monthly_data last_month ∅)
  /\ Forall (fun row =>
               a_diff row = a_predicted_stock row - a_actual_stock row
               /\ a_actual_usage row = a_predicted_usage row + a_diff row)
            (calculate_prediction_accuracy monthly_data last_month).
Proof.
  unfold calculate_prediction_accuracy. split.
  - rewrite length_fmap. apply length_map_to_list.
  - apply Forall_fmap, Forall_forall. intros [item data] _.
    unfold compose, accuracy_row.
    cbn [fst snd a_diff a_predicted_stock a_actual_stock a_actual_usage a_predicted_usage].
    split; ring.
Qed.

(** X14: a row whose predicted usage is 0 appears in neither review table
    and is never coloured, whatever its actual usage.  With a positive
    predicted usage, a row of the table of positive errors has an actual
    usage above the predicted one and a row of the table of negative
    errors one below it; a row whose actual usage does not exceed the
    predicted one is left white, and a row whose error is 20 percent or
    more is coloured red. *)
Theorem accuracy_review_tables (item : string) (data : Fields)
    (accuracy_df : list AccuracyRow) :
  let row := accuracy_row monthly_data item data in
  (a_predicted_usage row = 0 ->
     (row ∉ positive_rows accuracy_df) /\ (row ∉ negative_rows accuracy_df)
     /\ row_color row = COLOR_WHITE)
  /\ (0 < a_predicted_usage row ->
        (row ∈ positive_rows accuracy_df -> a_predicted_usage row < a_actual_usage row)
        /\ (row ∈ negative_rows accuracy_df -> a_actual_usage row < a_predicted_usage row)
        /\ (a_actual_usage row <= a_predicted_usage row -> row_color row = COLOR_WHITE)
        /\ (num 20 <= a_diff row / a_predicted_usage row * num 100 ->
            row_color row = COLOR_RED)).
Proof.
  cbv zeta. set (row := accuracy_row monthly_data item data).
  assert (Hrate : a_error_rate row
                  = Py.round1 (error_rate (a_diff row) (a_predicted_usage row)))
    by reflexivity.
  assert (Hdiff : a_diff row = a_actual_usage row - a_predicted_usage row)
    by reflexivity.
  split.
  - intros Hzero.
    assert (He : a_error_rate row = 0).
    { rewrite Hrate. unfold error_rate.
      rewrite bool_decide_eq_false_2 by (intros Hne; exact (Hne Hzero)).
      apply round1_zero. }
    unfold positive_rows, negative_rows. rewrite !list_elem_of_filter, He.
    split; [intros [H _]; exact (Qclt_not_eq _ _ H eq_refl)|].
    split; [intros [H _]; exact (Qclt_not_eq _ _ H eq_refl)|].
    apply color_white_nonpos. rewrite He. apply Qcle_refl.
  - intros Hpos.
    assert (He : a_error_rate row
                 = Py.round1 (a_diff row / a_predicted_usage row * num 100)).
    { rewrite Hrate. unfold error_rate.
      rewrite bool_decide_eq_true_2; [reflexivity|].
      intros H0. rewrite H0 in Hpos. exact (Qclt_not_eq _ _ Hpos eq_refl). }
    destruct (rate_sign (a_diff row) (a_predicted_usage row) Hpos) as [Hneg Hnonneg].
    assert (Hle : a_actual_usage row <= a_predicted_usage row -> a_diff row <= 0).
    { intros H. rewrite Hdiff. apply (Qcplus_le_mono_r _ _ (a_predicted_usage row)).
      replace (a_actual_usage row - a_predicted_usage row + a_predicted_usage row)
        with (a_actual_usage row) by ring.
      rewrite Qcplus_0_l. exact H. }
    assert (Hge : a_predicted_usage row <= a_actual_usage row -> 0 <= a_diff row).
    { intros H. rewrite Hdiff. apply (Qcplus_le_mono_r _ _ (a_predicted_usage row)).
      replace (a_actual_usage row - a_predicted_usage row + a_predicted_usage row)
        with (a_actual_usage row) by ring.
      rewrite Qcplus_0_l. exact H. }
    unfold positive_rows, negative_rows. rewrite !list_elem_of_filter.
    split; [|split; [|split]].
    + intros [H _]. apply Qcnot_le_lt. intros Hau.
      apply (Qclt_not_le _ _ H). rewrite He. apply round1_nonpos, Hneg, Hle, Hau.
    + intros [H _]. apply Qcnot_le_lt. intros Hau.
      apply (Qclt_not_le _ _ H). rewrite He. apply round1_nonneg, Hnonneg, Hge, Hau.
    + intros Hau. apply color_white_nonpos. rewrite He.
      apply round1_nonpos, Hneg, Hle, Hau.
    + intros H20. unfold row_color. rewrite He.
      rewrite bool_decide_eq_true_2; [reflexivity|]. apply round1_lower, H20.
Qed.

End Review.

Lemma accuracy_review_tables_witness :
  prediction_review.row_color
    (prediction_review.accuracy_row accuracy_data DW309
       (<[ K_INCOMING := num 20 ]>
          (<[ K_PREDICTED_STOCK := num 90 ]> (<[ K_STOCK := num 80 ]> ∅))))
  = prediction_review.COLOR_RED.
Proof.
  apply (accuracy_review_tables accuracy_data DW309
           (<[ K_INCOMING := num 20 ]>
              (<[ K_PREDICTED_STOCK := num 90 ]> (<[ K_STOCK := num 80 ]> ∅))) []).
  - reflexivity.
  - vm_compute. discriminate.
Defined.

(** ** The average prediction error of the long-lead item *)

Section PredictionError.

Import dw309.

Variable item : string.

Lemma prediction_errors_step (month : string) (payload : Payload)
    (rest : list (string * Payload)) (errors : list Qc) :
  prediction_errors ((month, payload) :: rest) item errors
  = prediction_errors rest item
      (errors ++ match month_error payload item with
                 | Some e => [e]
                 | None => []
                 end).
Proof.
  cbn [prediction_errors]. f_equal. unfold month_error, Py.get.
  destruct (payload !! item) as [fields|]; cbn.
  - destruct (fields !! K_PREDICTED_STOCK) as [p|], (fields !! K_STOCK) as [a|];
      cbn; rewrite ?app_nil_r; try reflexivity.
    destruct (decide (p = 0)) as [Hp|Hp].
    + rewrite (bool_decide_eq_true_2 (p = 0) Hp).
      rewrite bool_decide_eq_false_2 by (intros H; exact (H Hp)).
      rewrite app_nil_r. reflexivity.
    + rewrite (bool_decide_eq_false_2 (p = 0) Hp).
      rewrite bool_decide_eq_true_2 by exact Hp. reflexivity.
  - rewrite app_nil_r. reflexivity.
Qed.

Lemma prediction_errors_omap (items : list (string * Payload)) (errors : list Qc) :
  prediction_errors items item errors
  = errors ++ omap (fun entry => month_error (snd entry) item) items.
Proof.
  revert errors. induction items as [|[month payload] rest IH]; intros errors.
  - cbn. rewrite app_nil_r. reflexivity.
  - rewrite prediction_errors_step, IH, <- app_assoc. f_equal.
    cbn [omap list_omap snd]. destruct (month_error payload item); reflexivity.
Qed.

Lemma last_three_app (older recent : list Qc) :
  (3 <= length recent)%nat -> last_three (older ++ recent) = last_three recent.
Proof.
  intros H. unfold last_three. rewrite length_app, drop_app_ge by lia.
  f_equal. lia.
Qed.

Lemma sum_nonneg (xs : list Qc) : Forall (fun x => 0 <= x) xs -> 0 <= Py.sum xs.
Proof.
  induction 1 as [|x xs Hx _ IH]; [apply Qcle_refl|].
  rewrite sum_cons. apply Qcplus_nonneg_nonneg; assumption.
Qed.

Lemma mean_nonneg (xs : list Qc) :
  xs <> [] -> Forall (fun x => 0 <= x) xs -> 0 <= Py.sum xs / Py.len xs.
Proof.
  intros Hne Hall. unfold Qcdiv. apply Qcmult_nonneg_nonneg; [apply sum_nonneg, Hall|].
  apply Qclt_le_weak, Qcinv_pos. unfold Py.len. rewrite <- Z2Qc_inj_0.
  apply (proj1 (Z2Qc_inj_lt _ _)). destruct xs; [contradiction|cbn; lia].
Qed.

Lemma month_error_nonneg (payload : Payload) (e : Qc) :
  (forall fields predicted,
     payload !! item = Some fields -> fields !! K_PREDICTED_STOCK = Some predicted ->
     0 <= predicted) ->
  month_error payload item = Some e -> 0 <= e.
Proof.
  intros Hpos. unfold month_error.
  destruct (payload !! item) as [fields|]; [|discriminate].
  destruct (fields !! K_PREDICTED_STOCK) as [p|] eqn:Hp; [|discriminate].
  destruct (fields !! K_STOCK) as [a|]; [|discriminate].
  case_bool_decide as Hz; [discriminate|]. intros [= <-].
  assert (H0 : 0 < p).
  { destruct (Qcle_lt_or_eq _ _ (Hpos fields p eq_refl Hp)) as [H|H];
      [exact H|exfalso; apply Hz; symmetry; exact H]. }
  apply Qcmult_nonneg_nonneg; [|vm_compute; discriminate].
  unfold Qcdiv. apply Qcmult_nonneg_nonneg; [apply Qcabs.Qcabs_nonneg|].
  apply Qclt_le_weak, Qcinv_pos, H0.
Qed.

(** X15: [calculate_prediction_error] returns [None] exactly when no
    month records both stocks with a predicted stock other than 0 (such
    months are skipped, so it never divides by 0).  Only the last three
    usable months count: months listed before them do not change the
    result.  When no predicted stock is negative, the error is not
    negative. *)
Theorem prediction_error_recent_months (older recent : list (string * Payload)) :
  (calculate_prediction_error recent item = None
   <-> Forall (fun entry => month_error (snd entry) item = None) recent)
  /\ ((3 <= length (omap (fun entry => month_error (snd entry) item) recent))%nat ->
      calculate_prediction_error (older ++ recent) item
      = calculate_prediction_error recent item)
  /\ (Forall (fun entry =>
                forall fields predicted,
                  snd entry !! item = Some fields ->
                  fields !! K_PREDICTED_STOCK = Some predicted -> 0 <= predicted)
             recent ->
      forall e, calculate_prediction_error recent item = Some e -> 0 <= e).
Proof.
  unfold calculate_prediction_error. rewrite !prediction_errors_omap. cbn [app].
  split; [|split].
  - split.
    + intros H. destruct (omap _ recent) as [|e es] eqn:E; [|discriminate H].
      clear H. induction recent as [|entry rest IH]; constructor.
      * cbn [omap list_omap] in E. destruct (month_error (snd entry) item);
          [discriminate E|reflexivity].
      * apply IH. cbn [omap list_omap] in E.
        destruct (month_error (snd entry) item); [discriminate E|exact E].
    + intros H. replace (omap (fun entry => month_error (snd entry) item) recent)
        with (@nil Qc); [reflexivity|].
      induction H as [|entry rest He _ IH]; [reflexivity|].
      cbn [omap list_omap]. rewrite He. exact IH.
  - intros H3. rewrite omap_app.
    set (old := omap (fun entry => month_error (snd entry) item) older).
    set (new := omap (fun entry => month_error (snd entry) item) recent) in *.
    rewrite (last_three_app old new H3).
    destruct new as [|e es]; [cbn in H3; lia|].
    destruct (old ++ e :: es) eqn:E; [|reflexivity].
    apply app_eq_nil in E as [_ E]. discriminate E.
  - intros Hpos e.
    set (errors := omap (fun entry => month_error (snd entry) item) recent).
    assert (Hall : Forall (fun x => 0 <= x) errors).
    { apply list.Forall_forall. intros x Hx. unfold errors in Hx.
      apply list_elem_of_omap in Hx as (entry & Hin & Hx).
      rewrite list.Forall_forall in Hpos.
      eapply month_error_nonneg; [apply (Hpos entry Hin)|exact Hx]. }
    destruct errors as [|x xs] eqn:E; [discriminate|]. intros [= <-].
    rewrite <- E in *. apply mean_nonneg.
    + unfold last_three. intros Hnil.
      apply (f_equal length) in Hnil. rewrite length_drop, E in Hnil.
      cbn [length] in Hnil. lia.
    + unfold last_three. apply Forall_drop, Hall.
Qed.

End PredictionError.

Lemma prediction_error_recent_months_witness :
  dw309.calculate_prediction_error error_history DW309
  = dw309.calculate_prediction_error (drop 1 error_history) DW309.
Proof.
  apply (prediction_error_recent_months DW309 (take 1 error_history)
           (drop 1 error_history)).
  vm_compute. lia.
Defined.

Example prediction_error_sample :
  this <$> dw309.calculate_prediction_error error_history DW309 = Some (10 # 1)%Q
  /\ dw309.calculate_prediction_error [("2025-12", stock_record 0 40)]%string DW309 = None.
Proof. split; vm_compute; reflexivity. Qed.

(** ** Sorting by a string key *)

Section Sorting.

Context {A : Type} (key : A -> string).

Local Abbreviation key_le := (key_le key).

Lemma insert_sorted_perm (x : A) (xs : list A) : Py.insert_sorted key x xs ≡ₚ x :: xs.
Proof.
  induction xs as [|y rest IH]; [reflexivity|].
  cbn [Py.insert_sorted]. destruct (String.leb (key x) (key y)); [reflexivity|].
  rewrite IH. apply Permutation_swap.
Qed.

Lemma sorted_perm (xs : list A) : Py.sorted key xs ≡ₚ xs.
Proof.
  induction xs as [|x rest IH]; [reflexivity|].
  cbn [Py.sorted foldr]. fold (Py.sorted key rest).
  rewrite insert_sorted_perm, IH. reflexivity.
Qed.

Lemma insert_sorted_hd (x y : A) (xs : list A) :
  key_le y x -> HdRel key_le y xs -> HdRel key_le y (Py.insert_sorted key x xs).
Proof.
  intros Hyx Hhd. destruct xs as [|z rest]; cbn [Py.insert_sorted].
  - constructor. exact Hyx.
  - destruct (String.leb (key x) (key z)); constructor; [exact Hyx|].
    inversion Hhd; assumption.
Qed.

Lemma insert_sorted_Sorted (x : A) (xs : list A) :
  Sorted key_le xs -> Sorted key_le (Py.insert_sorted key x xs).
Proof.
  induction 1 as [|y rest Hrest IH Hhd]; cbn [Py.insert_sorted].
  - repeat constructor.
  - destruct (String.leb (key x) (key y)) eqn:E.
    + constructor; [constructor; assumption|]. constructor. exact E.
    + constructor; [exact IH|]. apply insert_sorted_hd; [|exact Hhd].
      unfold key_le. destruct (String.leb_total (key x) (key y)) as [H|H];
        [rewrite H in E; discriminate E|exact H].
Qed.

Lemma sorted_Sorted (xs : list A) : Sorted key_le (Py.sorted key xs).
Proof.
  induction xs as [|x rest IH]; [constructor|].
  cbn [Py.sorted foldr]. apply insert_sorted_Sorted, IH.
Qed.

End Sorting.

(** ** The sheet of [utils/excel_view.py] *)

Section ExcelSheet.

Import excel_view.

(** The three labels of a month are shown under three different column
    names of that month, none of which is the label of the item column. *)
Lemma label_columns_shape (month : string) :
  exists l1 l2 l3 d1 d2 d3,
    label_columns month (labels_of month) 0
    = [(l1, (month, d1)); (l2, (month, d2)); (l3, (month, d3))]
    /\ d1 <> d2 /\ d1 <> d3 /\ d2 <> d3
    /\ d1 <> ITEM_LABEL /\ d2 <> ITEM_LABEL /\ d3 <> ITEM_LABEL.
Proof.
  unfold labels_of, MONTH_COLUMN_LABELS. cbn [Py.table_get].
  repeat case_bool_decide;
    (do 6 eexists; split; [vm_compute; reflexivity|repeat split; discriminate]).
Qed.

Lemma month_columns_shape (month : string) :
  exists d1 d2 d3,
    month_columns month = [(month, d1); (month, d2); (month, d3)]
    /\ NoDup (month_columns month)
    /\ d1 <> ITEM_LABEL /\ d2 <> ITEM_LABEL /\ d3 <> ITEM_LABEL.
Proof.
  destruct (label_columns_shape month)
    as (l1 & l2 & l3 & d1 & d2 & d3 & E & H12 & H13 & H23 & H1 & H2 & H3).
  exists d1, d2, d3. unfold month_columns. rewrite E. cbn [fmap list_fmap snd].
  split; [reflexivity|]. split; [|repeat split; assumption].
  repeat constructor; rewrite ?elem_of_cons, ?elem_of_nil; intros H;
    repeat (destruct H as [H|H]); try contradiction; injection H as H; congruence.
Qed.

Lemma month_columns_month (month : string) (c : Column) :
  c ∈ month_columns month -> fst c = month /\ c <> ITEM_COLUMN.
Proof.
  destruct (month_columns_shape month) as (d1 & d2 & d3 & E & _ & H1 & H2 & H3).
  rewrite E, !elem_of_cons, elem_of_nil. unfold ITEM_LABEL in *.
  intros [->|[->|[->|[]]]]; (split; [reflexivity|]); intros H;
    apply (f_equal snd) in H; cbn [snd] in H; congruence.
Qed.

Lemma header_fold (month : string) (entries : list (string * Column))
    (state : list Column * gmap Column string) :
  fold_left (fun st entry => (fst st ++ [snd entry], <[snd entry := month]> (snd st)))
            entries state
  = (fst state ++ (snd <$> entries),
     fold_left (fun cm entry => <[snd entry := month]> cm) entries (snd state)).
Proof.
  revert state. induction entries as [|e rest IH]; intros state.
  - cbn. rewrite app_nil_r. destruct state; reflexivity.
  - cbn [fold_left]. rewrite IH. cbn [fst snd]. rewrite fmap_cons, <- app_assoc.
    reflexivity.
Qed.

Lemma header_columns (months : list string) (state : list Column * gmap Column string) :
  fst (header_pass months state) = fst state ++ concat (month_columns <$> months).
Proof.
  revert state. induction months as [|m rest IH]; intros state.
  - cbn. rewrite app_nil_r. reflexivity.
  - cbn [header_pass]. rewrite IH, header_fold. cbn [fst].
    rewrite fmap_cons, concat_cons, <- app_assoc. reflexivity.
Qed.

Lemma month_fold_lookup (month : string) (entries : list (string * Column))
    (cm : gmap Column string) (c : Column) :
  fold_left (fun cm entry => <[snd entry := month]> cm) entries cm !! c
  = if bool_decide (c ∈ snd <$> entries) then Some month else cm !! c.
Proof.
  revert cm. induction entries as [|e rest IH]; intros cm; [reflexivity|].
  cbn [fold_left]. rewrite IH, fmap_cons.
  destruct (decide (c ∈ snd <$> rest)) as [Hin|Hin].
  - rewrite !bool_decide_eq_true_2; [reflexivity| |exact Hin].
    apply list_elem_of_further, Hin.
  - rewrite (bool_decide_eq_false_2 _ Hin).
    destruct (decide (snd e = c)) as [<-|Hne].
    + rewrite lookup_insert_eq, bool_decide_eq_true_2 by apply list_elem_of_here.
      reflexivity.
    + rewrite lookup_insert_ne by exact Hne.
      rewrite bool_decide_eq_false_2; [reflexivity|].
      rewrite elem_of_cons. intros [H|H]; [exact (Hne (eq_sym H))|exact (Hin H)].
Qed.

Lemma header_months (months : list string) (state : list Column * gmap Column string)
    (c : Column) :
  snd (header_pass months state) !! c
  = if bool_decide (c ∈ concat (month_columns <$> months)) then Some (fst c)
    else snd state !! c.
Proof.
  revert state. induction months as [|m rest IH]; intros state; [reflexivity|].
  cbn [header_pass]. rewrite IH, header_fold. cbn [snd].
  rewrite month_fold_lookup, fmap_cons, concat_cons. fold (month_columns m).
  destruct (decide (c ∈ concat (month_columns <$> rest))) as [Hin|Hin].
  - rewrite !bool_decide_eq_true_2; [reflexivity| |exact Hin].
    apply elem_of_app. right. exact Hin.
  - rewrite (bool_decide_eq_false_2 _ Hin).
    destruct (decide (c ∈ month_columns m)) as [Hm|Hm].
    + rewrite !bool_decide_eq_true_2; [|apply elem_of_app; left; exact Hm|exact Hm].
      destruct (month_columns_month m c Hm) as [-> _]. reflexivity.
    + rewrite !bool_decide_eq_false_2; [reflexivity| |exact Hm].
      rewrite elem_of_app. intros [H|H]; [exact (Hm H)|exact (Hin H)].
Qed.

Lemma elem_of_concat {A : Type} (x : A) (ls : list (list A)) :
  x ∈ concat ls <-> exists l, x ∈ l /\ l ∈ ls.
Proof.
  induction ls as [|l0 ls IH].
  - cbn. split; [intros H; inversion H|intros (l & _ & H); inversion H].
  - rewrite concat_cons, elem_of_app, IH. split.
    + intros [H|(l & H & Hl)].
      * exists l0. split; [exact H|apply list_elem_of_here].
      * exists l. split; [exact H|apply list_elem_of_further, Hl].
    + intros (l & H & Hl). apply elem_of_cons in Hl as [->|Hl].
      * left. exact H.
      * right. exists l. split; assumption.
Qed.

Lemma known_months_nodup : NoDup KNOWN_MONTHS.
Proof. apply (bool_decide_unpack (NoDup KNOWN_MONTHS)). vm_compute. exact I. Qed.

Lemma ordered_months_nodup (monthly_data : MonthlyData) :
  NoDup (_ordered_months monthly_data).
Proof.
  unfold _ordered_months.
  pose proof (NoDup_filter (fun month => is_Some (monthly_data !! month)) _
                known_months_nodup) as Hf.
  unfold KNOWN_MONTHS in Hf.
  destruct (filter _ (fst <$> MONTH_COLUMN_LABELS)) as [|m ms]; [|exact Hf].
  rewrite (sorted_perm id). apply NoDup_fst_map_to_list.
Qed.

Lemma sheet_columns_nodup (months : list string) :
  NoDup months -> NoDup (ITEM_COLUMN :: concat (month_columns <$> months)).
Proof.
  intros Hnd. constructor.
  - intros Hin. apply elem_of_concat in Hin as (cols & Hin & Hcols).
    apply list_elem_of_fmap in Hcols as (m & -> & _).
    apply month_columns_month in Hin as [_ Hne]. apply Hne. reflexivity.
  - induction Hnd as [|m rest Hm Hrest IH]; [constructor|].
    rewrite fmap_cons, concat_cons. apply NoDup_app. split; [|split; [|exact IH]].
    + destruct (month_columns_shape m) as (_ & _ & _ & _ & H & _). exact H.
    + intros c Hc Hin. apply elem_of_concat in Hin as (cols & Hin & Hcols).
      apply list_elem_of_fmap in Hcols as (m' & -> & Hm').
      apply month_columns_month in Hc as [Hc _].
      apply month_columns_month in Hin as [Hin _].
      apply Hm. rewrite <- Hc, Hin. exact Hm'.
Qed.

Lemma row_fold_dom (month : string) (item_payload : Fields)
    (entries : list (string * Column)) (row : gmap Column Cell) (c : Column) :
  is_Some (fold_left (fun r entry =>
                        <[snd entry := Figure (_value_for_label month (fst entry) item_payload)]> r)
                     entries row !! c)
  <-> is_Some (row !! c) \/ c ∈ snd <$> entries.
Proof.
  revert row. induction entries as [|e rest IH]; intros row.
  - cbn. rewrite elem_of_nil. tauto.
  - cbn [fold_left]. rewrite IH, fmap_cons, elem_of_cons, lookup_insert_is_Some.
    destruct (decide (snd e = c)) as [<-|Hne]; [tauto|].
    split; [intros [[H|[_ H]]|H]|intros [H|[H|H]]]; auto; congruence.
Qed.

Lemma row_fold_other (month : string) (item_payload : Fields)
    (entries : list (string * Column)) (row : gmap Column Cell) (c : Column) :
  c ∉ snd <$> entries ->
  fold_left (fun r entry =>
               <[snd entry := Figure (_value_for_label month (fst entry) item_payload)]> r)
            entries row !! c
  = row !! c.
Proof.
  revert row. induction entries as [|e rest IH]; intros row Hc; [reflexivity|].
  rewrite fmap_cons, not_elem_of_cons in Hc. destruct Hc as [Hne Hc].
  cbn [fold_left]. rewrite IH by exact Hc. apply lookup_insert_ne. congruence.
Qed.

Lemma row_pass_dom (monthly_data : MonthlyData) (item_id : string) (months : list string)
    (row : gmap Column Cell) (c : Column) :
  is_Some (row_pass monthly_data item_id months row !! c)
  <-> is_Some (row !! c) \/ c ∈ concat (month_columns <$> months).
Proof.
  revert row. induction months as [|m rest IH]; intros row.
  - cbn. rewrite elem_of_nil. tauto.
  - cbn [row_pass]. rewrite IH, row_fold_dom, fmap_cons, concat_cons, elem_of_app.
    fold (month_columns m). tauto.
Qed.

Lemma row_pass_other (monthly_data : MonthlyData) (item_id : string) (months : list string)
    (row : gmap Column Cell) (c : Column) :
  c ∉ concat (month_columns <$> months) ->
  row_pass monthly_data item_id months row !! c = row !! c.
Proof.
  revert row. induction months as [|m rest IH]; intros row Hc; [reflexivity|].
  rewrite fmap_cons, concat_cons, elem_of_app in Hc.
  cbn [row_pass]. rewrite IH by tauto. apply row_fold_other.
  fold (month_columns m). tauto.
Qed.

Lemma other_month_columns (months : list string) (c : Column) :
  fst c ∉ months -> c ∉ concat (month_columns <$> months).
Proof.
  intros Hm Hc. apply elem_of_concat in Hc as (cols & Hc & Hcols).
  apply list_elem_of_fmap in Hcols as (m & -> & Hin).
  apply month_columns_month in Hc as [Hc _]. apply Hm. rewrite Hc. exact Hin.
Qed.

Lemma row_pass_cell (monthly_data : MonthlyData) (item_id : string) (months : list string)
    (row : gmap Column Cell) (month label : string) (c : Column) :
  month ∈ months ->
  (label, c) ∈ label_columns month (labels_of month) 0 ->
  row_pass monthly_data item_id months row !! c
  = Some (Figure (_value_for_label month label (Py.payload_of monthly_data month item_id))).
Proof.
  intros Hin Hc. revert row. induction months as [|m rest IH]; intros row.
  - inversion Hin.
  - cbn [row_pass]. destruct (decide (month ∈ rest)) as [Hrest|Hrest]; [apply IH, Hrest|].
    apply elem_of_cons in Hin as [<-|Hin]; [|contradiction].
    destruct (label_columns_shape month)
      as (l1 & l2 & l3 & d1 & d2 & d3 & E & H12 & H13 & H23 & _).
    rewrite E in Hc |- *. cbn [fold_left fst snd].
    assert (Hfst : fst c = month).
    { rewrite !elem_of_cons, elem_of_nil in Hc.
      destruct Hc as [H|[H|[H|[]]]]; injection H as _ ->; reflexivity. }
    rewrite row_pass_other by (apply other_month_columns; rewrite Hfst; exact Hrest).
    rewrite !elem_of_cons, elem_of_nil in Hc.
    destruct Hc as [H|[H|[H|[]]]]; injection H as -> ->.
    + rewrite !lookup_insert_ne by (intros H; injection H as H; congruence).
      apply lookup_insert_eq.
    + rewrite lookup_insert_ne by (intros H; injection H as H; congruence).
      apply lookup_insert_eq.
    + apply lookup_insert_eq.
Qed.

Lemma item_column_apart (months : list string) :
  ITEM_COLUMN ∉ concat (month_columns <$> months).
Proof.
  intros Hc. apply elem_of_concat in Hc as (cols & Hc & Hcols).
  apply list_elem_of_fmap in Hcols as (m & -> & _).
  apply month_columns_month in Hc as [_ Hc]. apply Hc. reflexivity.
Qed.

Lemma sheet_row_shows (monthly_data : MonthlyData) (months : list string) (item : Item) :
  row_shows monthly_data months item
    (row_pass monthly_data (item_id item) months
       {[ ITEM_COLUMN := ItemId (item_id item) ]}).
Proof.
  split.
  - rewrite row_pass_other by apply item_column_apart. apply lookup_singleton_eq.
  - intros month label column Hm Hc. apply row_pass_cell; assumption.
Qed.

Lemma sheet_row_dom (monthly_data : MonthlyData) (months : list string) (item : Item)
    (c : Column) :
  is_Some (row_pass monthly_data (item_id item) months
             {[ ITEM_COLUMN := ItemId (item_id item) ]} !! c)
  <-> c ∈ ITEM_COLUMN :: concat (month_columns <$> months).
Proof.
  rewrite row_pass_dom, elem_of_cons, lookup_singleton_is_Some. 
  split; intros [H|H]; auto.
Qed.

Lemma sheet_header (months : list string) :
  header_pass months ([ITEM_COLUMN], ∅)
  = (ITEM_COLUMN :: concat (month_columns <$> months),
     snd (header_pass months ([ITEM_COLUMN], ∅))).
Proof.
  rewrite (surjective_pairing (header_pass months _)) at 1.
  rewrite header_columns. reflexivity.
Qed.

Lemma month_columns_length (month : string) : length (month_columns month) = 3%nat.
Proof.
  destruct (month_columns_shape month) as (d1 & d2 & d3 & E & _). rewrite E. reflexivity.
Qed.

Lemma sheet_columns_length (months : list string) :
  length (concat (month_columns <$> months)) = (3 * length months)%nat.
Proof.
  induction months as [|m rest IH]; [reflexivity|].
  rewrite fmap_cons, concat_cons, length_app, month_columns_length, IH.
  cbn [length]. lia.
Qed.

Lemma strongly_sorted_filter {A : Type} (R : A -> A -> Prop) (P : A -> Prop)
    `{forall x, Decision (P x)} (xs : list A) :
  StronglySorted R xs -> StronglySorted R (filter P xs).
Proof.
  induction 1 as [|x rest Hrest IH Hall]; [constructor|].
  rewrite filter_cons. destruct (decide (P x)); [|exact IH].
  constructor; [exact IH|].
  apply list.Forall_forall. intros y Hy. apply list_elem_of_filter in Hy as [_ Hy].
  revert y Hy. apply list.Forall_forall. exact Hall.
Qed.

Lemma known_months_sorted : StronglySorted (key_le id) KNOWN_MONTHS.
Proof. repeat constructor. Qed.

Lemma ordered_months_sorted (monthly_data : MonthlyData) :
  Sorted (key_le id) (_ordered_months monthly_data).
Proof.
  unfold _ordered_months.
  pose proof (strongly_sorted_filter (key_le id)
                (fun month => is_Some (monthly_data !! month)) _ known_months_sorted) as Hf.
  unfold KNOWN_MONTHS in Hf.
  destruct (filter _ (fst <$> MONTH_COLUMN_LABELS)) as [|m ms].
  - apply sorted_Sorted.
  - apply StronglySorted_Sorted, Hf.
Qed.

Lemma ordered_months_member (monthly_data : MonthlyData) (month : string) :
  month ∈ _ordered_months monthly_data
  <-> is_Some (monthly_data !! month)
      /\ (month ∈ KNOWN_MONTHS
          \/ forall known, known ∈ KNOWN_MONTHS -> monthly_data !! known = None).
Proof.
  unfold _ordered_months. fold KNOWN_MONTHS.
  destruct (filter _ KNOWN_MONTHS) as [|m ms] eqn:E.
  - rewrite (sorted_perm id). 
    assert (Hnone : forall known, known ∈ KNOWN_MONTHS -> monthly_data !! known = None).
    { intros known Hk. destruct (monthly_data !! known) eqn:Ek; [|reflexivity].
      assert (Hin : known ∈ filter (fun month => is_Some (monthly_data !! month)) KNOWN_MONTHS).
      { apply list_elem_of_filter. split; [rewrite Ek; eauto|exact Hk]. }
      rewrite E in Hin. inversion Hin. }
    rewrite list_elem_of_fmap. split.
    + intros ([k v] & -> & Hkv). apply elem_of_map_to_list in Hkv. cbn [fst].
      split; [rewrite Hkv; eauto|right; exact Hnone].
    + intros [[v Hv] _]. exists (month, v). split; [reflexivity|].
      apply elem_of_map_to_list. exact Hv.
  - rewrite <- E, list_elem_of_filter. split.
    + intros [Hs Hk]. split; [exact Hs|left; exact Hk].
    + intros [Hs [Hk|Hnone]]; [split; assumption|].
      assert (Hm : m ∈ filter (fun month => is_Some (monthly_data !! month)) KNOWN_MONTHS)
        by (rewrite E; apply list_elem_of_here).
      apply list_elem_of_filter in Hm as [[v Hv] Hk]. rewrite (Hnone m Hk) in Hv.
      discriminate Hv.
Qed.

Ltac known_month :=
  unfold KNOWN_MONTHS, MONTH_COLUMN_LABELS; cbn [fmap list_fmap fst];
  rewrite !elem_of_cons; auto 10.

Lemma unknown_month_labels (month : string) :
  month ∉ KNOWN_MONTHS ->
  label_columns month (labels_of month) 0
  = [("-", (month, " ")); ("-", (month, "  ")); ("-", (month, "   "))]%string.
Proof.
  intros Hm. unfold labels_of, MONTH_COLUMN_LABELS. cbn [Py.table_get].
  repeat case_bool_decide;
    try (exfalso; apply Hm; subst month; known_month).
  reflexivity.
Qed.

Lemma sheet_column_month (months : list string) (c : Column) :
  c ∈ concat (month_columns <$> months) ->
  exists month label,
    month ∈ months /\ (label, c) ∈ label_columns month (labels_of month) 0.
Proof.
  intros Hc. apply elem_of_concat in Hc as (cols & Hc & Hcols).
  apply list_elem_of_fmap in Hcols as (m & -> & Hin).
  unfold month_columns in Hc. apply list_elem_of_fmap in Hc as ([l c'] & -> & Hc).
  exists m, l. split; assumption.
Qed.

Lemma planning_month_labels :
  label_columns "2026-03" (labels_of "2026-03") 0
  = [("発注予定", ("2026-03", "発注予定")); ("-", ("2026-03", " "));
     ("-", ("2026-03", "  "))]%string.
Proof. vm_compute. reflexivity. Qed.

Lemma month_color_of (month : string) :
  match Py.table_get (fmap (fun entry => (fst entry, Some (snd entry))) MONTH_CATEGORIES)
          month None with
  | Some category => Py.table_get CATEGORY_COLORS category "#ffffff"%string
  | None => "#ffffff"%string
  end = month_color month.
Proof.
  unfold MONTH_CATEGORIES, month_color. cbn [fmap list_fmap fst snd Py.table_get].
  repeat case_bool_decide; subst; try reflexivity; try discriminate;
    exfalso;
    repeat match goal with
           | H : _ ∈ _ |- _ => rewrite ?elem_of_cons, ?elem_of_nil in H
           | H : ~ _ ∈ _ |- _ => rewrite ?elem_of_cons, ?elem_of_nil in H
           end; intuition congruence.
Qed.

(** X16: the months of the sheet are keys of the data, in ascending
    order and without repetition; a key is shown exactly when the sheet has
    labels for it, or when the data holds none of the months the sheet has
    labels for. *)
Theorem sheet_months_order (monthly_data : MonthlyData) :
  let months := _ordered_months monthly_data in
  NoDup months
  /\ Sorted (key_le id) months
  /\ forall month,
       month ∈ months
       <-> is_Some (monthly_data !! month)
           /\ (month ∈ KNOWN_MONTHS
               \/ Forall (fun known => monthly_data !! known = None) KNOWN_MONTHS).
Proof.
  cbn zeta. split; [apply ordered_months_nodup|].
  split; [apply ordered_months_sorted|].
  intros month. rewrite ordered_months_member, list.Forall_forall. reflexivity.
Qed.

(** X17: the sheet starts with the item column, followed by three columns
    per month in the order of the months; no two columns are equal, and
    [column_months] sends each column of a month to that month and has no
    entry for the item column. *)
Theorem sheet_header_layout (master_items : list Item) (monthly_data : MonthlyData) :
  let result := create_excel_style_dataframe master_items monthly_data in
  let months := _ordered_months monthly_data in
  sheet_columns (fst result) = ITEM_COLUMN :: concat (month_columns <$> months)
  /\ NoDup (sheet_columns (fst result))
  /\ length (sheet_columns (fst result)) = (1 + 3 * length months)%nat
  /\ snd result !! ITEM_COLUMN = None
  /\ forall month column,
       month ∈ months -> column ∈ month_columns month ->
       snd result !! column = Some month.
Proof.
  cbn zeta. unfold create_excel_style_dataframe. cbn zeta.
  rewrite sheet_header. cbn [fst snd sheet_columns].
  split; [reflexivity|].
  split; [apply sheet_columns_nodup, ordered_months_nodup|].
  split; [cbn [length]; rewrite sheet_columns_length; reflexivity|].
  split.
  - rewrite header_months, bool_decide_eq_false_2 by apply item_column_apart.
    apply lookup_empty.
  - intros month column Hm Hc. rewrite header_months, bool_decide_eq_true_2.
    + apply month_columns_month in Hc as [-> _]. reflexivity.
    + apply elem_of_concat. exists (month_columns month). split; [exact Hc|].
      apply list_elem_of_fmap. exists month. split; [reflexivity|exact Hm].
Qed.

(** X18: the sheet has one row per item of the master list, in ascending
    order of the item ids; a row holds the item id under the item column
    and, under each column of each month, the figure of the column's label
    in that month's payload of the item; it has a cell for every column of
    the sheet and for nothing else. *)
Theorem sheet_rows_cells (master_items : list Item) (monthly_data : MonthlyData) :
  let sheet := fst (create_excel_style_dataframe master_items monthly_data) in
  let items := Py.sorted item_id master_items in
  items ≡ₚ master_items
  /\ Sorted (key_le item_id) items
  /\ Forall2 (fun item row =>
                row_shows monthly_data (_ordered_months monthly_data) item row
                /\ forall column,
                     is_Some (row !! column) <-> column ∈ sheet_columns sheet)
             items (sheet_rows sheet).
Proof.
  cbn zeta. unfold create_excel_style_dataframe. cbn zeta.
  rewrite sheet_header. cbn [fst sheet_columns sheet_rows].
  split; [apply sorted_perm|]. split; [apply sorted_Sorted|].
  apply Forall2_fmap_r, Forall_Forall2_diag, list.Forall_forall.
  intros item _. split; [apply sheet_row_shows|]. intros column. apply sheet_row_dom.
Qed.

Lemma planning_month_shown :
  "2026-03"%string ∈ _ordered_months planning_month_data.
Proof.
  apply ordered_months_member. split; [|left; known_month].
  unfold planning_month_data. rewrite lookup_singleton_eq. eauto.
Qed.

Lemma planning_column_shown :
  ("2026-03", "発注予定")%string ∈ month_columns "2026-03".
Proof.
  unfold month_columns. rewrite planning_month_labels. apply list_elem_of_here.
Qed.

Lemma sheet_header_layout_witness :
  snd (create_excel_style_dataframe sheet_items planning_month_data)
    !! ("2026-03", "発注予定")%string
  = Some "2026-03"%string.
Proof.
  destruct (sheet_header_layout sheet_items planning_month_data) as (_ & _ & _ & _ & H).
  apply H; [exact planning_month_shown|exact planning_column_shown].
Defined.

Lemma sheet_rows_cells_witness :
  exists row,
    sheet_rows (fst (create_excel_style_dataframe sheet_items planning_month_data)) !! 0%nat
    = Some row
    /\ row !! ITEM_COLUMN = Some (ItemId "A")
    /\ row !! ("2026-03", "  ")%string = Some (Figure None).
Proof.
  destruct (sheet_rows_cells sheet_items planning_month_data) as (_ & _ & Hall).
  destruct (sheet_rows (fst (create_excel_style_dataframe sheet_items planning_month_data)))
    as [|row rows] eqn:E;
    [apply (f_equal length) in E; vm_compute in E; discriminate E|].
  exists row. split; [reflexivity|].
  apply Forall2_cons_inv_r in Hall as (item & items & [[Hid Hcells] _] & _ & Hitems).
  assert (Hitem : item_id item = "A"%string).
  { vm_compute in Hitems. injection Hitems as <- _. reflexivity. }
  split; [rewrite Hid, Hitem; reflexivity|].
  apply (Hcells "2026-03" "-" ("2026-03", "  "))%string.
  - exact planning_month_shown.
  - rewrite planning_month_labels.
    apply list_elem_of_further, list_elem_of_further, list_elem_of_here.
Defined.

(** X19: when the data holds none of the months the sheet has labels for,
    every cell of every row outside the item column is empty, whatever the
    data holds. *)
Theorem unknown_months_show_no_figures (master_items : list Item)
    (monthly_data : MonthlyData) :
  Forall (fun known => monthly_data !! known = None) KNOWN_MONTHS ->
  let sheet := fst (create_excel_style_dataframe master_items monthly_data) in
  Forall (fun row =>
            forall column,
              column ∈ sheet_columns sheet -> column <> ITEM_COLUMN ->
              row !! column = Some (Figure None))
         (sheet_rows sheet).
Proof.
  intros Hnone. cbn zeta. unfold create_excel_style_dataframe. cbn zeta.
  rewrite sheet_header. cbn [fst sheet_columns sheet_rows].
  apply list.Forall_forall. intros row Hrow.
  apply list_elem_of_fmap in Hrow as (item & -> & _).
  intros column Hc Hne. apply elem_of_cons in Hc as [->|Hc]; [contradiction|].
  apply sheet_column_month in Hc as (month & label & Hm & Hc).
  rewrite (row_pass_cell _ _ _ _ month label) by assumption.
  assert (Hunknown : month ∉ KNOWN_MONTHS).
  { intros Hk. apply ordered_months_member in Hm as [[v Hv] _].
    rewrite list.Forall_forall in Hnone. rewrite (Hnone month Hk) in Hv. discriminate Hv. }
  rewrite (unknown_month_labels month Hunknown), !elem_of_cons, elem_of_nil in Hc.
  destruct Hc as [H|[H|[H|[]]]]; injection H as -> _; reflexivity.
Qed.

Lemma unknown_months_show_no_figures_witness :
  exists row,
    sheet_rows (fst (create_excel_style_dataframe sheet_items unlabelled_data)) !! 0%nat
    = Some row
    /\ row !! ("2027-01", " ")%string = Some (Figure None).
Proof.
  assert (Hnone : Forall (fun known => unlabelled_data !! known = None) KNOWN_MONTHS)
    by (repeat constructor).
  pose proof (unknown_months_show_no_figures sheet_items unlabelled_data Hnone) as Hall.
  cbn zeta in Hall.
  destruct (sheet_rows (fst (create_excel_style_dataframe sheet_items unlabelled_data)))
    as [|row rows] eqn:E;
    [apply (f_equal length) in E; vm_compute in E; discriminate E|].
  exists row. split; [reflexivity|].
  apply List.Forall_inv in Hall. apply Hall.
  - apply (bool_decide_unpack (("2027-01", " ")%string
             ∈ sheet_columns (fst (create_excel_style_dataframe sheet_items
                                     unlabelled_data)))).
    vm_compute. exact I.
  - discriminate.
Defined.

(** X20: when the data holds the month 2026-03, the column labelled
    発注予定 of that month shows the item's 使用量予測 figure, and the two
    other columns of the month are empty. *)
Theorem planning_month_shows_usage_forecast (master_items : list Item)
    (monthly_data : MonthlyData) :
  is_Some (monthly_data !! "2026-03"%string) ->
  let sheet := fst (create_excel_style_dataframe master_items monthly_data) in
  Forall2 (fun item row =>
             row !! ("2026-03", "発注予定")%string
             = Some (Figure (Py.payload_of monthly_data "2026-03" (item_id item)
                               !! K_USAGE_FORECAST))
             /\ row !! ("2026-03", " ")%string = Some (Figure None)
             /\ row !! ("2026-03", "  ")%string = Some (Figure None))
          (Py.sorted item_id master_items) (sheet_rows sheet).
Proof.
  intros Hsome. cbn zeta. unfold create_excel_style_dataframe. cbn zeta.
  rewrite sheet_header. cbn [fst sheet_rows].
  apply Forall2_fmap_r, Forall_Forall2_diag, list.Forall_forall.
  intros item _.
  assert (Hm : "2026-03"%string ∈ _ordered_months monthly_data).
  { apply ordered_months_member. split; [exact Hsome|left]. known_month. }
  repeat split.
  - rewrite (row_pass_cell _ _ _ _ "2026-03" "発注予定") ; [reflexivity|exact Hm|].
    rewrite planning_month_labels. apply list_elem_of_here.
  - rewrite (row_pass_cell _ _ _ _ "2026-03" "-"); [reflexivity|exact Hm|].
    rewrite planning_month_labels. apply list_elem_of_further, list_elem_of_here.
  - rewrite (row_pass_cell _ _ _ _ "2026-03" "-"); [reflexivity|exact Hm|].
    rewrite planning_month_labels.
    apply list_elem_of_further, list_elem_of_further, list_elem_of_here.
Qed.

Lemma planning_month_shows_usage_forecast_witness :
  exists row,
    sheet_rows (fst (create_excel_style_dataframe sheet_items planning_month_data)) !! 0%nat
    = Some row
    /\ row !! ("2026-03", "発注予定")%string = Some (Figure (Some (num 40))).
Proof.
  assert (Hsome : is_Some (planning_month_data !! "2026-03"%string))
    by (unfold planning_month_data; rewrite lookup_singleton_eq; eauto).
  pose proof (planning_month_shows_usage_forecast sheet_items planning_month_data Hsome)
    as Hall.
  cbn zeta in Hall.
  destruct (sheet_rows (fst (create_excel_style_dataframe sheet_items planning_month_data)))
    as [|row rows] eqn:E;
    [apply (f_equal length) in E; vm_compute in E; discriminate E|].
  exists row. split; [reflexivity|].
  apply Forall2_cons_inv_r in Hall as (item & items & [Hcell _] & _ & Hitems).
  rewrite Hcell.
  assert (Hitem : item_id item = "A"%string).
  { vm_compute in Hitems. injection Hitems as <- _. reflexivity. }
  rewrite Hitem. vm_compute. reflexivity.
Defined.

(** X21: with the [column_months] of the sheet, the item column is
    coloured #f7f7f7 and the three columns of a month share the colour of
    the month's category; the columns of a month without a category are
    white. *)
Theorem sheet_column_colors (master_items : list Item) (monthly_data : MonthlyData) :
  let result := create_excel_style_dataframe master_items monthly_data in
  column_color (snd result) ITEM_COLUMN ITEM_COLUMN = "#f7f7f7"%string
  /\ forall month column,
       month ∈ _ordered_months monthly_data -> column ∈ month_columns month ->
       column_color (snd result) ITEM_COLUMN column = month_color month
       /\ (month ∉ KNOWN_MONTHS ->
           column_color (snd result) ITEM_COLUMN column = "#ffffff"%string).
Proof.
  cbn zeta. unfold create_excel_style_dataframe. cbn zeta.
  rewrite sheet_header. cbn [snd]. split.
  - unfold column_color. rewrite bool_decide_eq_true_2; reflexivity.
  - intros month column Hm Hc.
    assert (Hcolor : column_color (header_pass (_ordered_months monthly_data)
                                     ([ITEM_COLUMN], ∅)).2 ITEM_COLUMN column
                     = month_color month).
    { unfold column_color.
      rewrite bool_decide_eq_false_2 by (apply month_columns_month in Hc; tauto).
      rewrite header_months, bool_decide_eq_true_2.
      - apply month_columns_month in Hc as [-> _]. cbn [default]. apply month_color_of.
      - apply elem_of_concat. exists (month_columns month). split; [exact Hc|].
        apply list_elem_of_fmap. exists month. split; [reflexivity|exact Hm]. }
    split; [exact Hcolor|]. intros Hunknown. rewrite Hcolor.
    unfold month_color, KNOWN_MONTHS in *.
    repeat case_bool_decide; try reflexivity; exfalso; apply Hunknown;
      cbn [fmap list_fmap fst MONTH_COLUMN_LABELS];
      repeat match goal with
             | H : _ ∈ _ |- _ => rewrite ?elem_of_cons, ?elem_of_nil in H
             end;
      rewrite ?elem_of_cons; intuition (subst; auto).
Qed.

Lemma sheet_column_colors_witness :
  column_color (snd (create_excel_style_dataframe sheet_items planning_month_data))
    ITEM_COLUMN ("2026-03", "発注予定")%string
  = "#fff8e1"%string.
Proof.
  destruct (sheet_column_colors sheet_items planning_month_data) as [_ H].
  destruct (H "2026-03" ("2026-03", "発注予定") planning_month_shown
              planning_column_shown)%string as [Hcolor _].
  rewrite Hcolor. reflexivity.
Defined.

End ExcelSheet.

(** ** Linear arithmetic on [Qc] *)

Lemma Qc_eq_Qeq (x y : Qc) : x = y <-> (this x == this y)%Q.
Proof. split; [intros ->; reflexivity|apply Qc_is_canon]. Qed.

Lemma Qcle_Q (x y : Qc) : x <= y <-> (this x <= this y)%Q.
Proof. reflexivity. Qed.

Lemma Qclt_Q (x y : Qc) : x < y <-> (this x < this y)%Q.
Proof. reflexivity. Qed.

Lemma this_Q2Qc (q : Q) : (this (Q2Qc q) == q)%Q.
Proof. apply Qred_correct. Qed.

Lemma this_Qc_of_Z (z : Z) : this (Qc_of_Z z) = inject_Z z.
Proof. reflexivity. Qed.

Ltac qc_lra :=
  rewrite ?Qc_eq_Qeq in *;
  unfold Qcle, Qclt, Qcdiv, Qcinv, Qcminus, Qcopp, Qcplus, Qcmult, Qc_of_Z, Q2Qc in *;
  cbn [this] in *;
  rewrite ?Qred_correct in *;
  unfold inject_Z in *;
  lra.

(** The same by rewriting only, for larger goals. *)
Lemma this_plus (x y : Qc) : (this (x + y) == this x + this y)%Q.
Proof. apply Qred_correct. Qed.

Lemma this_minus (x y : Qc) : (this (x - y) == this x - this y)%Q.
Proof.
  unfold Qcminus. rewrite this_plus. unfold Qcopp, Qminus. rewrite this_Q2Qc.
  reflexivity.
Qed.

Lemma this_mult (x y : Qc) : (this (x * y) == this x * this y)%Q.
Proof. apply Qred_correct. Qed.

Lemma this_zero : this 0 = 0%Q.
Proof. reflexivity. Qed.

Ltac qc_linear :=
  rewrite ?Qc_eq_Qeq, ?Qcle_Q, ?Qclt_Q in *;
  repeat first [ rewrite this_plus in * | rewrite this_minus in *
               | rewrite this_mult in * | rewrite this_zero in *
               | rewrite this_Qc_of_Z in * ];
  unfold inject_Z in *;
  lra.

Lemma max_ge_l (a b : Qc) : a <= Py.max a b.
Proof. unfold Py.max. case_bool_decide; qc_lra. Qed.

Lemma max_ge_r (a b : Qc) : b <= Py.max a b.
Proof. unfold Py.max. case_bool_decide; qc_lra. Qed.

(** ** The demo orders of [app.py] *)

Section DemoOrders.

Import order_planning app.

Lemma three_halves : num 3 / num 2 = Q2Qc (3 # 2).
Proof. apply Qc_is_canon. reflexivity. Qed.

Lemma max_absorb (a b : Qc) : b <= a -> Py.max a b = a.
Proof. intros H. unfold Py.max. case_bool_decide; [exfalso|reflexivity]. qc_lra. Qed.

Lemma max_zero (b : Qc) : 0 <= b -> Py.max 0 b = b.
Proof. intros H. unfold Py.max. case_bool_decide; [reflexivity|]. qc_lra. Qed.

Lemma min_between (a lo hi : Qc) :
  lo <= a -> lo <= hi -> lo <= Py.min a hi /\ Py.min a hi <= hi.
Proof. intros Ha Hhi. unfold Py.min. case_bool_decide; split; qc_lra. Qed.

Lemma round0_nonneg (x : Qc) : 0 <= x -> 0 <= Py.round0 x.
Proof.
  intros Hx. unfold Py.round0.
  assert (H : (0 <= Py.round_half_even x)%Z).
  { apply round_half_even_lower. qc_lra. }
  apply (proj1 (Z2Qc_inj_le _ _)) in H. qc_lra.
Qed.

Lemma sample_orders_lookup (monthly_data : MonthlyData)
    (next_month_forecast : gmap string Qc) (targets : list string)
    (master_items : list Item) (acc : gmap string Qc) (id : string) (P : Qc -> Prop) :
  (forall item, item ∈ master_items -> item_id item = id ->
                P (sample_order monthly_data next_month_forecast targets item)) ->
  (exists v, acc !! id = Some v /\ P v)
  \/ (exists item, item ∈ master_items /\ item_id item = id) ->
  exists v,
    fold_left (fun acc item =>
                 <[item_id item :=
                     sample_order monthly_data next_month_forecast targets item]> acc)
              master_items acc !! id = Some v
    /\ P v.
Proof.
  revert acc. induction master_items as [|item rest IH]; intros acc HP Hex.
  - destruct Hex as [Hacc|(item & Hin & _)]; [exact Hacc|inversion Hin].
  - cbn [fold_left]. apply IH.
    + intros it Hit. apply HP, list_elem_of_further, Hit.
    + destruct (decide (item_id item = id)) as [Hid|Hid].
      * left. eexists. split; [rewrite <- Hid; apply lookup_insert_eq|].
        apply HP; [apply list_elem_of_here|exact Hid].
      * destruct Hex as [(v & Hv & HPv)|(it & Hin & Hit)].
        -- left. exists v. split; [|exact HPv]. rewrite lookup_insert_ne; assumption.
        -- apply elem_of_cons in Hin as [->|Hin]; [contradiction|].
           right. exists it. split; assumption.
Qed.

Lemma demo_target_ids (id : string) : id ∈ DEMO_TARGETS -> id <> DW309_ID.
Proof.
  unfold DEMO_TARGETS. rewrite !elem_of_cons, elem_of_nil.
  intros [->|[->|[]]]; discriminate.
Qed.

Lemma discussion_targets_filter (item_ids : list string) :
  discussion_targets item_ids = filter (fun item_id => item_id ∈ item_ids) DEMO_TARGETS.
Proof. unfold discussion_targets. cbn [length Z.of_nat]. apply app_nil_r. Qed.

Lemma demo_target_member (item_ids : list string) (id : string) :
  id ∈ DEMO_TARGETS -> id ∈ item_ids -> id ∈ discussion_targets item_ids.
Proof.
  intros Ht Hi. rewrite discussion_targets_filter. apply list_elem_of_filter. tauto.
Qed.

(** X22: the discussion targets of the demo are those of the two ids
    DW-005 and DW-012 that are among the item ids; no other id is ever a
    target, whatever the item ids are. *)
Theorem demo_targets_are_fixed (item_ids : list string) (id : string) :
  id ∈ discussion_targets item_ids <-> id ∈ DEMO_TARGETS /\ id ∈ item_ids.
Proof.
  rewrite discussion_targets_filter, list_elem_of_filter. tauto.
Qed.

(** X23: for an item other than DW-309-Mol that is no discussion target,
    with the safety stock not above the max stock and a stock before the
    order not above the max stock, the demo order is not negative and
    either leaves the stock at the end of the month after next between the
    safety stock and the max stock, or is the capped order, one and a half
    times the average of the normal orders, rounded. *)
Theorem demo_order_keeps_band (monthly_data : MonthlyData)
    (next_month_forecast : gmap string Qc) (targets : list string) (item : Item) :
  let next_month_end := Py.get next_month_forecast (item_id item) 0 in
  let next_next_usage :=
    Py.get (Py.payload_of monthly_data "2026-03" (item_id item)) K_USAGE_FORECAST 0 in
  let avg := calculate_normal_order_average monthly_data (item_id item) in
  let order_qty := sample_order monthly_data next_month_forecast targets item in
  item_id item <> DW309_ID ->
  item_id item ∉ targets ->
  safety_stock item <= max_stock item ->
  next_month_end - next_next_usage <= max_stock item ->
  0 <= order_qty
  /\ (risk_level (calculate_future_inventory next_month_end order_qty next_next_usage)
        (safety_stock item) (max_stock item) = NORMAL
      \/ (0 < avg /\ order_qty = Py.round0 (avg * (num 3 / num 2)))).
Proof.
  cbn zeta. intros Hid Htarget Hband Hstock. unfold sample_order.
  rewrite (bool_decide_eq_false_2 _ Hid), (bool_decide_eq_false_2 _ Htarget).
  set (nme := Py.get next_month_forecast (item_id item) 0) in *.
  set (usage := Py.get (Py.payload_of monthly_data "2026-03" (item_id item))
                  K_USAGE_FORECAST 0) in *.
  set (avg := calculate_normal_order_average monthly_data (item_id item)).
  set (min_order := Py.max 0 (safety_stock item - nme + usage)).
  set (max_order := Py.max 0 (max_stock item - nme + usage)).
  set (first := Py.max 0 (Py.round0 ((safety_stock item + max_stock item) / num 2
                                      - nme + usage))).
  assert (Hmax : max_order = max_stock item - nme + usage).
  { apply max_zero. qc_lra. }
  assert (Hmin0 : 0 <= min_order) by apply max_ge_l.
  assert (Hmin : safety_stock item - nme + usage <= min_order) by apply max_ge_r.
  assert (Hle : min_order <= max_order).
  { rewrite Hmax. unfold min_order, Py.max. case_bool_decide; qc_lra. }
  destruct (min_between (Py.max first min_order) min_order max_order
              (max_ge_r _ _) Hle) as [Hlo Hhi].
  set (clamped := Py.min (Py.max first min_order) max_order) in *.
  clearbody clamped first min_order max_order nme usage avg.
  destruct (bool_decide (0 < avg) && bool_decide (avg * num 2 <= clamped)) eqn:Hcap.
  - apply andb_prop in Hcap as [Havg _]. apply bool_decide_eq_true_1 in Havg.
    assert (Hround : 0 <= Py.round0 (avg * (num 3 / num 2))).
    { apply round0_nonneg. rewrite three_halves. clear - Havg. qc_lra. }
    rewrite (max_zero _ Hround), (max_absorb _ _ Hround).
    split; [exact Hround|]. right. split; [exact Havg|reflexivity].
  - clear Hcap. assert (Hpos : 0 <= clamped) by qc_lra.
    rewrite (max_absorb _ _ Hpos). split; [exact Hpos|]. left.
    unfold risk_level, calculate_future_inventory.
    rewrite !bool_decide_eq_false_2; [reflexivity| |]; intros Hc; qc_lra.
Qed.

Lemma demo_order_keeps_band_witness :
  0 <= sample_order demo_data demo_forecast DEMO_TARGETS demo_item
  /\ (risk_level
        (calculate_future_inventory (num 150)
           (sample_order demo_data demo_forecast DEMO_TARGETS demo_item) (num 120))
        (num 100) (num 300) = NORMAL
      \/ (0 < calculate_normal_order_average demo_data "DW-001"
          /\ sample_order demo_data demo_forecast DEMO_TARGETS demo_item
             = Py.round0 (calculate_normal_order_average demo_data "DW-001"
                          * (num 3 / num 2)))).
Proof.
  apply (demo_order_keeps_band demo_data demo_forecast DEMO_TARGETS demo_item).
  - discriminate.
  - unfold DEMO_TARGETS. rewrite !elem_of_cons, elem_of_nil.
    intros [H|[H|[]]]; discriminate H.
  - vm_compute. discriminate.
  - vm_compute. discriminate.
Defined.

Example demo_order_sample :
  sample_order demo_data demo_forecast DEMO_TARGETS demo_item = num 170.
Proof. apply Qc_is_canon. vm_compute. reflexivity. Qed.

Lemma demo_lookup (orders sample : gmap string Qc) (item_ids : list string)
    (id : string) (v : Qc) :
  sample !! id = Some v -> id ∈ item_ids ->
  orders_after_demo orders sample item_ids !! id = Some v.
Proof.
  intros Hv Hin. unfold orders_after_demo. apply lookup_union_Some_l.
  apply map_lookup_filter_Some. split; [exact Hv|exact Hin].
Qed.

Lemma demo_lookup_other (orders sample : gmap string Qc) (item_ids : list string)
    (id : string) :
  id ∉ item_ids -> orders_after_demo orders sample item_ids !! id = orders !! id.
Proof.
  intros Hin. unfold orders_after_demo. apply lookup_union_r.
  apply map_lookup_filter_None. right. intros v _ Hc. exact (Hin Hc).
Qed.

(** X24: after the demo, an order of an id outside the normal items is
    what it was; and every normal item whose id is DW-005 or DW-012 has the
    order 0 and is on the discussion list built from the new orders, with a
    priority between 1 and 3, whatever the factor. *)
Theorem demo_targets_are_discussed (is_long_leadtime : Item -> bool)
    (master_items : list Item) (monthly_data : MonthlyData)
    (next_month_forecast orders : gmap string Qc) (name_map : gmap string string)
    (factor : Qc) :
  let normal_items := normal_items_only is_long_leadtime master_items in
  let new_orders :=
    demo is_long_leadtime master_items monthly_data next_month_forecast orders in
  let discussion :=
    build_discussion_rows monthly_data name_map
      (with_risk (build_order_dataframe normal_items monthly_data next_month_forecast
                    new_orders)) factor in
  (forall id, id ∉ item_ids_of normal_items -> new_orders !! id = orders !! id)
  /\ forall item,
       item ∈ normal_items -> item_id item ∈ DEMO_TARGETS ->
       new_orders !! item_id item = Some 0
       /\ exists entry,
            entry ∈ discussion
            /\ d_item_id entry = item_id item
            /\ d_order_qty entry = 0
            /\ (1 <= d_priority entry <= 3)%Z.
Proof.
  cbn zeta. split; [intros id Hid; apply demo_lookup_other, Hid|].
  intros item Hitem Htarget.
  set (normal_items := normal_items_only is_long_leadtime master_items) in *.
  set (item_ids := item_ids_of normal_items).
  assert (Hid : item_id item ∈ item_ids).
  { apply list_elem_of_fmap. exists item. split; [reflexivity|exact Hitem]. }
  assert (Hmaster : item ∈ master_items).
  { apply list_elem_of_filter in Hitem as [_ Hitem]. exact Hitem. }
  assert (Horder : demo is_long_leadtime master_items monthly_data next_month_forecast
                     orders !! item_id item = Some 0).
  { unfold demo. fold normal_items. fold item_ids.
    destruct (sample_orders_lookup monthly_data next_month_forecast
                (discussion_targets item_ids) master_items ∅ (item_id item)
                (fun v => v = 0)) as (v & Hv & ->).
    - intros it _ Hit. unfold sample_order.
      rewrite bool_decide_eq_false_2 by (rewrite Hit; apply demo_target_ids, Htarget).
      rewrite (bool_decide_eq_true_2 (item_id it ∈ discussion_targets item_ids)).
      + apply max_absorb. qc_lra.
      + rewrite Hit. apply demo_target_member; assumption.
    - right. exists item. split; [exact Hmaster|reflexivity].
    - apply demo_lookup; [exact Hv|exact Hid]. }
  split; [exact Horder|].
  set (new_orders := demo is_long_leadtime master_items monthly_data next_month_forecast
                       orders) in *.
  set (row := build_order_row monthly_data next_month_forecast new_orders item).
  set (r := {| r_row := row;
               r_risk := risk_level (o_next_next_end row) (o_safety_stock row)
                           (o_max_stock row) |}).
  assert (Hzero : o_order_qty (r_row r) = 0).
  { cbn [r r_row row build_order_row o_order_qty].
    rewrite (get_default _ _ _), Horder. reflexivity. }
  assert (Hflag : flagged monthly_data factor r = true)
    by apply zero_order_flagged, Hzero.
  rewrite discussion_rows_filter.
  exists (entry_of name_map r (fst (reasons_of monthly_data factor r))
            (snd (reasons_of monthly_data factor r))).
  split; [|split; [reflexivity|split; [exact Hzero|]]].
  - apply list_elem_of_fmap. exists r. split; [reflexivity|].
    apply list_elem_of_filter. split; [exact Hflag|].
    unfold with_risk, build_order_dataframe. rewrite <- list_fmap_compose.
    apply list_elem_of_fmap. exists item. split; [reflexivity|exact Hitem].
  - cbn [entry_of d_priority]. unfold reasons_of. apply priority_range.
    apply flagged_true, Hflag.
Qed.

Lemma demo_targets_are_discussed_witness :
  demo (fun _ => false) demo_items demo_data demo_forecast ∅ !! "DW-005"%string = Some 0
  /\ exists entry,
       entry ∈ build_discussion_rows demo_data ∅
                 (with_risk
                    (build_order_dataframe
                       (normal_items_only (fun _ => false) demo_items) demo_data
                       demo_forecast
                       (demo (fun _ => false) demo_items demo_data demo_forecast ∅)))
                 (num 1)
       /\ d_item_id entry = "DW-005"%string
       /\ d_order_qty entry = 0
       /\ (1 <= d_priority entry <= 3)%Z.
Proof.
  destruct (demo_targets_are_discussed (fun _ => false) demo_items demo_data demo_forecast
              ∅ ∅ (num 1)) as [_ H].
  apply (H demo_target).
  - apply list_elem_of_filter. split; [reflexivity|apply list_elem_of_here].
  - apply list_elem_of_here.
Defined.

End DemoOrders.

(** ** The adjustments of the generated data *)

Section GeneratedData.

Import generate_dummy_data.

Lemma record_set_record (monthly_data : MonthlyData) (month item_id : string)
    (fields : Fields) (month' item_id' : string) :
  record (set_record monthly_data month item_id fields) month' item_id'
  = if bool_decide (month = month' /\ item_id = item_id') then Some fields
    else record monthly_data month' item_id'.
Proof.
  unfold record, set_record. unfold Py.get.
  destruct (decide (month = month')) as [<-|Hm].
  - rewrite lookup_insert_eq.
    destruct (decide (item_id = item_id')) as [<-|Hi].
    + rewrite lookup_insert_eq, bool_decide_eq_true_2 by tauto. reflexivity.
    + rewrite lookup_insert_ne, bool_decide_eq_false_2 by tauto. reflexivity.
  - rewrite lookup_insert_ne, bool_decide_eq_false_2 by tauto. reflexivity.
Qed.

Lemma payload_of_record (monthly_data : MonthlyData) (month item_id : string) :
  Py.payload_of monthly_data month item_id = default ∅ (record monthly_data month item_id).
Proof. unfold Py.payload_of, record. apply get_default. Qed.

Lemma has_record_inv (monthly_data : MonthlyData) (month item_id : string) :
  has_record monthly_data month item_id ->
  exists fields,
    record monthly_data month item_id = Some fields
    /\ truthy (record monthly_data month item_id) = Some fields.
Proof.
  unfold has_record, truthy. destruct (record monthly_data month item_id) as [fields|].
  - case_bool_decide; intros [x Hx]; [discriminate Hx|]. exists fields. split; reflexivity.
  - intros [x Hx]. discriminate Hx.
Qed.

Lemma adjust_item_other (warning_item : string) (monthly_data : MonthlyData)
    (entry : string * Qc) (month item_id : string) :
  item_id <> fst entry ->
  record (adjust_item warning_item monthly_data entry) month item_id
  = record monthly_data month item_id.
Proof.
  intros Hne. destruct entry as [id s]. cbn [fst] in Hne. unfold adjust_item.
  destruct (truthy (record monthly_data "2026-01" id)); [|reflexivity].
  destruct (truthy (record monthly_data "2026-02" id)); [|reflexivity].
  repeat case_bool_decide; try reflexivity;
    rewrite record_set_record, bool_decide_eq_false_2; try reflexivity;
    intros [_ Hsame]; apply Hne; symmetry; exact Hsame.
Qed.

Lemma adjust_fold_other (warning_item : string) (entries : list (string * Qc))
    (monthly_data : MonthlyData) (month item_id : string) :
  item_id ∉ fst <$> entries ->
  record (fold_left (adjust_item warning_item) entries monthly_data) month item_id
  = record monthly_data month item_id.
Proof.
  revert monthly_data. induction entries as [|e rest IH]; intros monthly_data Hin;
    [reflexivity|].
  rewrite fmap_cons, not_elem_of_cons in Hin. destruct Hin as [Hne Hin].
  cbn [fold_left]. rewrite IH by exact Hin. apply adjust_item_other, Hne.
Qed.

Lemma generated_ends_ext (monthly_data monthly_data' : MonthlyData) (item_id : string) :
  (forall month, record monthly_data' month item_id = record monthly_data month item_id) ->
  generated_month_end monthly_data' item_id = generated_month_end monthly_data item_id
  /\ generated_next_month_end monthly_data' item_id
     = generated_next_month_end monthly_data item_id
  /\ generated_third_month_end monthly_data' item_id
     = generated_third_month_end monthly_data item_id.
Proof.
  intros H. unfold generated_third_month_end, generated_next_month_end,
    generated_month_end. rewrite !payload_of_record, !H. repeat split; reflexivity.
Qed.

Lemma has_record_ext (monthly_data monthly_data' : MonthlyData) (month item_id : string) :
  record monthly_data' month item_id = record monthly_data month item_id ->
  has_record monthly_data' month item_id <-> has_record monthly_data month item_id.
Proof. unfold has_record. intros ->. reflexivity. Qed.

Lemma get_insert_eq (d : Fields) (k : string) (v dflt : Qc) :
  Py.get (<[k := v]> d) k dflt = v.
Proof. unfold Py.get. rewrite lookup_insert_eq. reflexivity. Qed.

Lemma get_insert_ne (d : Fields) (k k' : string) (v dflt : Qc) :
  k <> k' -> Py.get (<[k := v]> d) k' dflt = Py.get d k' dflt.
Proof. intros H. unfold Py.get. rewrite lookup_insert_ne by exact H. reflexivity. Qed.

Lemma truthy_insert (d : Fields) (k : string) (v : Qc) :
  truthy (Some (<[k := v]> d)) = Some (<[k := v]> d).
Proof.
  unfold truthy. rewrite bool_decide_eq_false_2; [reflexivity|]. apply insert_non_empty.
Qed.

Lemma generated_month_end_of (monthly_data : MonthlyData) (item_id : string)
    (current_data : Fields) :
  record monthly_data "2026-01" item_id = Some current_data ->
  generated_month_end monthly_data item_id
  = Py.get current_data K_CURRENT_STOCK 0 + Py.get current_data K_IN_TRANSIT 0
    - Py.get current_data K_USAGE_FORECAST 0.
Proof.
  intros H. unfold generated_month_end. rewrite payload_of_record, H. reflexivity.
Qed.

Lemma generated_next_month_end_of (monthly_data : MonthlyData) (item_id : string)
    (next_data : Fields) :
  record monthly_data "2026-02" item_id = Some next_data ->
  generated_next_month_end monthly_data item_id
  = generated_month_end monthly_data item_id
    + Py.get next_data K_ARRANGED 0 - Py.get next_data K_USAGE_FORECAST 0.
Proof.
  intros H. unfold generated_next_month_end. rewrite payload_of_record, H. reflexivity.
Qed.

Lemma generated_third_month_end_of (monthly_data : MonthlyData) (item_id : string)
    (third_data : Fields) :
  record monthly_data "2026-03" item_id = Some third_data ->
  generated_third_month_end monthly_data item_id
  = generated_next_month_end monthly_data item_id
    + Py.get third_data K_INCOMING 0 - Py.get third_data K_USAGE_FORECAST 0.
Proof.
  intros H. unfold generated_third_month_end. rewrite payload_of_record, H. reflexivity.
Qed.

Lemma adjust_item_self (warning_item : string) (monthly_data : MonthlyData)
    (item_id : string) (safety_stock : Qc) :
  has_record monthly_data "2026-01" item_id ->
  has_record monthly_data "2026-02" item_id ->
  let monthly_data' := adjust_item warning_item monthly_data (item_id, safety_stock) in
  adjusted warning_item monthly_data monthly_data' item_id safety_stock
  /\ records_kept monthly_data monthly_data' item_id.
Proof.
  intros Hcur Hnext. cbn zeta.
  pose proof Hnext as Hnext'.
  apply has_record_inv in Hcur as (current_data & Ecur & Tcur).
  apply has_record_inv in Hnext as (next_data & Enext & Tnext).
  unfold adjust_item. rewrite Tcur, Tnext.
  pose proof (generated_month_end_of _ _ _ Ecur) as Hend.
  pose proof (generated_next_month_end_of _ _ _ Enext) as Hnme.
  set (month_end := Py.get current_data K_CURRENT_STOCK 0
                    + Py.get current_data K_IN_TRANSIT 0
                    - Py.get current_data K_USAGE_FORECAST 0) in *.
  set (prepared := Py.get next_data K_ARRANGED 0) in *.
  set (usage_next := Py.get next_data K_USAGE_FORECAST 0) in *.
  assert (Hset : forall fields,
             let monthly_data' := set_record monthly_data "2026-02" item_id fields in
             record monthly_data' "2026-01" item_id = Some current_data
             /\ record monthly_data' "2026-02" item_id = Some fields
             /\ record monthly_data' "2026-03" item_id
                = record monthly_data "2026-03" item_id).
  { intros fields. cbn zeta. rewrite !record_set_record.
    rewrite (bool_decide_eq_true_2 ("2026-02"%string = "2026-02"%string /\ item_id = item_id))
      by tauto.
    rewrite !bool_decide_eq_false_2 by (intros [Hm _]; discriminate Hm).
    rewrite Ecur. repeat split; reflexivity. }
  repeat case_bool_decide.
  - destruct (Hset (<[K_USAGE_FORECAST := usage_next
                        + (month_end + prepared - usage_next - (safety_stock - num 5)
                           + num 1)]> next_data)) as (E1 & E2 & E3).
    split; [|split; [rewrite E1, Ecur; reflexivity|split; [exact E3|]]].
    + unfold adjusted.
      rewrite (generated_next_month_end_of _ _ _ E2), !(generated_month_end_of _ _ _ E1).
      rewrite get_insert_eq, get_insert_ne by discriminate. fold month_end prepared.
      rewrite Hend. split; [reflexivity|]. split; [intros Hne; contradiction|].
      intros _. clearbody month_end prepared usage_next. clear - safety_stock. qc_lra.
    + unfold has_record. rewrite E2, truthy_insert. eauto.
  - split; [|split; [reflexivity|split; [reflexivity|exact Hnext']]].
    unfold adjusted. rewrite Hnme, Hend. split; [reflexivity|].
    split; [intros Hne; contradiction|]. intros _.
    clearbody month_end prepared usage_next. qc_lra.
  - destruct (Hset (<[K_ARRANGED := prepared
                        + (safety_stock - (month_end + prepared - usage_next) + num 5)]>
                      next_data)) as (E1 & E2 & E3).
    split; [|split; [rewrite E1, Ecur; reflexivity|split; [exact E3|]]].
    + unfold adjusted.
      rewrite (generated_next_month_end_of _ _ _ E2), !(generated_month_end_of _ _ _ E1).
      rewrite get_insert_eq, get_insert_ne by discriminate. fold month_end usage_next.
      rewrite Hend. split; [reflexivity|]. split; [|intros Heq; contradiction].
      intros _. clearbody month_end prepared usage_next. clear - safety_stock. qc_lra.
    + unfold has_record. rewrite E2, truthy_insert. eauto.
  - split; [|split; [reflexivity|split; [reflexivity|exact Hnext']]].
    unfold adjusted. rewrite Hnme, Hend. split; [reflexivity|].
    split; [|intros Heq; contradiction]. intros _.
    clearbody month_end prepared usage_next. qc_lra.
Qed.

Lemma adjusted_ext (warning_item : string) (md0 md1 md2 : MonthlyData)
    (item_id : string) (safety_stock : Qc) :
  (forall month, record md2 month item_id = record md1 month item_id) ->
  adjusted warning_item md0 md1 item_id safety_stock ->
  adjusted warning_item md0 md2 item_id safety_stock.
Proof.
  intros Hsame. destruct (generated_ends_ext _ _ _ Hsame) as (E1 & E2 & _).
  unfold adjusted. rewrite E1, E2. tauto.
Qed.

Lemma adjusted_from (warning_item : string) (md0 md1 md2 : MonthlyData)
    (item_id : string) (safety_stock : Qc) :
  (forall month, record md1 month item_id = record md0 month item_id) ->
  adjusted warning_item md1 md2 item_id safety_stock ->
  adjusted warning_item md0 md2 item_id safety_stock.
Proof.
  intros Hsame. destruct (generated_ends_ext _ _ _ Hsame) as (E1 & _ & _).
  unfold adjusted. rewrite E1. tauto.
Qed.

Lemma adjust_fold_entry (warning_item : string) (entries : list (string * Qc))
    (monthly_data : MonthlyData) (item_id : string) (safety_stock : Qc) :
  NoDup (fst <$> entries) ->
  (item_id, safety_stock) ∈ entries ->
  has_record monthly_data "2026-01" item_id ->
  has_record monthly_data "2026-02" item_id ->
  let monthly_data' := fold_left (adjust_item warning_item) entries monthly_data in
  adjusted warning_item monthly_data monthly_data' item_id safety_stock
  /\ records_kept monthly_data monthly_data' item_id.
Proof.
  cbn zeta. revert monthly_data.
  induction entries as [|e rest IH]; intros monthly_data Hnd Hin Hcur Hnext.
  - inversion Hin.
  - rewrite fmap_cons in Hnd. apply NoDup_cons in Hnd as [Hfresh Hnd].
    cbn [fold_left]. apply elem_of_cons in Hin as [<-|Hin].
    + cbn [fst] in Hfresh.
      destruct (adjust_item_self warning_item monthly_data item_id safety_stock Hcur Hnext)
        as [Hadj (K1 & K3 & K2)].
      pose proof (fun month =>
                    adjust_fold_other warning_item rest
                      (adjust_item warning_item monthly_data (item_id, safety_stock))
                      month item_id Hfresh) as Hsame.
      split; [exact (adjusted_ext _ _ _ _ _ _ Hsame Hadj)|].
      unfold records_kept. rewrite !Hsame. split; [exact K1|]. split; [exact K3|].
      apply (has_record_ext _ _ _ _ (Hsame _)), K2.
    + assert (Hne : item_id <> fst e).
      { intros ->. apply Hfresh, list_elem_of_fmap. exists (fst e, safety_stock).
        split; [reflexivity|exact Hin]. }
      pose proof (fun month =>
                    adjust_item_other warning_item monthly_data e month item_id Hne)
        as Hsame.
      destruct (IH (adjust_item warning_item monthly_data e) Hnd Hin) as [Hadj (K1 & K3 & K2)].
      * apply (has_record_ext _ _ _ _ (Hsame _)), Hcur.
      * apply (has_record_ext _ _ _ _ (Hsame _)), Hnext.
      * split; [exact (adjusted_from _ _ _ _ _ _ Hsame Hadj)|].
        unfold records_kept. rewrite K1, K3, !Hsame. repeat split. exact K2.
Qed.

Lemma warning_item_exists (safety_by_item : list (string * Qc)) (target : string) :
  safety_by_item <> [] ->
  exists warning_item,
    warning_item_of safety_by_item target = Some warning_item
    /\ warning_item ∈ fst <$> safety_by_item
    /\ (target ∈ fst <$> safety_by_item -> warning_item = target).
Proof.
  intros Hne. unfold warning_item_of. case_bool_decide as Hin.
  - exists target. split; [reflexivity|]. split; [exact Hin|]. intros _. reflexivity.
  - destruct safety_by_item as [|[id s] rest]; [contradiction|].
    exists id. rewrite fmap_cons. cbn [head fst].
    split; [reflexivity|]. split; [apply list_elem_of_here|]. intros H. contradiction.
Qed.


Lemma has_record_intro (monthly_data : MonthlyData) (month item_id : string)
    (fields : Fields) (key : string) (value : Qc) :
  record monthly_data month item_id = Some fields ->
  fields !! key = Some value ->
  has_record monthly_data month item_id.
Proof.
  intros Hr Hk. unfold has_record. rewrite Hr. unfold truthy.
  rewrite bool_decide_eq_false_2; [eauto|].
  intros ->. rewrite lookup_empty in Hk. discriminate Hk.
Qed.

Lemma raw_records (month item_id : string) :
  month ∈ ["2026-01"; "2026-02"]%string -> item_id ∈ ["DW-001"; "DW-005"]%string ->
  has_record raw_data month item_id.
Proof.
  rewrite !elem_of_cons, !elem_of_nil.
  intros [->|[->|[]]] [->|[->|[]]].
  - apply (has_record_intro _ _ _ (raw_record 30 0) K_CURRENT_STOCK (num 30)); reflexivity.
  - apply (has_record_intro _ _ _ (raw_record 90 0) K_CURRENT_STOCK (num 90)); reflexivity.
  - apply (has_record_intro _ _ _ (raw_record 0 10) K_CURRENT_STOCK (num 0)); reflexivity.
  - apply (has_record_intro _ _ _ (raw_record 0 10) K_CURRENT_STOCK (num 0)); reflexivity.
Qed.


Lemma add_sub_cancel (x t : Qc) : x + (t - x) = t.
Proof. ring. Qed.

Lemma set_three_records (monthly_data : MonthlyData) (item_id : string)
    (current_data next_data third_data : Fields) :
  let monthly_data' :=
    set_record
      (set_record (set_record monthly_data "2026-01" item_id current_data)
         "2026-02" item_id next_data)
      "2026-03" item_id third_data in
  record monthly_data' "2026-01" item_id = Some current_data
  /\ record monthly_data' "2026-02" item_id = Some next_data
  /\ record monthly_data' "2026-03" item_id = Some third_data
  /\ forall month item_id',
       item_id' <> item_id ->
       record monthly_data' month item_id' = record monthly_data month item_id'.
Proof.
  cbn zeta. repeat split.
  - rewrite !record_set_record.
    rewrite !bool_decide_eq_false_2 by (intros [Hm _]; discriminate Hm).
    rewrite bool_decide_eq_true_2 by tauto. reflexivity.
  - rewrite !record_set_record.
    rewrite bool_decide_eq_false_2 by (intros [Hm _]; discriminate Hm).
    rewrite bool_decide_eq_true_2 by tauto. reflexivity.
  - rewrite !record_set_record. rewrite bool_decide_eq_true_2 by tauto. reflexivity.
  - intros month item_id' Hne. rewrite !record_set_record.
    rewrite !bool_decide_eq_false_2; [reflexivity| | |]; intros [_ Hsame];
      apply Hne; symmetry; exact Hsame.
Qed.

Lemma stabilize_other (monthly_data : MonthlyData)
    (safety_by_item max_by_item : gmap string Qc) (item_id month item_id' : string) :
  item_id' <> item_id ->
  record (_stabilize_dw309_start monthly_data safety_by_item max_by_item item_id)
    month item_id'
  = record monthly_data month item_id'.
Proof.
  intros Hne. unfold _stabilize_dw309_start.
  destruct (safety_by_item !! item_id) as [safety_stock|]; [|reflexivity].
  destruct (truthy (record monthly_data "2026-01" item_id)); [|reflexivity].
  destruct (truthy (record monthly_data "2026-02" item_id)); [|reflexivity].
  destruct (truthy (record monthly_data "2026-03" item_id)); [|reflexivity].
  cbv zeta.
  repeat (case_bool_decide; cbv beta iota);
    match goal with
    | |- context [set_record (set_record (set_record _ _ _ ?c) _ _ ?n) _ _ ?t] =>
        pose proof (set_three_records monthly_data item_id c n t) as HR
    end;
    cbv zeta in HR; destruct HR as (_ & _ & _ & Rother); apply Rother, Hne.
Qed.

Lemma stabilize_self (monthly_data : MonthlyData)
    (safety_by_item max_by_item : gmap string Qc) (item_id : string)
    (safety_stock : Qc) :
  safety_by_item !! item_id = Some safety_stock ->
  has_record monthly_data "2026-01" item_id ->
  has_record monthly_data "2026-02" item_id ->
  has_record monthly_data "2026-03" item_id ->
  let monthly_data' :=
    _stabilize_dw309_start monthly_data safety_by_item max_by_item item_id in
  safety_stock * num 2
  <= Py.get (Py.payload_of monthly_data' "2026-01" item_id) K_CURRENT_STOCK 0
  /\ safety_stock + num 10 <= generated_month_end monthly_data' item_id
  /\ safety_stock + num 10 <= generated_next_month_end monthly_data' item_id
  /\ safety_stock + num 10 <= generated_third_month_end monthly_data' item_id.
Proof.
  intros Hsafety Hcur Hnext Hthird. cbn zeta.
  apply has_record_inv in Hcur as (current_data & Ecur & Tcur).
  apply has_record_inv in Hnext as (next_data & Enext & Tnext).
  apply has_record_inv in Hthird as (third_data & Ethird & Tthird).
  unfold _stabilize_dw309_start. rewrite Hsafety, Tcur, Tnext, Tthird. cbv zeta.
  rewrite !get_insert_ne by discriminate.
  pose proof (max_ge_r (Py.get current_data K_CURRENT_STOCK 0) (safety_stock * num 2))
    as Hstock.
  set (current_stock := Py.max (Py.get current_data K_CURRENT_STOCK 0)
                          (safety_stock * num 2)) in *.
  set (incoming := Py.get current_data K_IN_TRANSIT 0).
  set (usage_current := Py.get current_data K_USAGE_FORECAST 0).
  set (prepared := Py.get next_data K_ARRANGED 0).
  set (usage_next := Py.get next_data K_USAGE_FORECAST 0).
  set (incoming_third := Py.get third_data K_INCOMING 0).
  set (usage_third := Py.get third_data K_USAGE_FORECAST 0).
  clearbody current_stock.
  repeat (case_bool_decide; cbv beta iota; rewrite ?add_sub_cancel);
    match goal with
    | |- context [set_record (set_record (set_record _ _ _ ?c) _ _ ?n) _ _ ?t] =>
        pose proof (set_three_records monthly_data item_id c n t) as HR
    end;
    cbv zeta in HR; destruct HR as (R1 & R2 & R3 & _);
    rewrite (generated_third_month_end_of _ _ _ R3),
      !(generated_next_month_end_of _ _ _ R2), !(generated_month_end_of _ _ _ R1),
      payload_of_record, R1;
    cbn [default from_option id];
    repeat (rewrite get_insert_eq || rewrite get_insert_ne by discriminate);
    fold incoming usage_current prepared usage_next incoming_third usage_third;
    clearbody incoming usage_current prepared usage_next incoming_third usage_third;
    repeat split; clear - Hstock H H0 H1; qc_linear.
Qed.

Lemma stabilize_skips (monthly_data : MonthlyData)
    (safety_by_item max_by_item : gmap string Qc) (item_id : string) :
  safety_by_item !! item_id = None
  \/ ~ has_record monthly_data "2026-01" item_id
  \/ ~ has_record monthly_data "2026-02" item_id
  \/ ~ has_record monthly_data "2026-03" item_id ->
  _stabilize_dw309_start monthly_data safety_by_item max_by_item item_id = monthly_data.
Proof.
  unfold has_record, _stabilize_dw309_start.
  destruct (safety_by_item !! item_id) as [safety_stock|]; [|reflexivity].
  destruct (truthy (record monthly_data "2026-01" item_id)); [|reflexivity].
  destruct (truthy (record monthly_data "2026-02" item_id)); [|reflexivity].
  destruct (truthy (record monthly_data "2026-03" item_id)); [|reflexivity].
  intros [H|[H|[H|H]]]; [discriminate H|exfalso; apply H; eauto..].
Qed.

(** X26: for an item of [safety_by_item] with a non-empty record in
    2026-01, 2026-02 and 2026-03, the data after [_stabilize_dw309_start]
    has a current stock of at least twice the safety stock, and the three
    stocks that the generator computes for the ends of 2026-01, 2026-02
    and 2026-03 are each at least the safety stock plus 10; the records of
    the other items are as before. *)
Theorem stabilized_start (monthly_data : MonthlyData)
    (safety_by_item max_by_item : gmap string Qc) (item_id : string)
    (safety_stock : Qc) :
  safety_by_item !! item_id = Some safety_stock ->
  has_record monthly_data "2026-01" item_id ->
  has_record monthly_data "2026-02" item_id ->
  has_record monthly_data "2026-03" item_id ->
  let monthly_data' :=
    _stabilize_dw309_start monthly_data safety_by_item max_by_item item_id in
  safety_stock * num 2
  <= Py.get (Py.payload_of monthly_data' "2026-01" item_id) K_CURRENT_STOCK 0
  /\ safety_stock + num 10 <= generated_month_end monthly_data' item_id
  /\ safety_stock + num 10 <= generated_next_month_end monthly_data' item_id
  /\ safety_stock + num 10 <= generated_third_month_end monthly_data' item_id
  /\ forall month item_id',
       item_id' <> item_id ->
       record monthly_data' month item_id' = record monthly_data month item_id'.
Proof.
  intros Hsafety Hcur Hnext Hthird. cbn zeta.
  destruct (stabilize_self monthly_data safety_by_item max_by_item item_id safety_stock
              Hsafety Hcur Hnext Hthird) as (H1 & H2 & H3 & H4).
  repeat split; try assumption.
  intros month item_id' Hne. apply stabilize_other, Hne.
Qed.

Lemma stabilized_start_witness :
  num 50 * num 2
  <= Py.get (Py.payload_of
               (_stabilize_dw309_start raw_data {[ "DW-001"%string := num 50 ]} ∅ "DW-001")
               "2026-01" "DW-001") K_CURRENT_STOCK 0
  /\ num 50 + num 10
     <= generated_third_month_end
          (_stabilize_dw309_start raw_data {[ "DW-001"%string := num 50 ]} ∅ "DW-001")
          "DW-001".
Proof.
  destruct (stabilized_start raw_data {[ "DW-001"%string := num 50 ]} ∅ "DW-001" (num 50))
    as (H1 & _ & _ & H3 & _).
  - apply lookup_singleton_eq.
  - apply raw_records; apply list_elem_of_here.
  - apply raw_records; [apply list_elem_of_further|]; apply list_elem_of_here.
  - apply (has_record_intro _ _ _ (raw_record 0 0) K_CURRENT_STOCK (num 0)); reflexivity.
  - split; [exact H1|exact H3].
Defined.

(** X27: [_adjust_next_month_shortages] followed by
    [_stabilize_dw309_start], as [generate_monthly_data] runs them: in the
    resulting data every item with a non-empty record in 2026-01 and in
    2026-02, other than the warning item, ends next month with at least
    its safety stock; the warning item, when it is not the stabilized
    item, ends next month more than 5 below its safety stock. *)
Theorem generated_data_meets_safety_stock (monthly_data : MonthlyData)
    (safety_by_item : list (string * Qc)) (max_by_item : gmap string Qc)
    (target stabilized : string) :
  NoDup (fst <$> safety_by_item) ->
  safety_by_item <> [] ->
  exists warning_item monthly_data',
    _adjust_next_month_shortages monthly_data safety_by_item target = Some monthly_data'
    /\ (target ∈ fst <$> safety_by_item -> warning_item = target)
    /\ let monthly_data'' :=
         _stabilize_dw309_start monthly_data' (list_to_map safety_by_item) max_by_item
           stabilized in
       forall item_id safety_stock,
         (item_id, safety_stock) ∈ safety_by_item ->
         has_record monthly_data "2026-01" item_id ->
         has_record monthly_data "2026-02" item_id ->
         (item_id <> warning_item ->
          safety_stock <= generated_next_month_end monthly_data'' item_id)
         /\ (item_id = warning_item -> item_id <> stabilized ->
             generated_next_month_end monthly_data'' item_id < safety_stock - num 5).
Proof.
  intros Hnd Hne.
  destruct (warning_item_exists safety_by_item target Hne) as (w & Hw & _ & Htarget).
  exists w, (fold_left (adjust_item w) safety_by_item monthly_data).
  unfold _adjust_next_month_shortages. rewrite Hw. split; [reflexivity|].
  split; [exact Htarget|]. cbn zeta.
  set (monthly_data' := fold_left (adjust_item w) safety_by_item monthly_data).
  intros item_id safety_stock Hitem Hcur Hnext.
  destruct (adjust_fold_entry w safety_by_item monthly_data item_id safety_stock
              Hnd Hitem Hcur Hnext) as [(_ & Hge & Hlt) (K1 & K3 & K2)].
  fold monthly_data' in Hge, Hlt, K1, K2, K3.
  destruct (decide (item_id = stabilized)) as [<-|Hother].
  - split; [|intros _ Hc; contradiction]. intros Hnw.
    destruct (truthy (record monthly_data' "2026-03" item_id)) as [third_data|] eqn:Ethird.
    + destruct (stabilize_self monthly_data' (list_to_map safety_by_item) max_by_item
                  item_id safety_stock) as (_ & _ & Hnext' & _).
      * apply elem_of_list_to_map_1; assumption.
      * apply (has_record_ext _ _ _ _ K1), Hcur.
      * exact K2.
      * unfold has_record. rewrite Ethird. eauto.
      * clear - Hnext'. qc_linear.
    + rewrite stabilize_skips; [exact (Hge Hnw)|].
      right. right. right. unfold has_record. rewrite Ethird. intros [x Hx].
      discriminate Hx.
  - pose proof (fun month =>
                  stabilize_other monthly_data' (list_to_map safety_by_item) max_by_item
                    stabilized month item_id Hother) as Hsame.
    destruct (generated_ends_ext _ _ _ Hsame) as (_ & -> & _).
    split; [exact Hge|]. intros Hwarn _. exact (Hlt Hwarn).
Qed.

Lemma generated_data_meets_safety_stock_witness :
  exists monthly_data',
    _adjust_next_month_shortages raw_data raw_safety "DW-005" = Some monthly_data'
    /\ num 50
       <= generated_next_month_end
            (_stabilize_dw309_start monthly_data' (list_to_map raw_safety) ∅ "DW-001")
            "DW-001"
    /\ generated_next_month_end
         (_stabilize_dw309_start monthly_data' (list_to_map raw_safety) ∅ "DW-001")
         "DW-005"
       < num 40 - num 5.
Proof.
  assert (Hnd : NoDup (fst <$> raw_safety))
    by (apply (bool_decide_unpack (NoDup (fst <$> raw_safety))); vm_compute; exact I).
  assert (Hne : raw_safety <> []) by discriminate.
  destruct (generated_data_meets_safety_stock raw_data raw_safety ∅ "DW-005" "DW-001"
              Hnd Hne) as (w & monthly_data' & Hrun & Ht & Hall).
  cbn zeta in Hall.
  assert (Hw : w = "DW-005"%string).
  { apply Ht. apply list_elem_of_further, list_elem_of_here. }
  subst w. exists monthly_data'. split; [exact Hrun|]. split.
  - destruct (Hall "DW-001" (num 50))%string as [Hge _].
    + apply list_elem_of_here.
    + apply raw_records; [apply list_elem_of_here|apply list_elem_of_here].
    + apply raw_records;
        [apply list_elem_of_further, list_elem_of_here|apply list_elem_of_here].
    + apply Hge. discriminate.
  - destruct (Hall "DW-005" (num 40))%string as [_ Hlt].
    + apply list_elem_of_further, list_elem_of_here.
    + apply raw_records;
        [apply list_elem_of_here|apply list_elem_of_further, list_elem_of_here].
    + apply raw_records;
        [apply list_elem_of_further, list_elem_of_here
        |apply list_elem_of_further, list_elem_of_here].
    + apply Hlt; [reflexivity|discriminate].
Defined.

End GeneratedData.


(** * The projection on Python numbers *)

(** ** The integer case: the exact reading is what Python computes *)

Section IntegerData.

Import PyNum dw309_binary64.

Variable monthly_data : IntData.
Variable item : string.

Lemma payload_exact (month : string) :
  Py.payload_of (exact_data monthly_data) month item
  = Qc_of_Z <$> payload_of monthly_data month item.
Proof.
  unfold Py.payload_of, payload_of, exact_data, Py.get. rewrite lookup_fmap.
  destruct (monthly_data !! month) as [p|]; cbn [fmap option_fmap option_map].
  - rewrite lookup_fmap. destruct (p !! item); cbn [fmap option_fmap option_map].
    + reflexivity.
    + symmetry. apply fmap_empty.
  - rewrite !lookup_empty. symmetry. apply fmap_empty.
Qed.

Lemma collect_exact (key : string) (months : list string) (candidates : list Z) :
  dw309.collect (exact_data monthly_data) item key months (Qc_of_Z <$> candidates)
  = Qc_of_Z <$> collect monthly_data item key months candidates.
Proof.
  revert candidates. induction months as [|m rest IH]; intros candidates; [reflexivity|].
  cbn [dw309.collect collect]. rewrite payload_exact, lookup_fmap.
  destruct (payload_of monthly_data m item !! key) as [v|]; cbn [fmap option_fmap option_map].
  - rewrite <- IH, fmap_app. reflexivity.
  - apply IH.
Qed.

Lemma truediv_float (a b : Z) (x : Z) : truediv a b <> Some (Int x).
Proof.
  unfold truediv. case_bool_decide; [discriminate|].
  destruct (SFdiv prec emax (exact_float a) (exact_float b)); discriminate.
Qed.

Lemma average_exact_zero (a : Z) :
  calculate_usage_average monthly_data item = Some (Int a) ->
  a = 0%Z /\ dw309.calculate_usage_average (exact_data monthly_data) item = 0.
Proof.
  unfold calculate_usage_average, dw309.calculate_usage_average.
  change (@nil Qc) with (Qc_of_Z <$> @nil Z). rewrite collect_exact.
  destruct (collect monthly_data item K_USAGE_FORECAST dw309.FORECAST_WINDOW [])
    as [|c cs].
  - cbn [fmap list_fmap]. change (@nil Qc) with (Qc_of_Z <$> @nil Z).
    rewrite collect_exact.
    destruct (collect monthly_data item K_OUTGOING dw309.HISTORY_WINDOW []) as [|c cs].
    + intros [= <-]. split; reflexivity.
    + intros H. exfalso. exact (truediv_float _ _ _ H).
  - intros H. exfalso. exact (truediv_float _ _ _ H).
Qed.

Lemma get_exact (payload : IntFields) (key : string) :
  Py.get (Qc_of_Z <$> payload) key 0 = num (Py.get payload key 0%Z).
Proof.
  unfold Py.get. rewrite lookup_fmap.
  destruct (payload !! key); cbn; [reflexivity|]. symmetry. apply Z2Qc_inj_0.
Qed.

Lemma figures_exact (payload : IntFields) (month : string) (usage_avg : number)
    (exact_avg : Qc) :
  dw309.figures (Qc_of_Z <$> payload) month exact_avg
  = (num (fst (figures payload month usage_avg)),
     match payload !! K_USAGE_FORECAST with
     | Some usage => num usage
     | None => exact_avg
     end)
  /\ snd (figures payload month usage_avg) = usage_or payload usage_avg.
Proof.
  assert (Husage : Py.get (Qc_of_Z <$> payload) K_USAGE_FORECAST exact_avg
                   = match payload !! K_USAGE_FORECAST with
                     | Some usage => num usage
                     | None => exact_avg
                     end).
  { unfold Py.get. rewrite lookup_fmap.
    destruct (payload !! K_USAGE_FORECAST); reflexivity. }
  unfold dw309.figures, figures.
  repeat case_bool_decide; cbn [fst snd]; rewrite get_exact, Husage; split; reflexivity.
Qed.

Lemma status_exact (month_end safety_stock max_stock : Z) :
  status_of (Int month_end) safety_stock max_stock
  = dw309.status_of (num month_end) (num safety_stock) (num max_stock).
Proof.
  unfold status_of, dw309.status_of, lt_int, gt_int.
  rewrite <- Z2Qc_inj_0.
  rewrite (bool_decide_ext _ _ (Z2Qc_inj_lt month_end 0)).
  rewrite (bool_decide_ext _ _ (Z2Qc_inj_lt month_end safety_stock)).
  rewrite (bool_decide_ext _ _ (Z2Qc_inj_lt max_stock month_end)).
  reflexivity.
Qed.

Section Loop.

Variable usage_avg : number.
Variable exact_avg : Qc.
Variables safety_stock max_stock order_qty : Z.
Variable n : nat.

Lemma loop_exact (months : list string) (index : nat) (month_start : Z) :
  Forall (fun month =>
            is_Some (payload_of monthly_data month item !! K_USAGE_FORECAST)) months
  \/ (usage_avg = Int 0 /\ exact_avg = 0) ->
  exists trace final,
    loop monthly_data item usage_avg safety_stock max_stock order_qty n index months
      (Int month_start)
    = Some (trace, Int final)
    /\ dw309.loop (exact_data monthly_data) item exact_avg (num safety_stock)
         (num max_stock) (num order_qty) n index months (num month_start)
       = (exact_step <$> trace, num final).
Proof.
  revert index month_start.
  induction months as [|month rest IH]; intros index month_start Husage.
  - exists [], month_start. split; reflexivity.
  - cbn [loop dw309.loop]. rewrite payload_exact.
    destruct (figures_exact (payload_of monthly_data month item) month usage_avg exact_avg)
      as [Hq Hp].
    rewrite Hq. destruct (figures (payload_of monthly_data month item) month usage_avg)
      as [incoming usage] eqn:Ef. cbn [fst snd] in *. subst usage.
    assert (Hint : exists u,
               usage_or (payload_of monthly_data month item) usage_avg = Int u
               /\ match payload_of monthly_data month item !! K_USAGE_FORECAST with
                  | Some usage => num usage
                  | None => exact_avg
                  end = num u).
    { unfold usage_or.
      destruct (payload_of monthly_data month item !! K_USAGE_FORECAST) as [u|] eqn:Eu.
      - exists u. split; reflexivity.
      - destruct Husage as [Hall|[-> ->]].
        + apply Forall_cons in Hall as [[u Hu] _]. rewrite Eu in Hu. discriminate Hu.
        + exists 0%Z. split; [reflexivity|]. symmetry. apply Z2Qc_inj_0. }
    destruct Hint as (u & -> & ->).
    set (incoming' := if bool_decide (Z.of_nat index = Z.of_nat n - 1)%Z
                      then (incoming + order_qty)%Z else incoming).
    assert (Hinc : (if bool_decide (Z.of_nat index = Z.of_nat n - 1)%Z
                    then num incoming + num order_qty else num incoming)
                   = num incoming').
    { unfold incoming'. case_bool_decide; [rewrite Z2Qc_inj_add|]; reflexivity. }
    rewrite Hinc. cbn [month_end_of add sub].
    assert (Hend : num month_start + num incoming' - num u
                   = num (month_start + incoming' - u)).
    { rewrite Z2Qc_inj_sub, Z2Qc_inj_add. reflexivity. }
    rewrite Hend.
    destruct (IH (S index) (month_start + incoming' - u)%Z) as (trace & final & Hp & Hq').
    { destruct Husage as [Hall|H]; [left|right; exact H].
      apply Forall_cons in Hall as [_ Hall]. exact Hall. }
    rewrite Hp, Hq'.
    eexists (_ :: trace), final. split; [reflexivity|].
    rewrite fmap_cons. unfold exact_step at 2.
    cbn [st_month st_month_start st_incoming st_usage st_month_end st_status value].
    rewrite status_exact. reflexivity.
Qed.

End Loop.

(** On integer usage the run returns, and its steps read exactly are the
    steps of the exact projection of the data read exactly. *)
Lemma steps_exact (current_stock safety_stock max_stock order_qty : Z)
    (start_month : dw309.YearMonth) (months_ahead : nat) :
  integer_usage monthly_data item (dw309._month_range start_month months_ahead) ->
  exists trace final,
    steps monthly_data item current_stock safety_stock max_stock order_qty start_month
      months_ahead
    = Some (trace, Int final)
    /\ dw309.steps (exact_data monthly_data) item (num current_stock) (num safety_stock)
         (num max_stock) (num order_qty) start_month months_ahead
       = (exact_step <$> trace, num final).
Proof.
  intros (usage_avg & Havg & Husage). unfold steps, dw309.steps. rewrite Havg.
  apply loop_exact. destruct Husage as [Hall| ->]; [left; exact Hall|right].
  split; [reflexivity|]. apply (average_exact_zero 0), Havg.
Qed.

End IntegerData.


(** ** The loop on Python numbers, for every input *)

Section BinaryLoop.

Import PyNum dw309_binary64.

Variable monthly_data : IntData.
Variable item : string.
Variable usage_avg : number.
Variables safety_stock max_stock : Z.
Variable n : nat.





End BinaryLoop.


(** ** The projection of [build_dw309_forecast] as Python computes it *)

Section BinaryProjection.

Import PyNum dw309_binary64.

Variable monthly_data : IntData.
Variable item : string.
Variables current safety max_ order : Z.
Variable start : dw309.YearMonth.
Variable months_ahead : nat.






End BinaryProjection.

Lemma integer_plan_usage :
  integer_usage integer_plan DW309 (dw309._month_range dw309.DEFAULT_START 2).
Proof.
  eexists. split; [vm_compute; reflexivity|]. left.
  change (dw309._month_range dw309.DEFAULT_START 2)
    with ["2026-01"; "2026-02"; "2026-03"]%string.
  repeat constructor; eexists; reflexivity.
Qed.



Example integer_plan_month_ends :
  dw309_binary64.steps integer_plan DW309 200 100 500 50 dw309.DEFAULT_START 2
  = Some ([ {| dw309_binary64.st_month := "2026-01";
               dw309_binary64.st_month_start := PyNum.Int 200;
               dw309_binary64.st_incoming := 20;
               dw309_binary64.st_usage := PyNum.Int 30;
               dw309_binary64.st_month_end := PyNum.Int 190;
               dw309_binary64.st_status := dw309.NORMAL |};
             {| dw309_binary64.st_month := "2026-02";
               dw309_binary64.st_month_start := PyNum.Int 190;
               dw309_binary64.st_incoming := 20;
               dw309_binary64.st_usage := PyNum.Int 30;
               dw309_binary64.st_month_end := PyNum.Int 180;
               dw309_binary64.st_status := dw309.NORMAL |};
             {| dw309_binary64.st_month := "2026-03";
               dw309_binary64.st_month_start := PyNum.Int 180;
               dw309_binary64.st_incoming := 70;
               dw309_binary64.st_usage := PyNum.Int 30;
               dw309_binary64.st_month_end := PyNum.Int 220;
               dw309_binary64.st_status := dw309.NORMAL |} ], PyNum.Int 220).
Proof. vm_compute. reflexivity. Qed.




(** X1: when no month computes with a float, raising the starting stock
    of the projection by an integer [d] raises the starting and the ending
    stock of every month, and the final ending stock of the summary, by
    exactly [d]; the incoming and usage figures do not change. *)
Theorem dw309_integer_start_shift (monthly_data : dw309_binary64.IntData) (item : string)
    (current safety max_ order d : Z) (start : dw309.YearMonth) (months_ahead : nat) :
  integer_usage monthly_data item (dw309._month_range start months_ahead) ->
  exists t0 f0 td fd,
    dw309_binary64.steps monthly_data item current safety max_ order start months_ahead
    = Some (t0, f0)
    /\ dw309_binary64.steps monthly_data item (current + d) safety max_ order start
         months_ahead
       = Some (td, fd)
    /\ exact_step <$> td
       = shift_start (num d) (num safety) (num max_) <$> (exact_step <$> t0)
    /\ PyNum.value fd = PyNum.value f0 + num d.
Proof.
  intros Husage.
  destruct (steps_exact monthly_data item current safety max_ order start months_ahead
              Husage) as (t0 & f0 & H0 & E0).
  destruct (steps_exact monthly_data item (current + d) safety max_ order start
              months_ahead Husage) as (td & fd & Hd & Ed).
  exists t0, (PyNum.Int f0), td, (PyNum.Int fd).
  split; [exact H0|]. split; [exact Hd|].
  rewrite Z2Qc_inj_add in Ed. unfold dw309.steps in E0, Ed.
  destruct (loop_start_shift (exact_data monthly_data) item
              (dw309.calculate_usage_average (exact_data monthly_data) item)
              (num safety) (num max_) (num order)
              (length (dw309._month_range start months_ahead))
              (dw309._month_range start months_ahead) 0 (num current) (num d))
    as [Hfst Hsnd].
  rewrite Ed, E0 in Hfst, Hsnd. cbn [fst snd] in Hfst, Hsnd.
  split; [exact Hfst|exact Hsnd].
Qed.

Lemma dw309_integer_start_shift_witness :
  exists t0 f0 td fd,
    dw309_binary64.steps integer_plan DW309 200 100 500 50 dw309.DEFAULT_START 2
    = Some (t0, f0)
    /\ dw309_binary64.steps integer_plan DW309 (200 + 7) 100 500 50 dw309.DEFAULT_START 2
       = Some (td, fd)
    /\ PyNum.value fd = PyNum.value f0 + num 7.
Proof.
  destruct (dw309_integer_start_shift integer_plan DW309 200 100 500 50 7
              dw309.DEFAULT_START 2 integer_plan_usage)
    as (t0 & f0 & td & fd & H0 & Hd & _ & Hf).
  exists t0, f0, td, fd. repeat split; assumption.
Defined.

(** With the usage forecasts 0, 0 and 1 and the float average of 2026-04,
    the run from a stock of 2 ends at 0.6666666666666667 and the run from
    a stock of 4 at 2.6666666666666665, which is not the former plus 2. *)
Example float_average_breaks_start_shift :
  exists t0 f0 td fd,
    dw309_binary64.steps float_forecast DW309 2 0 10 0 dw309.DEFAULT_START 3
    = Some (t0, f0)
    /\ dw309_binary64.steps float_forecast DW309 (2 + 2) 0 10 0 dw309.DEFAULT_START 3
       = Some (td, fd)
    /\ f0 = PyNum.Float (S754_finite false 6004799503160662 (-53))
    /\ fd = PyNum.Float (S754_finite false 6004799503160661 (-51))
    /\ PyNum.add f0 (PyNum.Int 2)
       = Some (PyNum.Float (S754_finite false 6004799503160662 (-51)))
    /\ PyNum.value fd <> PyNum.value f0 + num 2.
Proof.
  eexists _, _, _, _. split; [vm_compute; reflexivity|].
  split; [vm_compute; reflexivity|]. split; [reflexivity|]. split; [reflexivity|].
  split; [vm_compute; reflexivity|].
  intros H. apply (f_equal this) in H. vm_compute in H. discriminate H.
Qed.
